(** * EU public consultations scraper: a shallow embedding of [scraper.py]

    The first part of the file holds the definitions:

    - [PyStr]: the Python string operations the scraper relies on
      ([str.strip], [str.lower], [in], [str.split], the two regular
      expressions);
    - [ConsultationData]: the output record, field for field;
    - [Eff]: a state-and-exception monad over an abstract browser;
    - [Playwright]: the calls the scraper makes on the browser;
    - [get_initiative_urls], [scrape_consultation],
      [extract_consultation_data] and [scrape_all_consultations], written
      against an arbitrary browser;
    - [StaticSite]: a concrete, scripted browser used to run the scraper,
      and [Scenario], a sample site;
    - the assertions the theorems are stated with.

    The second part holds the proofs: a small Hoare logic for blocks, what
    each block of the scraper preserves, and the properties of the
    extractor, the classification of file entries, the capture dictionary,
    the listing walker and the orchestrator.

    Strings are sequences of 8-bit characters.  The character classes used by
    [strip], [lower], [\s] and [\d] are the ASCII ones; Python's treatment of
    non-ASCII letters, digits and blanks is outside the model.  Calls to the
    logger are left out. *)

From Stdlib Require Import String Ascii List Bool Arith NArith Lia.
Import ListNotations.
Open Scope string_scope.
Open Scope nat_scope.

(* ================================================================== *)
(** * Python strings *)

Module PyStr.

(** [s.startswith(p)] *)
Definition startswith (s p : string) : bool := String.prefix p s.

(** [s.endswith(suf)] *)
Fixpoint endswith (s suf : string) : bool :=
  if String.eqb s suf then true
  else match s with
       | EmptyString => false
       | String _ t => endswith t suf
       end.

(** [needle in hay] *)
Fixpoint contains (needle hay : string) : bool :=
  if String.prefix needle hay then true
  else match hay with
       | EmptyString => false
       | String _ t => contains needle t
       end.

(** [s.rstrip(c)] for a one-character set *)
Fixpoint rstrip_char (c : ascii) (s : string) : string :=
  match s with
  | EmptyString => EmptyString
  | String a t =>
      match rstrip_char c t with
      | EmptyString => if Ascii.eqb a c then EmptyString else String a EmptyString
      | t' => String a t'
      end
  end.

(** [s[:-n]] for [n > 0] *)
Definition drop_last (n : nat) (s : string) : string :=
  String.substring 0 (String.length s - n) s.

(** [s.split(c)[0]]: everything before the first [c] *)
Fixpoint before_first (c : ascii) (s : string) : string :=
  match s with
  | EmptyString => EmptyString
  | String a t => if Ascii.eqb a c then EmptyString else String a (before_first c t)
  end.

(** [str.isspace] on one ASCII character: TAB, LF, VT, FF, CR, the four
    separators FS, GS, RS, US, and the blank. *)
Definition isspace (a : ascii) : bool :=
  let n := nat_of_ascii a in
  ((9 <=? n) && (n <=? 13)) || ((28 <=? n) && (n <=? 32)).

(** [\d] on one ASCII character: the digits 0 to 9.  On a [str] pattern
    Python's [\d] also matches the decimal digits of other scripts; these
    are outside the model, as said at the head of the file. *)
Definition isdigit (a : ascii) : bool :=
  let n := nat_of_ascii a in (48 <=? n) && (n <=? 57).

Fixpoint lstrip (s : string) : string :=
  match s with
  | EmptyString => EmptyString
  | String a t => if isspace a then lstrip t else s
  end.

Fixpoint rstrip (s : string) : string :=
  match s with
  | EmptyString => EmptyString
  | String a t =>
      match rstrip t with
      | EmptyString => if isspace a then EmptyString else String a EmptyString
      | t' => String a t'
      end
  end.

(** [s.strip()] *)
Definition strip (s : string) : string := rstrip (lstrip s).

Definition lower_char (a : ascii) : ascii :=
  let n := nat_of_ascii a in
  if (65 <=? n) && (n <=? 90) then ascii_of_nat (n + 32) else a.

(** [s.lower()] *)
Fixpoint lower (s : string) : string :=
  match s with
  | EmptyString => EmptyString
  | String a t => String (lower_char a) (lower t)
  end.

(** The longest prefix of [s] made of characters satisfying [p], and what
    follows it: how a greedy [\d+] or [\s*] consumes its input. *)
Fixpoint span (p : ascii -> bool) (s : string) : string * string :=
  match s with
  | EmptyString => (EmptyString, EmptyString)
  | String a t =>
      if p a then let (u, v) := span p t in (String a u, v)
      else (EmptyString, s)
  end.

(** [s] with the prefix [p] removed, when [s] starts with [p]. *)
Fixpoint strip_prefix (p s : string) : option string :=
  match p, s with
  | EmptyString, _ => Some s
  | String a p', String b s' => if Ascii.eqb a b then strip_prefix p' s' else None
  | String _ _, EmptyString => None
  end.

(** [re.search(lit + r'(\d+)', s)], returning [group(1)]: the leftmost
    position at which [lit] is followed by a digit, and the whole run of
    digits found there. *)
Fixpoint search_lit_digits (lit s : string) : option string :=
  let here :=
    match strip_prefix lit s with
    | Some rest =>
        match fst (span isdigit rest) with
        | EmptyString => None
        | ds => Some ds
        end
    | None => None
    end in
  match here with
  | Some ds => Some ds
  | None => match s with
            | EmptyString => None
            | String _ t => search_lit_digits lit t
            end
  end.

(** [re.search(r':\s*(\d+)', s)], returning [group(1)]. *)
Fixpoint search_colon_number (s : string) : option string :=
  let here :=
    match s with
    | String ":" rest =>
        match fst (span isdigit (snd (span isspace rest))) with
        | EmptyString => None
        | ds => Some ds
        end
    | _ => None
    end in
  match here with
  | Some ds => Some ds
  | None => match s with
            | EmptyString => None
            | String _ t => search_colon_number t
            end
  end.

(** The value of a string of decimal digits. *)
Definition digit_value (a : ascii) : N := N.of_nat (nat_of_ascii a - 48).

Fixpoint digits_value_acc (acc : N) (s : string) : N :=
  match s with
  | EmptyString => acc
  | String a t => digits_value_acc (10 * acc + digit_value a)%N t
  end.

Definition digits_value (s : string) : N := digits_value_acc 0%N s.

(** [x in xs] for a list of strings *)
Definition mem (x : string) (xs : list string) : bool :=
  existsb (String.eqb x) xs.

(** Truthiness of an optional string: [None] and [""] are false. *)
Definition truthy (o : option string) : bool :=
  match o with
  | Some (String _ _) => true
  | _ => false
  end.

End PyStr.

(* ================================================================== *)
(** * The output record *)

(** [ConsultationData], the dataclass of [scraper.py], field for field.
    [Optional[str]] is [option string]; the feedback count is a Python
    integer obtained from a string of digits, hence a natural number. *)
Record ConsultationData : Type := mkConsultationData {
  initiative_id : string;
  initiative_name : string;
  initiative_url : string;
  consultation_url : string;
  topic : option string;
  consultation_period : option string;
  total_feedback : option N;
  has_summary_report : bool;
  summary_report_url : option string;
  has_contributions_zip : bool;
  contributions_zip_url : option string;
  has_documents_annexed : bool;
  documents_annexed_url : option string;
  scrape_timestamp : string;
  scrape_status : string;
  error_message : option string
}.

(** Assignment to one attribute: [data.f = v]. *)
Definition set_initiative_id (v : string) (d : ConsultationData) : ConsultationData :=
  {| initiative_id := v; initiative_name := initiative_name d;
     initiative_url := initiative_url d;
     consultation_url := consultation_url d; topic := topic d;
     consultation_period := consultation_period d;
     total_feedback := total_feedback d;
     has_summary_report := has_summary_report d;
     summary_report_url := summary_report_url d;
     has_contributions_zip := has_contributions_zip d;
     contributions_zip_url := contributions_zip_url d;
     has_documents_annexed := has_documents_annexed d;
     documents_annexed_url := documents_annexed_url d;
     scrape_timestamp := scrape_timestamp d;
     scrape_status := scrape_status d; error_message := error_message d |}.

Definition set_initiative_name (v : string) (d : ConsultationData) : ConsultationData :=
  {| initiative_id := initiative_id d; initiative_name := v;
     initiative_url := initiative_url d;
     consultation_url := consultation_url d; topic := topic d;
     consultation_period := consultation_period d;
     total_feedback := total_feedback d;
     has_summary_report := has_summary_report d;
     summary_report_url := summary_report_url d;
     has_contributions_zip := has_contributions_zip d;
     contributions_zip_url := contributions_zip_url d;
     has_documents_annexed := has_documents_annexed d;
     documents_annexed_url := documents_annexed_url d;
     scrape_timestamp := scrape_timestamp d;
     scrape_status := scrape_status d; error_message := error_message d |}.

Definition set_consultation_url (v : string) (d : ConsultationData) : ConsultationData :=
  {| initiative_id := initiative_id d; initiative_name := initiative_name d;
     initiative_url := initiative_url d; consultation_url := v;
     topic := topic d; consultation_period := consultation_period d;
     total_feedback := total_feedback d;
     has_summary_report := has_summary_report d;
     summary_report_url := summary_report_url d;
     has_contributions_zip := has_contributions_zip d;
     contributions_zip_url := contributions_zip_url d;
     has_documents_annexed := has_documents_annexed d;
     documents_annexed_url := documents_annexed_url d;
     scrape_timestamp := scrape_timestamp d;
     scrape_status := scrape_status d; error_message := error_message d |}.

Definition set_topic (v : option string) (d : ConsultationData) : ConsultationData :=
  {| initiative_id := initiative_id d; initiative_name := initiative_name d;
     initiative_url := initiative_url d;
     consultation_url := consultation_url d; topic := v;
     consultation_period := consultation_period d;
     total_feedback := total_feedback d;
     has_summary_report := has_summary_report d;
     summary_report_url := summary_report_url d;
     has_contributions_zip := has_contributions_zip d;
     contributions_zip_url := contributions_zip_url d;
     has_documents_annexed := has_documents_annexed d;
     documents_annexed_url := documents_annexed_url d;
     scrape_timestamp := scrape_timestamp d;
     scrape_status := scrape_status d; error_message := error_message d |}.

Definition set_consultation_period (v : option string) (d : ConsultationData) : ConsultationData :=
  {| initiative_id := initiative_id d; initiative_name := initiative_name d;
     initiative_url := initiative_url d;
     consultation_url := consultation_url d; topic := topic d;
     consultation_period := v; total_feedback := total_feedback d;
     has_summary_report := has_summary_report d;
     summary_report_url := summary_report_url d;
     has_contributions_zip := has_contributions_zip d;
     contributions_zip_url := contributions_zip_url d;
     has_documents_annexed := has_documents_annexed d;
     documents_annexed_url := documents_annexed_url d;
     scrape_timestamp := scrape_timestamp d;
     scrape_status := scrape_status d; error_message := error_message d |}.

Definition set_total_feedback (v : option N) (d : ConsultationData) : ConsultationData :=
  {| initiative_id := initiative_id d; initiative_name := initiative_name d;
     initiative_url := initiative_url d;
     consultation_url := consultation_url d; topic := topic d;
     consultation_period := consultation_period d; total_feedback := v;
     has_summary_report := has_summary_report d;
     summary_report_url := summary_report_url d;
     has_contributions_zip := has_contributions_zip d;
     contributions_zip_url := contributions_zip_url d;
     has_documents_annexed := has_documents_annexed d;
     documents_annexed_url := documents_annexed_url d;
     scrape_timestamp := scrape_timestamp d;
     scrape_status := scrape_status d; error_message := error_message d |}.

Definition set_has_summary_report (v : bool) (d : ConsultationData) : ConsultationData :=
  {| initiative_id := initiative_id d; initiative_name := initiative_name d;
     initiative_url := initiative_url d;
     consultation_url := consultation_url d; topic := topic d;
     consultation_period := consultation_period d;
     total_feedback := total_feedback d; has_summary_report := v;
     summary_report_url := summary_report_url d;
     has_contributions_zip := has_contributions_zip d;
     contributions_zip_url := contributions_zip_url d;
     has_documents_annexed := has_documents_annexed d;
     documents_annexed_url := documents_annexed_url d;
     scrape_timestamp := scrape_timestamp d;
     scrape_status := scrape_status d; error_message := error_message d |}.

Definition set_summary_report_url (v : option string) (d : ConsultationData) : ConsultationData :=
  {| initiative_id := initiative_id d; initiative_name := initiative_name d;
     initiative_url := initiative_url d;
     consultation_url := consultation_url d; topic := topic d;
     consultation_period := consultation_period d;
     total_feedback := total_feedback d;
     has_summary_report := has_summary_report d; summary_report_url := v;
     has_contributions_zip := has_contributions_zip d;
     contributions_zip_url := contributions_zip_url d;
     has_documents_annexed := has_documents_annexed d;
     documents_annexed_url := documents_annexed_url d;
     scrape_timestamp := scrape_timestamp d;
     scrape_status := scrape_status d; error_message := error_message d |}.

Definition set_has_contributions_zip (v : bool) (d : ConsultationData) : ConsultationData :=
  {| initiative_id := initiative_id d; initiative_name := initiative_name d;
     initiative_url := initiative_url d;
     consultation_url := consultation_url d; topic := topic d;
     consultation_period := consultation_period d;
     total_feedback := total_feedback d;
     has_summary_report := has_summary_report d;
     summary_report_url := summary_report_url d;
     has_contributions_zip := v;
     contributions_zip_url := contributions_zip_url d;
     has_documents_annexed := has_documents_annexed d;
     documents_annexed_url := documents_annexed_url d;
     scrape_timestamp := scrape_timestamp d;
     scrape_status := scrape_status d; error_message := error_message d |}.

Definition set_contributions_zip_url (v : option string) (d : ConsultationData) : ConsultationData :=
  {| initiative_id := initiative_id d; initiative_name := initiative_name d;
     initiative_url := initiative_url d;
     consultation_url := consultation_url d; topic := topic d;
     consultation_period := consultation_period d;
     total_feedback := total_feedback d;
     has_summary_report := has_summary_report d;
     summary_report_url := summary_report_url d;
     has_contributions_zip := has_contributions_zip d;
     contributions_zip_url := v;
     has_documents_annexed := has_documents_annexed d;
     documents_annexed_url := documents_annexed_url d;
     scrape_timestamp := scrape_timestamp d;
     scrape_status := scrape_status d; error_message := error_message d |}.

Definition set_has_documents_annexed (v : bool) (d : ConsultationData) : ConsultationData :=
  {| initiative_id := initiative_id d; initiative_name := initiative_name d;
     initiative_url := initiative_url d;
     consultation_url := consultation_url d; topic := topic d;
     consultation_period := consultation_period d;
     total_feedback := total_feedback d;
     has_summary_report := has_summary_report d;
     summary_report_url := summary_report_url d;
     has_contributions_zip := has_contributions_zip d;
     contributions_zip_url := contributions_zip_url d;
     has_documents_annexed := v;
     documents_annexed_url := documents_annexed_url d;
     scrape_timestamp := scrape_timestamp d;
     scrape_status := scrape_status d; error_message := error_message d |}.

Definition set_documents_annexed_url (v : option string) (d : ConsultationData) : ConsultationData :=
  {| initiative_id := initiative_id d; initiative_name := initiative_name d;
     initiative_url := initiative_url d;
     consultation_url := consultation_url d; topic := topic d;
     consultation_period := consultation_period d;
     total_feedback := total_feedback d;
     has_summary_report := has_summary_report d;
     summary_report_url := summary_report_url d;
     has_contributions_zip := has_contributions_zip d;
     contributions_zip_url := contributions_zip_url d;
     has_documents_annexed := has_documents_annexed d;
     documents_annexed_url := v; scrape_timestamp := scrape_timestamp d;
     scrape_status := scrape_status d; error_message := error_message d |}.

Definition set_scrape_status (v : string) (d : ConsultationData) : ConsultationData :=
  {| initiative_id := initiative_id d; initiative_name := initiative_name d;
     initiative_url := initiative_url d;
     consultation_url := consultation_url d; topic := topic d;
     consultation_period := consultation_period d;
     total_feedback := total_feedback d;
     has_summary_report := has_summary_report d;
     summary_report_url := summary_report_url d;
     has_contributions_zip := has_contributions_zip d;
     contributions_zip_url := contributions_zip_url d;
     has_documents_annexed := has_documents_annexed d;
     documents_annexed_url := documents_annexed_url d;
     scrape_timestamp := scrape_timestamp d; scrape_status := v;
     error_message := error_message d |}.

Definition set_error_message (v : option string) (d : ConsultationData) : ConsultationData :=
  {| initiative_id := initiative_id d; initiative_name := initiative_name d;
     initiative_url := initiative_url d;
     consultation_url := consultation_url d; topic := topic d;
     consultation_period := consultation_period d;
     total_feedback := total_feedback d;
     has_summary_report := has_summary_report d;
     summary_report_url := summary_report_url d;
     has_contributions_zip := has_contributions_zip d;
     contributions_zip_url := contributions_zip_url d;
     has_documents_annexed := has_documents_annexed d;
     documents_annexed_url := documents_annexed_url d;
     scrape_timestamp := scrape_timestamp d;
     scrape_status := scrape_status d; error_message := v |}.

(* ================================================================== *)
(** * Effects *)

(** A Python exception, as far as the scraper looks at it: [str(e)].  The
    exceptions of the model are instances of [Exception], the class every
    handler of the scraper catches and the class Playwright raises. *)
Record PyException : Type := Exception { exn_message : string }.

Inductive result (A : Type) : Type :=
| Return (a : A)
| Raise (e : PyException).

Arguments Return {A} a.
Arguments Raise {A} e.

(** A call on the browser: it changes the browser and returns or raises. *)
Definition Cap (W A : Type) : Type := W -> W * result A.

(** A block of Python code: it changes the browser [W] and the objects [S]
    it holds, and returns or raises.  What was assigned before an exception
    stays assigned. *)
Definition M (W S A : Type) : Type := W -> S -> W * S * result A.

Module Eff.

Section Ops.
Context {W S : Type}.

Definition ret {A} (a : A) : M W S A := fun w s => (w, s, Return a).

Definition bind {A B} (c : M W S A) (k : A -> M W S B) : M W S B :=
  fun w s =>
    match c w s with
    | (w', s', Return a) => k a w' s'
    | (w', s', Raise e) => (w', s', Raise e)
    end.

(** [raise e] *)
Definition raise {A} (e : PyException) : M W S A := fun w s => (w, s, Raise e).

(** [await f]: the coroutine [f] runs on the browser. *)
Definition await {A} (f : Cap W A) : M W S A :=
  fun w s => let (w', r) := f w in (w', s, r).

Definition get : M W S S := fun w s => (w, s, Return s).

Definition modify (f : S -> S) : M W S unit := fun w s => (w, f s, Return tt).

(** [try: c except Exception as e: h e] *)
Definition try_except {A} (c : M W S A) (h : PyException -> M W S A) : M W S A :=
  fun w s =>
    match c w s with
    | (w', s', Raise e) => h e w' s'
    | r => r
    end.

(** [try: c finally: f] *)
Definition try_finally {A} (c : M W S A) (f : M W S unit) : M W S A :=
  fun w s =>
    match c w s with
    | (w', s', r) =>
        match f w' s' with
        | (w'', s'', Return _) => (w'', s'', r)
        | (w'', s'', Raise e) => (w'', s'', Raise e)
        end
    end.

End Ops.

End Eff.

Import Eff.

Declare Scope eff_scope.
Delimit Scope eff_scope with eff.
Notation "x <- c1 ;; c2" := (bind c1 (fun x => c2))
  (at level 61, c1 at next level, right associativity) : eff_scope.
Notation "c1 ;; c2" := (bind c1 (fun _ => c2))
  (at level 61, right associativity) : eff_scope.
Open Scope eff_scope.

(* ================================================================== *)
(** * The browser *)

(** The part of Playwright the scraper calls, on a browser state [W] with
    element handles [H].  Time-outs and [wait_until] arguments are left to
    the browser: whether a call times out is part of its behaviour.
    [last_requests w] lists the URLs of the requests the page issued during
    the call that led to [w], in the order the [request] event fired. *)
Record Playwright (W H : Type) : Type := mkPlaywright {
  browser_launch : Cap W unit;
  browser_close : Cap W unit;
  page_goto : string -> Cap W unit;
  page_wait_for_load_state : string -> Cap W unit;
  page_wait_for_selector : string -> Cap W unit;
  page_query_selector : string -> Cap W (option H);
  page_query_selector_all : string -> Cap W (list H);
  element_query_selector : H -> string -> Cap W (option H);
  element_inner_text : H -> Cap W string;
  element_get_attribute : H -> string -> Cap W (option string);
  element_next_sibling : H -> Cap W (option H);
  element_click : H -> Cap W unit;
  asyncio_sleep : W -> W;
  last_requests : W -> list string;
  datetime_now : W -> string
}.

Arguments browser_launch {W H} _.
Arguments browser_close {W H} _.
Arguments page_goto {W H} _ _.
Arguments page_wait_for_load_state {W H} _ _.
Arguments page_wait_for_selector {W H} _ _.
Arguments page_query_selector {W H} _ _.
Arguments page_query_selector_all {W H} _ _.
Arguments element_query_selector {W H} _ _ _.
Arguments element_inner_text {W H} _ _.
Arguments element_get_attribute {W H} _ _ _.
Arguments element_next_sibling {W H} _ _.
Arguments element_click {W H} _ _.
Arguments asyncio_sleep {W H} _ _.
Arguments last_requests {W H} _ _.
Arguments datetime_now {W H} _ _.

(* ================================================================== *)
(** * Dictionaries and selectors *)

(** A Python [dict] from strings to strings, in insertion order. *)
Definition dict : Type := list (string * string).

(** [d[k] = v]: a key already present keeps its place. *)
Fixpoint dict_setitem (k v : string) (d : dict) : dict :=
  match d with
  | [] => [(k, v)]
  | (k', v') :: rest =>
      if String.eqb k' k then (k', v) :: rest
      else (k', v') :: dict_setitem k v rest
  end.

(** [list(d.values())] *)
Definition dict_values (d : dict) : list string := map snd d.

(** [l[-1]] of a non-empty list *)
Fixpoint list_last {A : Type} (l : list A) : option A :=
  match l with
  | [] => None
  | [x] => Some x
  | _ :: t => list_last t
  end.

Definition dquote : string := String (ascii_of_nat 34) EmptyString.

Definition SEARCH_URL : string :=
  "https://ec.europa.eu/info/law/better-regulation/have-your-say/"
  ++ "initiatives_en?frontEndStage=OPC_LAUNCHED&feedbackStatus=CLOSED"
  ++ "&feedbackOpenDateFrom=01-01-2025&feedbackOpenDateClosedBy=31-12-2025".

Definition SEL_CARD : string := ".ecl-card".

Definition SEL_INITIATIVE_LINK : string :=
  "a[href*=" ++ dquote ++ "/initiatives/" ++ dquote ++ "]".

Definition SEL_NEXT : string :=
  "button[aria-label*=" ++ dquote ++ "next" ++ dquote ++ " i], "
  ++ "a[aria-label*=" ++ dquote ++ "next" ++ dquote ++ " i], "
  ++ ".ecl-pagination__link--next".

Definition SEL_HEADING : string := "h1, .ecl-page-header__title".
Definition SEL_TERM : string := "dt.ecl-description-list__term".
Definition SEL_PERIOD : string := "span.ecl-u-type-capitalize".
Definition SEL_FILE : string := "ecl-file".
Definition SEL_FILE_TITLE : string := ".ecl-file__title".

Definition NO_LINK_MESSAGE : string := "Could not find public consultation link".

(* ================================================================== *)
(** * The scraper *)

(** The objects [scrape_consultation] and [extract_consultation_data] work
    on: the record being filled, and the dictionary the request listener
    writes to. *)
Record Frame : Type := mkFrame {
  data : ConsultationData;
  captured_urls : dict
}.

Definition on_data (f : ConsultationData -> ConsultationData) (s : Frame) : Frame :=
  {| data := f (data s); captured_urls := captured_urls s |}.

Definition set_captured_urls (d : dict) (s : Frame) : Frame :=
  {| data := data s; captured_urls := d |}.

(** How the [try] block of [scrape_consultation] is left when nothing is
    raised: by its [return data], or by running to its end. *)
Inductive flow : Type := ReturnData | Fallthrough.

(** [int(s)] on a string of digits.  CPython refuses more than 4300 digits
    with a [ValueError]. *)
Definition py_int (s : string) : result N :=
  if 4300 <? String.length s
  then Raise (Exception "Exceeds the limit (4300 digits) for integer string conversion")
  else Return (PyStr.digits_value s).

(** The record [scrape_consultation] starts from. *)
Definition initial_data (initiative_url timestamp : string) : ConsultationData :=
  {| initiative_id := "";
     initiative_name := "";
     initiative_url := initiative_url;
     consultation_url := "";
     topic := None;
     consultation_period := None;
     total_feedback := None;
     has_summary_report := false;
     summary_report_url := None;
     has_contributions_zip := false;
     contributions_zip_url := None;
     has_documents_annexed := false;
     documents_annexed_url := None;
     scrape_timestamp := timestamp;
     scrape_status := "pending";
     error_message := None |}.

(** [handle_request], the listener of [extract_consultation_data]. *)
Definition handle_request (url : string) (captured : dict) : dict :=
  if PyStr.contains "/api/download/" url then dict_setitem url url captured
  else captured.

(** The listener run on every request of a call, in order. *)
Definition handle_requests (urls : list string) (captured : dict) : dict :=
  fold_left (fun d u => handle_request u d) urls captured.

(** Step 2 of [scrape_consultation]: the consultation URL, built from the
    initiative URL.  The string operations used do not raise, so the
    handler that would leave [None] is never entered. *)
Definition construct_consultation_link (initiative_url : string) : option string :=
  let base := PyStr.rstrip_char "/" initiative_url in
  let base := if PyStr.endswith base "_en" then PyStr.drop_last 3 base else base in
  Some (base ++ "/public-consultation_en")%string.

(** The file-type decision of [extract_consultation_data]: the
    [if]/[elif]/[elif] over the section flags and the lowered title. *)
Definition record_artifact (has_summary_section has_contributions_section : bool)
    (title_lower latest_url : string) (d : ConsultationData) : ConsultationData :=
  if has_contributions_section
     && PyStr.contains "contribution" title_lower
     && negb (PyStr.contains "annex" title_lower)
  then set_contributions_zip_url (Some latest_url) (set_has_contributions_zip true d)
  else if has_contributions_section
          && PyStr.contains "document" title_lower
          && PyStr.contains "annex" title_lower
  then set_documents_annexed_url (Some latest_url) (set_has_documents_annexed true d)
  else if has_summary_section
  then set_summary_report_url (Some latest_url) (set_has_summary_report true d)
  else d.

(** Normalisation of one [href] in [get_initiative_urls]. *)
Definition normalize_href (href : string) : string :=
  let full_url :=
    if PyStr.startswith href "/" then ("https://ec.europa.eu" ++ href)%string
    else href in
  PyStr.before_first "?" full_url.

(** [if full_url not in initiative_urls: initiative_urls.append(full_url)] *)
Definition add_url (full_url : string) (initiative_urls : list string) : list string :=
  if PyStr.mem full_url initiative_urls then initiative_urls
  else (initiative_urls ++ [full_url])%list.

Section Scraper.

Context {W H : Type} (pw : Playwright W H).

(** ** [wait_for_page_load] *)
Definition wait_for_page_load {S : Type} : M W S unit :=
  try_except (await (page_wait_for_load_state pw "networkidle"))
             (fun _ => await (page_wait_for_load_state pw "domcontentloaded")).

(** [await asyncio.sleep(...)] *)
Definition sleep {S : Type} : M W S unit :=
  await (fun w => (asyncio_sleep pw w, Return tt)).

(** ** [get_initiative_urls] *)

(** The loop over the cards of one result page. *)
Fixpoint cards_loop (cards : list H) : M W (list string) unit :=
  match cards with
  | [] => ret tt
  | card :: rest =>
      link_element <- await (element_query_selector pw card SEL_INITIATIVE_LINK) ;;
      match link_element with
      | Some le =>
          href <- await (element_get_attribute pw le "href") ;;
          match href with
          | Some (String _ _ as h) => modify (add_url (normalize_href h))
          | _ => ret tt
          end
      | None => ret tt
      end ;;
      cards_loop rest
  end.

(** The [while True] loop over the result pages.  It returns [true] when
    left by a [break], [false] when [fuel] pages were read and the loop is
    still running. *)
Fixpoint pages_loop (fuel : nat) : M W (list string) bool :=
  match fuel with
  | 0 => ret false
  | S fuel' =>
      cards <- await (page_query_selector_all pw SEL_CARD) ;;
      cards_loop cards ;;
      next_button <- await (page_query_selector pw SEL_NEXT) ;;
      match next_button with
      | Some nb =>
          is_disabled <- await (element_get_attribute pw nb "disabled") ;;
          if PyStr.truthy is_disabled then ret true
          else
            clicked <- try_except
                         (await (element_click pw nb) ;;
                          wait_for_page_load ;;
                          sleep ;;
                          ret true)
                         (fun _ => ret false) ;;
            if clicked then pages_loop fuel' else ret true
      | None => ret true
      end
  end.

(** The body of [get_initiative_urls] on its list [initiative_urls]. *)
Definition get_initiative_urls_body (fuel : nat) : M W (list string) bool :=
  try_except
    (await (page_goto pw SEARCH_URL) ;;
     wait_for_page_load ;;
     await (page_wait_for_selector pw SEL_CARD) ;;
     pages_loop fuel)
    (fun _ => ret true).

(** [get_initiative_urls]: the list when the walk ends within [fuel]
    result pages, [None] otherwise. *)
Definition get_initiative_urls (fuel : nat) : Cap W (option (list string)) :=
  fun w =>
    match get_initiative_urls_body fuel w [] with
    | (w', initiative_urls, Return true) => (w', Return (Some initiative_urls))
    | (w', _, Return false) => (w', Return None)
    | (w', _, Raise e) => (w', Raise e)
    end.

(** ** [extract_consultation_data] *)

(** An awaited call while [handle_request] is registered: the requests the
    page issues during the call reach the listener, whether the call
    returns or raises. *)
Definition listening {A : Type} (f : Cap W A) : M W Frame A :=
  fun w s =>
    let (w', r) := f w in
    (w', set_captured_urls (handle_requests (last_requests pw w') (captured_urls s)) s, r).

(** The loop looking for the topic among the [dt] elements. *)
Fixpoint topic_loop (topic_elements : list H) : M W Frame unit :=
  match topic_elements with
  | [] => ret tt
  | dt :: rest =>
      text <- await (element_inner_text pw dt) ;;
      if PyStr.contains "topic" (PyStr.lower text) then
        dd_element <- await (element_next_sibling pw dt) ;;
        match dd_element with
        | Some dd =>
            topic_text <- await (element_inner_text pw dd) ;;
            match topic_text with
            | EmptyString => ret tt
            | _ => modify (on_data (set_topic (Some (PyStr.strip topic_text))))
            end
        | None => topic_loop rest
        end
      else topic_loop rest
  end.

(** The loop looking for the feedback count among the [h4] elements. *)
Fixpoint feedback_loop (h4_elements : list H) : M W Frame unit :=
  match h4_elements with
  | [] => ret tt
  | h4 :: rest =>
      feedback_text <- await (element_inner_text pw h4) ;;
      if PyStr.contains "feedback" (PyStr.lower feedback_text)
         && PyStr.contains "received" (PyStr.lower feedback_text)
      then
        match PyStr.search_colon_number feedback_text with
        | Some digits =>
            match py_int digits with
            | Return n => modify (on_data (set_total_feedback (Some n)))
            | Raise e => raise e
            end
        | None => ret tt
        end
      else feedback_loop rest
  end.

(** The texts of the [h3] headings, stripped. *)
Fixpoint h3_loop (h3_elements : list H) (h3_texts : list string) : M W Frame (list string) :=
  match h3_elements with
  | [] => ret h3_texts
  | h3 :: rest =>
      text <- await (element_inner_text pw h3) ;;
      h3_loop rest (h3_texts ++ [PyStr.strip text])%list
  end.

(** One turn of the loop over the [ecl-file] elements. *)
Definition process_file (has_summary_section has_contributions_section : bool)
    (file_elem : H) : M W Frame unit :=
  title_elem <- listening (element_query_selector pw file_elem SEL_FILE_TITLE) ;;
  match title_elem with
  | Some te =>
      title <- listening (element_inner_text pw te) ;;
      let title_lower := PyStr.lower (PyStr.strip title) in
      download_link <- listening (element_query_selector pw file_elem "a") ;;
      match download_link with
      | Some dl =>
          try_except
            (listening (element_click pw dl) ;;
             listening (fun w => (asyncio_sleep pw w, Return tt)) ;;
             s <- get ;;
             match list_last (dict_values (captured_urls s)) with
             | Some latest_url =>
                 modify (on_data (record_artifact has_summary_section
                                    has_contributions_section title_lower latest_url))
             | None => ret tt
             end)
            (fun _ => ret tt)
      | None => ret tt
      end
  | None => ret tt
  end.

Fixpoint files_loop (has_summary_section has_contributions_section : bool)
    (file_elements : list H) : M W Frame unit :=
  match file_elements with
  | [] => ret tt
  | file_elem :: rest =>
      process_file has_summary_section has_contributions_section file_elem ;;
      files_loop has_summary_section has_contributions_section rest
  end.

Definition extract_topic : M W Frame unit :=
  try_except
    (topic_elements <- await (page_query_selector_all pw SEL_TERM) ;;
     topic_loop topic_elements)
    (fun _ => ret tt).

Definition extract_period : M W Frame unit :=
  try_except
    (period_element <- await (page_query_selector pw SEL_PERIOD) ;;
     match period_element with
     | Some pe =>
         text <- await (element_inner_text pw pe) ;;
         modify (on_data (set_consultation_period (Some (PyStr.strip text))))
     | None => ret tt
     end)
    (fun _ => ret tt).

Definition extract_feedback : M W Frame unit :=
  try_except
    (h4_elements <- await (page_query_selector_all pw "h4") ;;
     feedback_loop h4_elements)
    (fun _ => ret tt).

Definition extract_outcome : M W Frame unit :=
  try_except
    (h3_elements <- await (page_query_selector_all pw "h3") ;;
     h3_texts <- h3_loop h3_elements [] ;;
     let has_summary_section := PyStr.mem "Summary report" h3_texts in
     let has_contributions_section :=
       PyStr.mem "Contributions to the consultation" h3_texts in
     file_elements <- await (page_query_selector_all pw SEL_FILE) ;;
     modify (set_captured_urls []) ;;
     files_loop has_summary_section has_contributions_section file_elements)
    (fun _ => ret tt).

Definition extract_consultation_data : M W Frame unit :=
  extract_topic ;;
  extract_period ;;
  extract_feedback ;;
  extract_outcome.

(** ** [scrape_consultation] *)

(** Step 1: the identifier, the overview page, the name. *)
Definition load_initiative (initiative_url : string) : M W Frame unit :=
  match PyStr.search_lit_digits "/initiatives/" initiative_url with
  | Some group1 => modify (on_data (set_initiative_id group1))
  | None => ret tt
  end ;;
  await (page_goto pw initiative_url) ;;
  wait_for_page_load ;;
  try_except
    (name_element <- await (page_query_selector pw SEL_HEADING) ;;
     match name_element with
     | Some ne =>
         text <- await (element_inner_text pw ne) ;;
         modify (on_data (set_initiative_name (PyStr.strip text)))
     | None => ret tt
     end)
    (fun _ => ret tt).

(** From [if not consultation_link:] to the end of the [try] block. *)
Definition load_consultation (consultation_link : option string) : M W Frame flow :=
  match consultation_link with
  | Some (String _ _ as link) =>
      modify (on_data (set_consultation_url link)) ;;
      await (page_goto pw link) ;;
      wait_for_page_load ;;
      extract_consultation_data ;;
      modify (on_data (set_scrape_status "success")) ;;
      ret Fallthrough
  | _ =>
      modify (on_data (set_scrape_status "error")) ;;
      modify (on_data (set_error_message (Some NO_LINK_MESSAGE))) ;;
      ret ReturnData
  end.

(** The [try] block of [scrape_consultation]. *)
Definition scrape_try (initiative_url : string) : M W Frame flow :=
  load_initiative initiative_url ;;
  load_consultation (construct_consultation_link initiative_url).

(** The [except Exception as e] block of [scrape_consultation]. *)
Definition scrape_except (e : PyException) : M W Frame flow :=
  modify (on_data (set_scrape_status "error")) ;;
  modify (on_data (set_error_message (Some (exn_message e)))) ;;
  ret Fallthrough.

(** [scrape_consultation]: the record is created, filled by the [try]
    statement, and returned. *)
Definition scrape_consultation (initiative_url : string) : Cap W ConsultationData :=
  fun w =>
    let frame0 :=
      {| data := initial_data initiative_url (datetime_now pw w);
         captured_urls := [] |} in
    match try_except (scrape_try initiative_url) scrape_except w frame0 with
    | (w', s', Return _) => (w', Return (data s'))
    | (w', _, Raise e) => (w', Raise e)
    end.

(** ** [scrape_all_consultations] *)

(** The loop over the initiative URLs, on the list [self.results]. *)
Fixpoint scrape_loop (initiative_urls : list string) : M W (list ConsultationData) unit :=
  match initiative_urls with
  | [] => ret tt
  | initiative_url :: rest =>
      consultation_data <- await (scrape_consultation initiative_url) ;;
      modify (fun results => results ++ [consultation_data])%list ;;
      sleep ;;
      scrape_loop rest
  end.

(** The [try] statement of [scrape_all_consultations]; [false] when the
    walk over the result pages did not end within [fuel] pages. *)
Definition crawl (fuel : nat) : M W (list ConsultationData) bool :=
  try_except
    (initiative_urls <- await (get_initiative_urls fuel) ;;
     match initiative_urls with
     | Some urls => scrape_loop urls ;; ret true
     | None => ret false
     end)
    (fun _ => ret true).

(** [scrape_all_consultations]: the browser is launched, [crawl] runs, the
    browser is closed, [self.results] is returned. *)
Definition scrape_all_consultations (fuel : nat)
  : M W (list ConsultationData) (option (list ConsultationData)) :=
  await (browser_launch pw) ;;
  finished <- try_finally (crawl fuel) (await (browser_close pw)) ;;
  results <- get ;;
  ret (if finished then Some results else None).

End Scraper.

(* ================================================================== *)
(** * A scripted browser *)

(** A web site given as data: the result pages of the search, and the
    documents behind the other URLs.  It answers the selectors of the
    scraper, follows the next-page control through the result pages, and
    issues the requests scripted for each download link. *)
Module StaticSite.

(** A result card: its initiative anchor, if any, and the anchor's [href]. *)
Definition Card : Type := option (option string).

Record ListingPage : Type := mkListingPage {
  cards : list Card;
  (** the next-page control, if any, and its [disabled] attribute *)
  next_control : option (option string)
}.

Record FileEntry : Type := mkFileEntry {
  file_title : option string;
  (** the download link, if any, and the requests a click on it triggers *)
  file_link : option (list string)
}.

Record ConsultationPage : Type := mkConsultationPage {
  terms : list (string * option string);
  period : option string;
  h4_headings : list string;
  h3_headings : list string;
  files : list FileEntry
}.

Inductive Document : Type :=
| Overview (heading : option string)
| Consultation (page : ConsultationPage).

Record Site : Type := mkSite {
  listing : list ListingPage;
  documents : list (string * Document)
}.

Inductive View : Type :=
| Blank
| ShowListing (pages : list ListingPage)
| ShowDocument (doc : Document).

Record World : Type := mkWorld {
  site : Site;
  view : View;
  requests : list string;
  now : string
}.

Inductive Elem : Type :=
| ECard (c : Card)
| EAnchor (href : option string)
| ENext (disabled : option string)
| EText (text : string)
| ETerm (text : string) (definition : option string)
| EFile (f : FileEntry)
| ELink (triggers : list string).

Definition show (v : View) (rs : list string) (w : World) : World :=
  {| site := site w; view := v; requests := rs; now := now w |}.

(** A call during which the page issues no request. *)
Definition quiet {A : Type} (a : A) : Cap World A :=
  fun w => (show (view w) [] w, Return a).

Fixpoint lookup (url : string) (docs : list (string * Document)) : option Document :=
  match docs with
  | [] => None
  | (u, d) :: rest => if String.eqb u url then Some d else lookup url rest
  end.

Definition goto (url : string) : Cap World unit :=
  fun w =>
    if String.eqb url SEARCH_URL
    then (show (ShowListing (listing (site w))) [] w, Return tt)
    else match lookup url (documents (site w)) with
         | Some d => (show (ShowDocument d) [] w, Return tt)
         | None => (show Blank [] w, Raise (Exception ("net::ERR_ABORTED at " ++ url)))
         end.

Definition current_cards (v : View) : list Card :=
  match v with
  | ShowListing (p :: _) => cards p
  | _ => []
  end.

Definition wait_for_selector (sel : string) : Cap World unit :=
  fun w =>
    match (if String.eqb sel SEL_CARD then current_cards (view w) else []) with
    | [] => (show (view w) [] w, Raise (Exception "Timeout 30000ms exceeded."))
    | _ :: _ => (show (view w) [] w, Return tt)
    end.

Definition query_selector (sel : string) : Cap World (option Elem) :=
  fun w =>
    quiet
      match view w with
      | ShowListing (p :: _) =>
          if String.eqb sel SEL_NEXT then option_map ENext (next_control p) else None
      | ShowDocument (Overview h) =>
          if String.eqb sel SEL_HEADING then option_map EText h else None
      | ShowDocument (Consultation c) =>
          if String.eqb sel SEL_PERIOD then option_map EText (period c) else None
      | _ => None
      end w.

Definition query_selector_all (sel : string) : Cap World (list Elem) :=
  fun w =>
    quiet
      match view w with
      | ShowListing (p :: _) =>
          if String.eqb sel SEL_CARD then map ECard (cards p) else []
      | ShowDocument (Consultation c) =>
          if String.eqb sel SEL_TERM then map (fun t => ETerm (fst t) (snd t)) (terms c)
          else if String.eqb sel "h4" then map EText (h4_headings c)
          else if String.eqb sel "h3" then map EText (h3_headings c)
          else if String.eqb sel SEL_FILE then map EFile (files c)
          else []
      | _ => []
      end w.

Definition query_within (e : Elem) (sel : string) : Cap World (option Elem) :=
  quiet
    match e with
    | ECard c => if String.eqb sel SEL_INITIATIVE_LINK then option_map EAnchor c else None
    | EFile f =>
        if String.eqb sel SEL_FILE_TITLE then option_map EText (file_title f)
        else if String.eqb sel "a" then option_map ELink (file_link f)
        else None
    | _ => None
    end.

Definition inner_text (e : Elem) : Cap World string :=
  quiet
    match e with
    | EText t => t
    | ETerm t _ => t
    | _ => ""
    end.

Definition get_attribute (e : Elem) (name : string) : Cap World (option string) :=
  quiet
    match e with
    | EAnchor href => if String.eqb name "href" then href else None
    | ENext disabled => if String.eqb name "disabled" then disabled else None
    | _ => None
    end.

Definition next_sibling (e : Elem) : Cap World (option Elem) :=
  quiet
    match e with
    | ETerm _ d => option_map EText d
    | _ => None
    end.

(** A click on the next-page control shows the next result page, and times
    out on the last one; a click on a download link issues its requests. *)
Definition click (e : Elem) : Cap World unit :=
  fun w =>
    match e with
    | ENext _ =>
        match view w with
        | ShowListing (_ :: (_ :: _) as rest) => (show (ShowListing rest) [] w, Return tt)
        | _ => (show (view w) [] w, Raise (Exception "Timeout 30000ms exceeded."))
        end
    | ELink triggers => (show (view w) triggers w, Return tt)
    | _ => (show (view w) [] w, Return tt)
    end.

Definition browser : Playwright World Elem :=
  {| browser_launch := quiet tt;
     browser_close := quiet tt;
     page_goto := goto;
     page_wait_for_load_state := fun _ => quiet tt;
     page_wait_for_selector := wait_for_selector;
     page_query_selector := query_selector;
     page_query_selector_all := query_selector_all;
     element_query_selector := query_within;
     element_inner_text := inner_text;
     element_get_attribute := get_attribute;
     element_next_sibling := next_sibling;
     element_click := click;
     asyncio_sleep := fun w => show (view w) [] w;
     last_requests := requests;
     datetime_now := now |}.

(** The browser before [scrape_all_consultations] starts. *)
Definition start (s : Site) (timestamp : string) : World :=
  {| site := s; view := Blank; requests := []; now := timestamp |}.

End StaticSite.

(* ================================================================== *)
(** * The scripted listing *)

Module StaticWalk.

Import StaticSite.

(** The [href] a card contributes: that of its initiative anchor, when the
    card has one and the attribute is not empty. *)
Definition card_hrefs (c : Card) : list string :=
  match c with
  | Some (Some (String a t)) => [String a t]
  | _ => []
  end.

Definition page_hrefs (p : ListingPage) : list string :=
  flat_map card_hrefs (cards p).

(** The result pages the walk reads, from the page shown on: it goes on
    while the page has a next-page control that is not disabled and a page
    follows. *)
Fixpoint visited (pages : list ListingPage) : list ListingPage :=
  match pages with
  | [] => []
  | p :: rest =>
      p :: match next_control p with
           | Some disabled => if PyStr.truthy disabled then [] else visited rest
           | None => []
           end
  end.

(** The walk starts once a card is present on the first page. *)
Definition walked (pages : list ListingPage) : list ListingPage :=
  match pages with
  | p :: _ => match cards p with
              | [] => []
              | _ :: _ => visited pages
              end
  | [] => []
  end.

(** The anchors of the listing, page after page, normalised. *)
Definition listed_urls (s : Site) : list string :=
  map normalize_href (flat_map page_hrefs (walked (listing s))).

Definition at_view (s : Site) (v : View) (ts : string) : World :=
  {| site := s; view := v; requests := []; now := ts |}.

End StaticWalk.

(* ================================================================== *)
(** * A sample site *)

Module Scenario.

Import StaticSite.

Definition HOME : string := "https://ec.europa.eu/info/law/better-regulation/have-your-say".

Definition url_foo : string := HOME ++ "/initiatives/14622-Foo_en".
Definition url_bar : string := HOME ++ "/initiatives/14700-Bar_en".
Definition url_abc : string := HOME ++ "/initiatives/abc_en".

Definition download_a : string := "https://ec.europa.eu/api/download/a".
Definition download_b : string := "https://ec.europa.eu/api/download/b".
Definition download_c : string := "https://ec.europa.eu/api/download/c".

(** The consultation page of the first initiative.  Its third file entry
    links to the file of the first one, and its fourth is the annex. *)
Definition foo_consultation : ConsultationPage :=
  {| terms := [("Type of act", Some "Proposal for a regulation");
               ("Topic", Some " Environment ")];
     period := Some "01 January 2025 - 02 February 2025";
     h4_headings := ["Total of valid feedback instances received: 244"];
     h3_headings := ["Contributions to the consultation"; " Summary report "];
     files := [ {| file_title := Some "Contributions to the consultation";
                   file_link := Some [download_a] |};
                {| file_title := Some "Summary report";
                   file_link := Some [download_b] |};
                {| file_title := Some "Contributions (second copy)";
                   file_link := Some [download_a] |};
                {| file_title := Some "Documents annexed to the contributions";
                   file_link := Some [download_c] |} ] |}.

(** A consultation page with one file entry under a contributions
    section. *)
Definition single_file_consultation : ConsultationPage :=
  {| terms := []; period := None; h4_headings := [];
     h3_headings := ["Contributions to the consultation"];
     files := [ {| file_title := Some "Contributions to the consultation";
                   file_link := Some [download_a] |} ] |}.

Definition single_file_site : Site :=
  {| listing := [];
     documents :=
       [ (url_foo, Overview (Some "Foo initiative"));
         (HOME ++ "/initiatives/14622-Foo/public-consultation_en",
          Consultation single_file_consultation) ] |}.

Definition empty_consultation : ConsultationPage :=
  {| terms := []; period := None; h4_headings := []; h3_headings := []; files := [] |}.

(** Two result pages, three initiatives, one of them listed on both pages.
    The second initiative has no consultation page; the path of the third
    carries no number. *)
Definition sample_site : Site :=
  {| listing :=
       [ {| cards := [ Some (Some "/info/law/better-regulation/have-your-say/initiatives/14622-Foo_en?page=1");
                       None;
                       Some (Some "/info/law/better-regulation/have-your-say/initiatives/14700-Bar_en") ];
            next_control := Some None |};
         {| cards := [ Some (Some "/info/law/better-regulation/have-your-say/initiatives/14622-Foo_en");
                       Some (Some "/info/law/better-regulation/have-your-say/initiatives/abc_en") ];
            next_control := None |} ];
     documents :=
       [ (url_foo, Overview (Some " Foo initiative "));
         (HOME ++ "/initiatives/14622-Foo/public-consultation_en",
          Consultation foo_consultation);
         (url_bar, Overview (Some "Bar initiative"));
         (url_abc, Overview None);
         (HOME ++ "/initiatives/abc/public-consultation_en",
          Consultation empty_consultation) ] |}.

Definition sample_start : World := start sample_site "2025-06-01T12:00:00".

Definition record_of (r : World * result ConsultationData) : ConsultationData :=
  match snd r with
  | Return d => d
  | Raise _ => initial_data "" ""
  end.

Definition foo_run : World * result ConsultationData :=
  Eval vm_compute in scrape_consultation browser url_foo sample_start.

Definition bar_run : World * result ConsultationData :=
  Eval vm_compute in scrape_consultation browser url_bar sample_start.

Definition abc_run : World * result ConsultationData :=
  Eval vm_compute in scrape_consultation browser url_abc sample_start.

Definition single_file_record : ConsultationData :=
  Eval vm_compute in
    record_of (scrape_consultation browser url_foo
                 (start single_file_site "2025-06-01T12:00:00")).

Definition foo_record : ConsultationData := Eval vm_compute in record_of foo_run.
Definition bar_record : ConsultationData := Eval vm_compute in record_of bar_run.
Definition abc_record : ConsultationData := Eval vm_compute in record_of abc_run.

End Scenario.

(* ================================================================== *)
(** * Assertions *)

Section Assertions.

Context {W S : Type}.

(** [triple P c Q E]: run from objects satisfying [P], the block [c] either
    returns [a] with objects satisfying [Q a], or raises [e] with objects
    satisfying [E e]. *)
Definition triple {A : Type} (P : S -> Prop) (c : M W S A)
    (Q : A -> S -> Prop) (E : PyException -> S -> Prop) : Prop :=
  forall w s, P s ->
    match c w s with
    | (_, s', Return a) => Q a s'
    | (_, s', Raise e) => E e s'
    end.

(** [preserves I c]: [I] holds after [c], however [c] ends. *)
Definition preserves {A : Type} (I : S -> Prop) (c : M W S A) : Prop :=
  triple I c (fun _ => I) (fun _ => I).

(** [safe I c]: [c] preserves [I] and raises nothing. *)
Definition safe {A : Type} (I : S -> Prop) (c : M W S A) : Prop :=
  triple I c (fun _ => I) (fun _ _ => False).

End Assertions.

(** An assertion on the frame that reads the record only. *)
Definition on (I : ConsultationData -> Prop) : Frame -> Prop := fun s => I (data s).

(** An assertion on the record that the assignments of
    [extract_consultation_data] keep true. *)
Record extraction_stable (I : ConsultationData -> Prop) : Prop := {
  stable_topic : forall v d, I d -> I (set_topic v d);
  stable_period : forall v d, I d -> I (set_consultation_period v d);
  stable_feedback : forall v d, I d -> I (set_total_feedback v d);
  stable_artifact : forall hs hc t u d, I d -> I (record_artifact hs hc t u d)
}.

(** The descriptive fields are at their initial values. *)
Definition descriptive_default (d : ConsultationData) : Prop :=
  topic d = None /\ consultation_period d = None /\ total_feedback d = None.

(** The three artifact groups are at their initial values. *)
Definition artifacts_default (d : ConsultationData) : Prop :=
  has_summary_report d = false /\ summary_report_url d = None /\
  has_contributions_zip d = false /\ contributions_zip_url d = None /\
  has_documents_annexed d = false /\ documents_annexed_url d = None.

(** In each artifact group the URL is set exactly when the flag is. *)
Definition artifacts_consistent (d : ConsultationData) : Prop :=
  (summary_report_url d <> None <-> has_summary_report d = true) /\
  (contributions_zip_url d <> None <-> has_contributions_zip d = true) /\
  (documents_annexed_url d <> None <-> has_documents_annexed d = true).

(** [id_match.group(1)] when the pattern matches, the initial [""] when
    it does not. *)
Definition initiative_id_of (initiative_url : string) : string :=
  match PyStr.search_lit_digits "/initiatives/" initiative_url with
  | Some group1 => group1
  | None => ""
  end.

(** The frame [scrape_consultation] enters its [try] statement with. *)
Definition entry_frame {W H : Type} (pw : Playwright W H)
    (initiative_url : string) (w : W) : Frame :=
  {| data := initial_data initiative_url (datetime_now pw w);
     captured_urls := [] |}.

(** The match that [re.search] tries at one position. *)
Definition digits_here (lit s : string) : option string :=
  match PyStr.strip_prefix lit s with
  | Some rest =>
      match fst (PyStr.span PyStr.isdigit rest) with
      | EmptyString => None
      | ds => Some ds
      end
  | None => None
  end.

(** ** The priority rule *)

Inductive artifact_kind : Type := ContributionsZip | DocumentsAnnexed | SummaryReport.

(** The priority rule in the words of the specification: contributions
    section and a title with "contribution" but not "annex"; else
    contributions section and a title with "document" and "annex"; else
    summary section; otherwise nothing. *)
Definition classify (has_summary_section has_contributions_section : bool)
    (title_lower : string) : option artifact_kind :=
  if has_contributions_section && PyStr.contains "contribution" title_lower
     && negb (PyStr.contains "annex" title_lower)
  then Some ContributionsZip
  else if has_contributions_section && PyStr.contains "document" title_lower
          && PyStr.contains "annex" title_lower
  then Some DocumentsAnnexed
  else if has_summary_section then Some SummaryReport
  else None.

(** Recording an artifact of a given kind: the flag and the URL. *)
Definition record_kind (k : option artifact_kind) (latest_url : string)
    (d : ConsultationData) : ConsultationData :=
  match k with
  | Some ContributionsZip =>
      set_contributions_zip_url (Some latest_url) (set_has_contributions_zip true d)
  | Some DocumentsAnnexed =>
      set_documents_annexed_url (Some latest_url) (set_has_documents_annexed true d)
  | Some SummaryReport =>
      set_summary_report_url (Some latest_url) (set_has_summary_report true d)
  | None => d
  end.

(** ** The capture log and first occurrences *)

(** The capture log in the words of the specification: every request to
    the download endpoint, in arrival order. *)
Definition capture_log (request_urls : list string) : list string :=
  filter (PyStr.contains "/api/download/") request_urls.

(** [list(captured_urls.values())[-1]], guarded by [if captured_urls:] *)
Definition latest_url_of (captured : dict) : option string :=
  list_last (dict_values captured).

(** Keeping the first occurrence of each element, in order. *)
Fixpoint first_occurrences_from (seen l : list string) : list string :=
  match l with
  | [] => []
  | x :: rest =>
      if PyStr.mem x seen then first_occurrences_from seen rest
      else x :: first_occurrences_from (x :: seen) rest
  end.

Definition first_occurrences (l : list string) : list string :=
  first_occurrences_from [] l.

(** What [get_initiative_urls] puts in its list: a non-empty [href],
    prefixed if it starts with a slash, cut at the first question mark. *)
Definition normalized (u : string) : Prop :=
  exists h, h <> EmptyString /\ u = normalize_href h.

(** What the walk keeps true of its list. *)
Definition walk_invariant (l : list string) : Prop := NoDup l /\ Forall normalized l.

Section Runs.

Context {W H : Type} (pw : Playwright W H).

(** [extraction_run urls w records w']: from the browser state [w], the
    extractor run on each URL in turn, each run followed by the pause,
    returns [records] and leaves the browser in [w']. *)
Inductive extraction_run : list string -> W -> list ConsultationData -> W -> Prop :=
| run_done (w : W) : extraction_run [] w [] w
| run_next (url : string) (rest : list string) (w w1 w' : W)
    (d : ConsultationData) (ds : list ConsultationData) :
    scrape_consultation pw url w = (w1, Return d) ->
    extraction_run rest (asyncio_sleep pw w1) ds w' ->
    extraction_run (url :: rest) w (d :: ds) w'.

End Runs.

(* ================================================================== *)
(** * The summary of [main], and further assertions *)

(** [sum(1 for r in results if r.scrape_status == 'success')] *)
Definition success_count (results : list ConsultationData) : nat :=
  length (filter (fun r => String.eqb (scrape_status r) "success") results).

(** [sum(1 for r in results if r.scrape_status == 'error')] *)
Definition error_count (results : list ConsultationData) : nat :=
  length (filter (fun r => String.eqb (scrape_status r) "error") results).

(** Every character of the string is an ASCII digit. *)
Fixpoint all_digits (s : string) : bool :=
  match s with
  | EmptyString => true
  | String a t => PyStr.isdigit a && all_digits t
  end.

(** [s.strip()] leaves the string as it is. *)
Definition stripped (s : string) : Prop := PyStr.strip s = s.

(** The URL is one [handle_request] captures. *)
Definition download_url (u : string) : Prop :=
  PyStr.contains "/api/download/" u = true.

(** The fields [extract_consultation_data] is not concerned with. *)
Definition same_identity (d d' : ConsultationData) : Prop :=
  initiative_id d' = initiative_id d /\
  initiative_name d' = initiative_name d /\
  initiative_url d' = initiative_url d /\
  consultation_url d' = consultation_url d /\
  scrape_timestamp d' = scrape_timestamp d /\
  scrape_status d' = scrape_status d /\
  error_message d' = error_message d.

(** The artifact URLs of the record are download URLs. *)
Definition artifact_urls_downloads (d : ConsultationData) : Prop :=
  (forall u, summary_report_url d = Some u -> download_url u) /\
  (forall u, contributions_zip_url d = Some u -> download_url u) /\
  (forall u, documents_annexed_url d = Some u -> download_url u).

(** The name, the topic and the period of the record are stripped. *)
Definition texts_stripped (d : ConsultationData) : Prop :=
  stripped (initiative_name d) /\
  (forall t, topic d = Some t -> stripped t) /\
  (forall t, consultation_period d = Some t -> stripped t).

(** The topic the loop over the term/definition pairs assigns, if it assigns
    one: the stripped definition of the first term whose label contains
    "topic" in any case and which has a definition; nothing when that
    definition is empty. *)
Fixpoint found_topic (terms : list (string * option string)) : option string :=
  match terms with
  | [] => None
  | (label, definition) :: rest =>
      if PyStr.contains "topic" (PyStr.lower label) then
        match definition with
        | Some EmptyString => None
        | Some text => Some (PyStr.strip text)
        | None => found_topic rest
        end
      else found_topic rest
  end.

(** The count the loop over the [h4] headings assigns, if it assigns one:
    the number after a colon in the first heading that contains "feedback"
    and "received" in any case. *)
Fixpoint found_feedback (headings : list string) : option N :=
  match headings with
  | [] => None
  | text :: rest =>
      if PyStr.contains "feedback" (PyStr.lower text)
         && PyStr.contains "received" (PyStr.lower text)
      then
        match PyStr.search_colon_number text with
        | Some digits =>
            match py_int digits with
            | Return n => Some n
            | Raise _ => None
            end
        | None => None
        end
      else found_feedback rest
  end.

(** An optional assignment to a field of the record in the frame. *)
Definition assign {A : Type} (set : option A -> ConsultationData -> ConsultationData)
    (found : option A) (s : Frame) : Frame :=
  match found with
  | Some x => on_data (set (Some x)) s
  | None => s
  end.

(** One turn of the loop over the file entries of a scripted page, on the
    frame: an entry with a title and a link is clicked, the listener sees
    the requests of the click, and the last value of the dictionary is
    recorded by the priority rule. *)
Definition file_step (has_summary_section has_contributions_section : bool)
    (s : Frame) (f : StaticSite.FileEntry) : Frame :=
  match StaticSite.file_title f, StaticSite.file_link f with
  | Some title, Some triggers =>
      let s1 := set_captured_urls (handle_requests triggers (captured_urls s)) s in
      match list_last (dict_values (captured_urls s1)) with
      | Some latest_url =>
          on_data (record_artifact has_summary_section has_contributions_section
                     (PyStr.lower (PyStr.strip title)) latest_url) s1
      | None => s1
      end
  | _, _ => s
  end.

(** The section flags of a scripted page. *)
Definition summary_section (c : StaticSite.ConsultationPage) : bool :=
  PyStr.mem "Summary report" (map PyStr.strip (StaticSite.h3_headings c)).

Definition contributions_section (c : StaticSite.ConsultationPage) : bool :=
  PyStr.mem "Contributions to the consultation"
    (map PyStr.strip (StaticSite.h3_headings c)).

(** What the loop over the file entries of a scripted page records, told
    from the requests made so far: an entry with a title and a link is
    clicked, and the URL read for it is the last of the first occurrences of
    the download URLs requested up to and including its click; an entry
    without a title or without a link is passed over, unclicked. *)
Fixpoint attribute (has_summary_section has_contributions_section : bool)
    (log : list string) (file_entries : list StaticSite.FileEntry)
    (d : ConsultationData) : ConsultationData :=
  match file_entries with
  | [] => d
  | f :: rest =>
      match StaticSite.file_title f, StaticSite.file_link f with
      | Some title, Some triggers =>
          attribute has_summary_section has_contributions_section
            (log ++ triggers)%list rest
            match list_last (first_occurrences (capture_log (log ++ triggers))) with
            | Some latest_url =>
                record_kind
                  (classify has_summary_section has_contributions_section
                     (PyStr.lower (PyStr.strip title)))
                  latest_url d
            | None => d
            end
      | _, _ => attribute has_summary_section has_contributions_section log rest d
      end
  end.

(** Every character of the string satisfies [p]. *)
Fixpoint all_chars (p : ascii -> bool) (s : string) : bool :=
  match s with
  | EmptyString => true
  | String a t => p a && all_chars p t
  end.

(** The string does not start with a character satisfying [p]. *)
Definition stops (p : ascii -> bool) (s : string) : bool :=
  match s with
  | EmptyString => true
  | String a _ => negb (p a)
  end.

(** The match of [:\s*(\d+)] that [re.search] tries at one position. *)
Definition colon_here (s : string) : option string :=
  match s with
  | String ":" rest =>
      match fst (PyStr.span PyStr.isdigit (snd (PyStr.span PyStr.isspace rest))) with
      | EmptyString => None
      | ds => Some ds
      end
  | _ => None
  end.

(** The frame of [scrape_consultation] on a scripted site when the
    consultation page has been loaded. *)
Definition loaded_frame (st : StaticSite.Site) (ts url link : string)
    (h : option string) : Frame :=
  on_data (set_consultation_url link)
    (match h with
     | Some text => on_data (set_initiative_name (PyStr.strip text))
     | None => fun s => s
     end
       (match PyStr.search_lit_digits "/initiatives/" url with
        | Some group1 => on_data (set_initiative_id group1)
        | None => fun s => s
        end (entry_frame StaticSite.browser url (StaticSite.start st ts)))).

(** The frame when [extract_consultation_data] has returned. *)
Definition extracted_frame (st : StaticSite.Site) (ts url link : string)
    (h : option string) (c : StaticSite.ConsultationPage) : Frame :=
  fold_left (file_step (summary_section c) (contributions_section c)) (StaticSite.files c)
    (set_captured_urls []
       (assign set_total_feedback (found_feedback (StaticSite.h4_headings c))
          (assign set_consultation_period (option_map PyStr.strip (StaticSite.period c))
             (assign set_topic (found_topic (StaticSite.terms c))
                (loaded_frame st ts url link h))))).

(** A browser without network: every call raises. *)
Module Offline.

Definition down {A : Type} : Cap unit A :=
  fun w => (w, Raise (Exception "net::ERR_INTERNET_DISCONNECTED")).

Definition browser : Playwright unit unit :=
  {| browser_launch := fun w => (w, Return tt);
     browser_close := fun w => (w, Return tt);
     page_goto := fun _ => down;
     page_wait_for_load_state := fun _ => down;
     page_wait_for_selector := fun _ => down;
     page_query_selector := fun _ => down;
     page_query_selector_all := fun _ => down;
     element_query_selector := fun _ _ => down;
     element_inner_text := fun _ => down;
     element_get_attribute := fun _ _ => down;
     element_next_sibling := fun _ => down;
     element_click := fun _ => down;
     asyncio_sleep := fun w => w;
     last_requests := fun _ => [];
     datetime_now := fun _ => "2025-06-01T12:00:00" |}.

End Offline.

(** A browser whose pages load but whose document cannot be read: the
    navigation calls return, every query and every call on an element
    raises. *)
Module Flaky.

Definition loads : Cap unit unit := fun w => (w, Return tt).

Definition closed {A : Type} : Cap unit A :=
  fun w => (w, Raise (Exception "Execution context was destroyed")).

Definition browser : Playwright unit unit :=
  {| browser_launch := loads;
     browser_close := loads;
     page_goto := fun _ => loads;
     page_wait_for_load_state := fun _ => loads;
     page_wait_for_selector := fun _ => loads;
     page_query_selector := fun _ => closed;
     page_query_selector_all := fun _ => closed;
     element_query_selector := fun _ _ => closed;
     element_inner_text := fun _ => closed;
     element_get_attribute := fun _ _ => closed;
     element_next_sibling := fun _ => closed;
     element_click := fun _ => closed;
     asyncio_sleep := fun w => w;
     last_requests := fun _ => [];
     datetime_now := fun _ => "2025-06-01T12:00:00" |}.

End Flaky.


(** An absolute URL: it starts with its scheme. *)
Definition is_absolute (u : string) : bool :=
  PyStr.startswith u "http://" || PyStr.startswith u "https://".

(** A listing of one result page with one card, whose initiative anchor has
    a relative [href] that does not start with a slash. *)
Definition relative_listing : StaticSite.Site :=
  {| StaticSite.listing :=
       [ {| StaticSite.cards := [ Some (Some "../initiatives/3_en?page=1") ];
            StaticSite.next_control := None |} ];
     StaticSite.documents := [] |}.

(* ================================================================== *)
(** * Sanity checks of the string operations *)

Example endswith_en :
  PyStr.endswith "https://ec.europa.eu/x/initiatives/14622-Foo_en" "_en" = true.
Proof. reflexivity. Qed.

Example rstrip_slashes : PyStr.rstrip_char "/" "a/b//" = "a/b".
Proof. reflexivity. Qed.

Example drop_last_en : PyStr.drop_last 3 "abc_en" = "abc".
Proof. reflexivity. Qed.

Example strip_blanks : PyStr.strip "  Summary report
 " = "Summary report".
Proof. reflexivity. Qed.

Example search_id :
  PyStr.search_lit_digits "/initiatives/" "/law/initiatives/x/initiatives/14622-Foo_en"
  = Some "14622".
Proof. reflexivity. Qed.

Example search_feedback :
  option_map PyStr.digits_value
    (PyStr.search_colon_number "Total of valid feedback instances received: 244")
  = Some 244%N.
Proof. reflexivity. Qed.

(* ================================================================== *)
(** * A Hoare logic for blocks *)

Section Hoare.

Context {W S : Type}.

Lemma triple_conseq {A} (P P' : S -> Prop) (c : M W S A) Q Q' E E' :
  triple P c Q E ->
  (forall s, P' s -> P s) ->
  (forall a s, Q a s -> Q' a s) ->
  (forall e s, E e s -> E' e s) ->
  triple P' c Q' E'.
Proof.
  intros T HP HQ HE w s Hs. specialize (T w s (HP s Hs)).
  destruct (c w s) as [[w' s'] [a | e]]; auto.
Qed.

Lemma triple_ret {A} (P : S -> Prop) (a : A) Q E :
  (forall s, P s -> Q a s) -> triple (W := W) P (ret a) Q E.
Proof. intros HQ w s Hs. simpl. auto. Qed.

Lemma triple_bind {A B} (P : S -> Prop) (c : M W S A) (k : A -> M W S B) Q1 Q E :
  triple P c Q1 E ->
  (forall a, triple (Q1 a) (k a) Q E) ->
  triple P (bind c k) Q E.
Proof.
  intros Tc Tk w s Hs. unfold bind. specialize (Tc w s Hs).
  destruct (c w s) as [[w' s'] [a | e]]; [ | exact Tc ].
  exact (Tk a w' s' Tc).
Qed.

Lemma triple_await {A} (P : S -> Prop) (f : Cap W A) Q E :
  (forall a s, P s -> Q a s) ->
  (forall e s, P s -> E e s) ->
  triple P (await f) Q E.
Proof.
  intros HQ HE w s Hs. unfold await. destruct (f w) as [w' [a | e]]; auto.
Qed.

Lemma triple_modify (P : S -> Prop) (f : S -> S) Q E :
  (forall s, P s -> Q tt (f s)) -> triple (W := W) P (modify f) Q E.
Proof. intros HQ w s Hs. simpl. auto. Qed.

Lemma triple_get (P : S -> Prop) Q E :
  (forall s, P s -> Q s s) -> triple (W := W) P get Q E.
Proof. intros HQ w s Hs. simpl. auto. Qed.

Lemma triple_try {A} (P : S -> Prop) (c : M W S A) h Q E1 E :
  triple P c Q E1 ->
  (forall e, triple (E1 e) (h e) Q E) ->
  triple P (try_except c h) Q E.
Proof.
  intros Tc Th w s Hs. unfold try_except. specialize (Tc w s Hs).
  destruct (c w s) as [[w' s'] [a | e]]; [ exact Tc | ].
  exact (Th e w' s' Tc).
Qed.

Lemma safe_preserves {A} (I : S -> Prop) (c : M W S A) :
  safe I c -> preserves I c.
Proof.
  intros T. apply (triple_conseq _ _ _ _ _ _ _ T); auto. intros e s [].
Qed.

Lemma preserves_ret {A} (I : S -> Prop) (a : A) : preserves (W := W) I (ret a).
Proof. apply triple_ret; auto. Qed.

Lemma safe_ret {A} (I : S -> Prop) (a : A) : safe (W := W) I (ret a).
Proof. apply triple_ret; auto. Qed.

Lemma preserves_bind {A B} (I : S -> Prop) (c : M W S A) (k : A -> M W S B) :
  preserves I c -> (forall a, preserves I (k a)) -> preserves I (bind c k).
Proof. intros Tc Tk. exact (triple_bind _ _ _ _ _ _ Tc Tk). Qed.

Lemma safe_bind {A B} (I : S -> Prop) (c : M W S A) (k : A -> M W S B) :
  safe I c -> (forall a, safe I (k a)) -> safe I (bind c k).
Proof. intros Tc Tk. exact (triple_bind _ _ _ _ _ _ Tc Tk). Qed.

Lemma preserves_raise {A} (I : S -> Prop) (e : PyException) :
  preserves (W := W) I (raise (A := A) e).
Proof. intros w s Hs. exact Hs. Qed.

Lemma preserves_await {A} (I : S -> Prop) (f : Cap W A) : preserves I (await f).
Proof. apply triple_await; auto. Qed.

Lemma preserves_modify (I : S -> Prop) (f : S -> S) :
  (forall s, I s -> I (f s)) -> preserves (W := W) I (modify f).
Proof. intros Hf. apply triple_modify; auto. Qed.

Lemma safe_modify (I : S -> Prop) (f : S -> S) :
  (forall s, I s -> I (f s)) -> safe (W := W) I (modify f).
Proof. intros Hf. apply triple_modify; auto. Qed.

Lemma preserves_get (I : S -> Prop) : preserves (W := W) I get.
Proof. apply triple_get; auto. Qed.

Lemma preserves_try {A} (I : S -> Prop) (c : M W S A) h :
  preserves I c -> (forall e, preserves I (h e)) -> preserves I (try_except c h).
Proof. intros Tc Th. exact (triple_try _ _ _ _ _ _ Tc Th). Qed.

(** A [try] whose handler raises nothing raises nothing. *)
Lemma safe_try {A} (I : S -> Prop) (c : M W S A) h :
  preserves I c -> (forall e, safe I (h e)) -> safe I (try_except c h).
Proof. intros Tc Th. exact (triple_try _ _ _ _ _ _ Tc Th). Qed.

End Hoare.

(** Running a sequence, once the run of its first block is known. *)
Lemma bind_run {W S A B} (c : M W S A) (k : A -> M W S B) w s w' s' a :
  c w s = (w', s', Return a) -> bind c k w s = k a w' s'.
Proof. intros E. unfold bind. now rewrite E. Qed.

Lemma bind_raise {W S A B} (c : M W S A) (k : A -> M W S B) w s w' s' e :
  c w s = (w', s', Raise e) -> bind c k w s = (w', s', Raise e).
Proof. intros E. unfold bind. now rewrite E. Qed.

Section HoareFrame.

Context {W H : Type} (pw : Playwright W H).

Lemma preserves_listening {A} (I : ConsultationData -> Prop) (f : Cap W A) :
  preserves (on I) (listening pw f).
Proof.
  intros w s Hs. unfold listening. destruct (f w) as [w' [a | e]]; exact Hs.
Qed.

Lemma preserves_on_data (I : ConsultationData -> Prop) f :
  (forall d, I d -> I (f d)) -> preserves (W := W) (on I) (modify (on_data f)).
Proof. intros Hf. apply preserves_modify. intros s Hs. exact (Hf _ Hs). Qed.

Lemma preserves_set_captured (I : ConsultationData -> Prop) d :
  preserves (W := W) (on I) (modify (set_captured_urls d)).
Proof. apply preserves_modify. intros s Hs. exact Hs. Qed.

Lemma preserves_wait_for_page_load {S} (I : S -> Prop) :
  preserves I (wait_for_page_load pw).
Proof.
  unfold wait_for_page_load. apply preserves_try.
  - apply preserves_await.
  - intros e. apply preserves_await.
Qed.

Lemma preserves_sleep {S} (I : S -> Prop) : preserves I (sleep pw).
Proof. apply preserves_await. Qed.

End HoareFrame.

(** One step of a proof that a block preserves an assertion: the rule of
    the block's head construct, or a case analysis on what it branches on. *)
Ltac preserves_step :=
  lazymatch goal with
  | |- preserves _ (bind _ _) => apply preserves_bind; [ | intros ? ]
  | |- preserves _ (ret _) => apply preserves_ret
  | |- preserves _ (raise _) => apply preserves_raise
  | |- preserves _ (await _) => apply preserves_await
  | |- preserves _ get => apply preserves_get
  | |- preserves _ (try_except _ _) => apply preserves_try; [ | intros ? ]
  | |- preserves _ (listening _ _) => apply preserves_listening
  | |- preserves _ (wait_for_page_load _) => apply preserves_wait_for_page_load
  | |- preserves _ (sleep _) => apply preserves_sleep
  | |- preserves _ (modify (on_data _)) => apply preserves_on_data
  | |- preserves _ (modify (set_captured_urls _)) => apply preserves_set_captured
  | |- preserves _ (modify _) => apply preserves_modify
  | |- preserves _ (let _ := _ in _) => cbv zeta
  | |- preserves _ (match ?x with _ => _ end) => destruct x
  end.

Ltac preserves_auto := repeat preserves_step; try solve [ eauto ].

(* ================================================================== *)
(** * What the blocks of the scraper preserve *)

Section Blocks.

Context {W H : Type} (pw : Playwright W H).

Lemma preserves_True {S A} (c : M W S A) : preserves (fun _ => True) c.
Proof. intros w s _. destruct (c w s) as [[w' s'] [a | e]]; exact I. Qed.

Lemma topic_loop_preserves (I : ConsultationData -> Prop) :
  (forall v d, I d -> I (set_topic v d)) ->
  forall l, preserves (on I) (topic_loop pw l).
Proof.
  intros HI l. induction l as [ | dt rest IH]; simpl; preserves_auto.
Qed.

Lemma feedback_loop_preserves (I : ConsultationData -> Prop) :
  (forall v d, I d -> I (set_total_feedback v d)) ->
  forall l, preserves (on I) (feedback_loop pw l).
Proof.
  intros HI l. induction l as [ | h4 rest IH]; simpl; preserves_auto.
Qed.

Lemma h3_loop_preserves (I : ConsultationData -> Prop) :
  forall l acc, preserves (on I) (h3_loop pw l acc).
Proof.
  intros l. induction l as [ | h3 rest IH]; intros acc; simpl; preserves_auto.
Qed.

Lemma process_file_preserves (I : ConsultationData -> Prop) hs hc :
  (forall t u d, I d -> I (record_artifact hs hc t u d)) ->
  forall f, preserves (on I) (process_file pw hs hc f).
Proof.
  intros HI f. unfold process_file. preserves_auto.
Qed.

Lemma files_loop_preserves (I : ConsultationData -> Prop) hs hc :
  (forall t u d, I d -> I (record_artifact hs hc t u d)) ->
  forall l, preserves (on I) (files_loop pw hs hc l).
Proof.
  intros HI l. induction l as [ | f rest IH]; simpl; preserves_auto.
  apply process_file_preserves; auto.
Qed.

(** Every block of [extract_consultation_data] is a [try] whose handler
    only logs: nothing is raised, and the record changes by the four kinds
    of assignment only. *)
Lemma extract_consultation_data_safe (I : ConsultationData -> Prop) :
  extraction_stable I -> safe (on I) (extract_consultation_data pw).
Proof.
  intros [Ht Hp Hf Ha]. unfold extract_consultation_data.
  repeat (apply safe_bind; [ | intros _ ]).
  - apply safe_try; [ | intros e; apply safe_ret ].
    preserves_auto. apply topic_loop_preserves; auto.
  - apply safe_try; [ | intros e; apply safe_ret ]. preserves_auto.
  - apply safe_try; [ | intros e; apply safe_ret ].
    preserves_auto. apply feedback_loop_preserves; auto.
  - apply safe_try; [ | intros e; apply safe_ret ].
    preserves_auto.
    + apply h3_loop_preserves.
    + apply files_loop_preserves; auto.
Qed.

Lemma load_initiative_preserves (I : ConsultationData -> Prop) url :
  (forall v d, I d -> I (set_initiative_id v d)) ->
  (forall v d, I d -> I (set_initiative_name v d)) ->
  preserves (on I) (load_initiative pw url).
Proof.
  intros Hid Hname. unfold load_initiative. preserves_auto.
Qed.

Lemma load_consultation_preserves (I : ConsultationData -> Prop) link :
  extraction_stable I ->
  (forall v d, I d -> I (set_consultation_url v d)) ->
  (forall v d, I d -> I (set_scrape_status v d)) ->
  (forall v d, I d -> I (set_error_message v d)) ->
  preserves (on I) (load_consultation pw link).
Proof.
  intros Hext Hurl Hst Herr. unfold load_consultation. preserves_auto.
  apply safe_preserves, extract_consultation_data_safe, Hext.
Qed.

Lemma scrape_except_preserves (I : ConsultationData -> Prop) e :
  (forall v d, I d -> I (set_scrape_status v d)) ->
  (forall v d, I d -> I (set_error_message v d)) ->
  preserves (W := W) (on I) (scrape_except e).
Proof.
  intros Hst Herr. unfold scrape_except. preserves_auto.
Qed.

End Blocks.

(* ================================================================== *)
(** * Facts on the string operations *)

Section StringFacts.

Lemma append_nil_r (s : string) : (s ++ "")%string = s.
Proof. induction s as [ | a t IH]; simpl; [ reflexivity | now rewrite IH ]. Qed.

Lemma append_assoc (s t u : string) : ((s ++ t) ++ u)%string = (s ++ (t ++ u))%string.
Proof. induction s as [ | a s' IH]; simpl; [ reflexivity | now rewrite IH ]. Qed.

Lemma length_append (s t : string) :
  String.length (s ++ t) = String.length s + String.length t.
Proof. induction s as [ | a s' IH]; simpl; [ reflexivity | now rewrite IH ]. Qed.

Lemma substring_append (s t : string) :
  String.substring 0 (String.length s) (s ++ t) = s.
Proof.
  induction s as [ | a s' IH]; simpl.
  - destruct t; reflexivity.
  - now rewrite IH.
Qed.

Lemma endswith_unfold (s suf : string) :
  PyStr.endswith s suf =
  if String.eqb s suf then true
  else match s with
       | EmptyString => false
       | String _ t => PyStr.endswith t suf
       end.
Proof. destruct s; reflexivity. Qed.

Lemma endswith_append (p suf : string) : PyStr.endswith (p ++ suf) suf = true.
Proof.
  induction p as [ | a p' IH]; rewrite endswith_unfold.
  - simpl. now rewrite String.eqb_refl.
  - destruct (String.eqb (String a p' ++ suf) suf); [ reflexivity | exact IH ].
Qed.

Lemma drop_last_append (p suf : string) :
  PyStr.drop_last (String.length suf) (p ++ suf) = p.
Proof.
  unfold PyStr.drop_last. rewrite length_append.
  replace (String.length p + String.length suf - String.length suf)
    with (String.length p) by lia.
  apply substring_append.
Qed.

(** A string that [rstrip] leaves alone stays untouched behind a prefix. *)
Lemma rstrip_char_append (c : ascii) (p q : string) :
  q <> EmptyString -> PyStr.rstrip_char c q = q ->
  PyStr.rstrip_char c (p ++ q) = (p ++ q)%string.
Proof.
  intros Hne Hq. induction p as [ | a p' IH]; simpl; [ exact Hq | ].
  rewrite IH. destruct (p' ++ q)%string eqn:E; [ | reflexivity ].
  destruct p'; simpl in E; [ contradiction | discriminate ].
Qed.

Lemma rstrip_char_idempotent (c : ascii) (s : string) :
  PyStr.rstrip_char c (PyStr.rstrip_char c s) = PyStr.rstrip_char c s.
Proof.
  induction s as [ | a t IH]; simpl; [ reflexivity | ].
  destruct (PyStr.rstrip_char c t) as [ | b r] eqn:E.
  - destruct (Ascii.eqb a c) eqn:Ea; simpl; [ reflexivity | now rewrite Ea ].
  - simpl in *. rewrite IH. reflexivity.
Qed.

Lemma rstrip_char_no_trailing (c : ascii) (s : string) :
  PyStr.endswith s (String c EmptyString) = false -> PyStr.rstrip_char c s = s.
Proof.
  induction s as [ | a t IH]; [ reflexivity | ].
  rewrite endswith_unfold.
  destruct (String.eqb (String a t) (String c EmptyString)) eqn:E; [ discriminate | ].
  intros Ht. simpl. rewrite (IH Ht). destruct t as [ | b t']; [ | reflexivity ].
  simpl in E. destruct (Ascii.eqb a c); [ discriminate | reflexivity ].
Qed.

Lemma strip_prefix_some (lit s rest : string) :
  PyStr.strip_prefix lit s = Some rest <-> s = (lit ++ rest)%string.
Proof.
  revert s. induction lit as [ | a lit' IH]; intros s; simpl.
  - split; [ intros [= ->]; reflexivity | intros ->; reflexivity ].
  - destruct s as [ | b s']; [ split; discriminate | ].
    destruct (Ascii.eqb a b) eqn:E.
    + apply Ascii.eqb_eq in E. subst b. rewrite IH.
      split; [ intros ->; reflexivity | intros [= ->]; reflexivity ].
    + split; [ discriminate | ].
      intros [= -> _]. now rewrite Ascii.eqb_refl in E.
Qed.

Lemma span_nonempty (p : ascii -> bool) (s : string) :
  fst (PyStr.span p s) <> EmptyString <->
  exists c t, s = String c t /\ p c = true.
Proof.
  destruct s as [ | c t]; simpl.
  - split; [ intros Hn; now contradiction Hn | intros (c & t & E & _); discriminate ].
  - destruct (p c) eqn:E.
    + destruct (PyStr.span p t) as [u v]. simpl.
      split; [ intros _; now exists c, t | discriminate ].
    + simpl. split; [ intros Hn; now contradiction Hn | ].
      intros (c' & t' & [= -> ->] & Hp). congruence.
Qed.

Lemma search_lit_digits_unfold (lit s : string) :
  PyStr.search_lit_digits lit s =
  match digits_here lit s with
  | Some ds => Some ds
  | None => match s with
            | EmptyString => None
            | String _ t => PyStr.search_lit_digits lit t
            end
  end.
Proof. destruct s; reflexivity. Qed.

Lemma digits_here_some (lit s : string) :
  digits_here lit s <> None <->
  exists c t, s = (lit ++ String c t)%string /\ PyStr.isdigit c = true.
Proof.
  unfold digits_here. destruct (PyStr.strip_prefix lit s) as [rest | ] eqn:E.
  - apply strip_prefix_some in E. subst s.
    pose proof (span_nonempty PyStr.isdigit rest) as Hs.
    destruct (fst (PyStr.span PyStr.isdigit rest)) as [ | d ds].
    + split; [ intros Hn; now contradiction Hn | ].
      intros (c & t & Eq & Hc). exfalso.
      assert (rest = String c t) as ->.
      { clear -Eq. induction lit as [ | a l IH]; simpl in Eq; [ exact Eq | ].
        injection Eq as Eq. auto. }
      destruct Hs as [_ Hs]. apply Hs; [ now exists c, t | reflexivity ].
    + split; [ intros _ | discriminate ].
      destruct Hs as [Hs _]. destruct Hs as (c & t & -> & Hc); [ discriminate | ].
      now exists c, t.
  - split; [ intros Hn; now contradiction Hn | ].
    intros (c & t & -> & _).
    assert (PyStr.strip_prefix lit (lit ++ String c t) = Some (String c t)) as E'
      by now apply strip_prefix_some.
    congruence.
Qed.

Lemma digits_here_nonempty (lit s ds : string) :
  digits_here lit s = Some ds -> ds <> EmptyString.
Proof.
  unfold digits_here. destruct (PyStr.strip_prefix lit s); [ | discriminate ].
  destruct (fst (PyStr.span PyStr.isdigit s0)); [ discriminate | ].
  intros [= <-]. discriminate.
Qed.

(** [group(1)] of a match of [(\d+)] is not empty. *)
Lemma search_lit_digits_nonempty (lit s ds : string) :
  PyStr.search_lit_digits lit s = Some ds -> ds <> EmptyString.
Proof.
  induction s as [ | a t IH]; rewrite search_lit_digits_unfold;
    destruct (digits_here lit _) as [ds' | ] eqn:E.
  - intros [= <-]. exact (digits_here_nonempty _ _ _ E).
  - discriminate.
  - intros [= <-]. exact (digits_here_nonempty _ _ _ E).
  - exact IH.
Qed.

(** [re.search] finds a match exactly when the literal occurs somewhere
    with a digit right after it. *)
Lemma search_lit_digits_some (lit s : string) :
  PyStr.search_lit_digits lit s <> None <->
  exists p c t, s = (p ++ lit ++ String c t)%string /\ PyStr.isdigit c = true.
Proof.
  split.
  - induction s as [ | a s' IH]; rewrite search_lit_digits_unfold;
      destruct (digits_here lit _) as [ds | ] eqn:E.
    + intros _. destruct (proj1 (digits_here_some lit "")) as (c & t & Eq & Hc);
        [ congruence | ]. now exists "", c, t.
    + intros Hn. now contradiction Hn.
    + intros _. destruct (proj1 (digits_here_some lit (String a s'))) as (c & t & Eq & Hc);
        [ congruence | ]. now exists "", c, t.
    + intros Hn. destruct (IH Hn) as (p & c & t & -> & Hc).
      now exists (String a p), c, t.
  - intros (p & c & t & -> & Hc). induction p as [ | a p' IH].
    + rewrite search_lit_digits_unfold. simpl.
      destruct (digits_here lit (lit ++ String c t)) eqn:E; [ destruct (lit ++ String c t)%string; discriminate | ].
      exfalso. apply (proj2 (digits_here_some lit (lit ++ String c t))); [ now exists c, t | exact E ].
    + rewrite search_lit_digits_unfold.
      destruct (digits_here lit _); [ discriminate | exact IH ].
Qed.

End StringFacts.

(* ================================================================== *)
(** * The initiative extractor *)

Lemma artifacts_consistent_record_artifact hs hc t u d :
  artifacts_consistent d -> artifacts_consistent (record_artifact hs hc t u d).
Proof.
  unfold artifacts_consistent, record_artifact.
  intros (Hs & Hc & Ha).
  destruct (hc && PyStr.contains "contribution" t && negb (PyStr.contains "annex" t));
    [ | destruct (hc && PyStr.contains "document" t && PyStr.contains "annex" t);
        [ | destruct hs ] ];
    simpl; repeat split; try tauto; try discriminate; try reflexivity.
Qed.

Lemma artifacts_consistent_stable : extraction_stable artifacts_consistent.
Proof.
  split; try (intros v d Hd; exact Hd).
  intros hs hc t u d. apply artifacts_consistent_record_artifact.
Qed.

Lemma artifacts_consistent_initial url ts : artifacts_consistent (initial_data url ts).
Proof.
  unfold artifacts_consistent; simpl.
  repeat split; intros E; try discriminate; now contradiction E.
Qed.

Section Extractor.

Context {W H : Type} (pw : Playwright W H).

(** The [try] statement of [scrape_consultation] keeps an assertion that
    all assignments of the scraper keep. *)
Lemma scrape_statement_preserves (I : ConsultationData -> Prop) url :
  extraction_stable I ->
  (forall v d, I d -> I (set_initiative_id v d)) ->
  (forall v d, I d -> I (set_initiative_name v d)) ->
  (forall v d, I d -> I (set_consultation_url v d)) ->
  (forall v d, I d -> I (set_scrape_status v d)) ->
  (forall v d, I d -> I (set_error_message v d)) ->
  safe (on I) (try_except (scrape_try pw url) scrape_except).
Proof.
  intros Hext Hid Hname Hurl Hst Herr. apply safe_try.
  - unfold scrape_try. apply preserves_bind; [ | intros _ ].
    + apply load_initiative_preserves; auto.
    + apply load_consultation_preserves; auto.
  - intros e. unfold scrape_except.
    repeat (apply safe_bind; [ | intros _ ]).
    + apply safe_modify. intros s. apply Hst.
    + apply safe_modify. intros s. apply Herr.
    + apply safe_ret.
Qed.

(** What a run of [scrape_consultation] returns, from the run of its
    [try] statement. *)
Lemma scrape_consultation_run url w :
  match try_except (scrape_try pw url) scrape_except w (entry_frame pw url w) with
  | (w', s', Return _) => scrape_consultation pw url w = (w', Return (data s'))
  | (_, _, Raise _) => False
  end.
Proof.
  pose proof (scrape_statement_preserves (fun _ => True) url) as T.
  unfold scrape_consultation. fold (entry_frame pw url w).
  specialize (T ltac:(split; auto) ltac:(auto) ltac:(auto) ltac:(auto) ltac:(auto)
                ltac:(auto) w (entry_frame pw url w) Logic.I).
  destruct (try_except (scrape_try pw url) scrape_except w (entry_frame pw url w))
    as [[w' s'] [fl | e]]; [ reflexivity | exact T ].
Qed.

(** Every record of [scrape_consultation] satisfies an assertion that the
    initial record satisfies and all assignments keep. *)
Lemma scrape_consultation_invariant (I : ConsultationData -> Prop) url w :
  extraction_stable I ->
  (forall v d, I d -> I (set_initiative_id v d)) ->
  (forall v d, I d -> I (set_initiative_name v d)) ->
  (forall v d, I d -> I (set_consultation_url v d)) ->
  (forall v d, I d -> I (set_scrape_status v d)) ->
  (forall v d, I d -> I (set_error_message v d)) ->
  I (initial_data url (datetime_now pw w)) ->
  match snd (scrape_consultation pw url w) with
  | Return d => I d
  | Raise _ => False
  end.
Proof.
  intros Hext Hid Hname Hurl Hst Herr H0.
  pose proof (scrape_consultation_run url w) as R.
  pose proof (scrape_statement_preserves I url Hext Hid Hname Hurl Hst Herr
                w (entry_frame pw url w) H0) as T.
  destruct (try_except (scrape_try pw url) scrape_except w (entry_frame pw url w))
    as [[w' s'] [fl | e]]; [ | contradiction R ].
  rewrite R. exact T.
Qed.

(** C3.  In every record [scrape_consultation] returns, and for each of the
    three artifact kinds, the URL is set exactly when the flag is true. *)
Theorem artifact_url_iff_present (initiative_url : string) (w : W) :
  match snd (scrape_consultation pw initiative_url w) with
  | Return d => artifacts_consistent d
  | Raise _ => False
  end.
Proof.
  apply scrape_consultation_invariant;
    try (intros v d Hd; exact Hd).
  - apply artifacts_consistent_stable.
  - apply artifacts_consistent_initial.
Qed.

(** ** Records with status ["error"] *)

Lemma defaults_kept_by_identity (f : ConsultationData -> ConsultationData) :
  (forall d, topic (f d) = topic d /\ consultation_period (f d) = consultation_period d /\
             total_feedback (f d) = total_feedback d /\
             has_summary_report (f d) = has_summary_report d /\
             summary_report_url (f d) = summary_report_url d /\
             has_contributions_zip (f d) = has_contributions_zip d /\
             contributions_zip_url (f d) = contributions_zip_url d /\
             has_documents_annexed (f d) = has_documents_annexed d /\
             documents_annexed_url (f d) = documents_annexed_url d) ->
  forall d, descriptive_default d /\ artifacts_default d ->
            descriptive_default (f d) /\ artifacts_default (f d).
Proof.
  intros Hf d. unfold descriptive_default, artifacts_default.
  destruct (Hf d) as (-> & -> & -> & -> & -> & -> & -> & -> & ->). tauto.
Qed.

(** The consultation page is loaded before anything is extracted from it:
    when [load_consultation] raises, or returns early, the descriptive and
    artifact fields are still untouched. *)
Lemma load_consultation_defaults link :
  triple (on (fun d => descriptive_default d /\ artifacts_default d))
    (load_consultation pw link)
    (fun _ s => scrape_status (data s) = "error" ->
                error_message (data s) <> None /\
                descriptive_default (data s) /\ artifacts_default (data s))
    (fun _ => on (fun d => descriptive_default d /\ artifacts_default d)).
Proof.
  set (D := fun d => descriptive_default d /\ artifacts_default d).
  assert (forall v d, D d -> D (set_consultation_url v d)) as Hurl
    by (intros v; apply defaults_kept_by_identity; intros d; simpl; tauto).
  assert (triple (on D)
            (modify (on_data (set_scrape_status "error")) ;;
             modify (on_data (set_error_message (Some NO_LINK_MESSAGE))) ;;
             ret (W := W) ReturnData)
            (fun _ s => scrape_status (data s) = "error" ->
                        error_message (data s) <> None /\
                        descriptive_default (data s) /\ artifacts_default (data s))
            (fun _ => on D)) as Tno.
  { intros w s Hs. simpl. intros _. split; [ discriminate | exact Hs ]. }
  unfold load_consultation. destruct link as [[ | a t] | ]; try exact Tno.
  apply triple_bind with (Q1 := fun _ => on D).
  { apply preserves_on_data. apply Hurl. }
  intros _. apply triple_bind with (Q1 := fun _ => on D).
  { apply preserves_await. }
  intros _. apply triple_bind with (Q1 := fun _ => on D).
  { apply preserves_wait_for_page_load. }
  intros _. apply triple_bind with (Q1 := fun _ _ => True).
  { apply triple_conseq with (P := on (fun _ => True)) (Q := fun _ => on (fun _ => True))
                             (E := fun _ _ => False).
    - apply (extract_consultation_data_safe pw (fun _ => True)). split; auto.
    - intros s _. exact Logic.I.
    - intros u s _. exact Logic.I.
    - intros e s F. contradiction F. }
  intros _. apply triple_bind with (Q1 := fun _ s => scrape_status (data s) = "success").
  { apply triple_modify. reflexivity. }
  intros _. apply triple_ret. intros s Hs E. rewrite Hs in E. discriminate.
Qed.

(** C1.  A record returned with status ["error"] has its error message
    set, and its descriptive and artifact fields are at their initial
    values. *)
Theorem error_record_keeps_defaults (initiative_url : string) (w w' : W)
    (d : ConsultationData) :
  scrape_consultation pw initiative_url w = (w', Return d) ->
  scrape_status d = "error" ->
  error_message d <> None /\ descriptive_default d /\ artifacts_default d.
Proof.
  set (D := fun d => descriptive_default d /\ artifacts_default d).
  assert (triple (on D) (try_except (scrape_try pw initiative_url) scrape_except)
            (fun _ s => scrape_status (data s) = "error" ->
                        error_message (data s) <> None /\
                        descriptive_default (data s) /\ artifacts_default (data s))
            (fun _ _ => False)) as T.
  { apply triple_try with (E1 := fun _ => on D).
    - unfold scrape_try. apply triple_bind with (Q1 := fun _ => on D).
      + apply load_initiative_preserves;
          intros v; apply defaults_kept_by_identity; intros d0; simpl; tauto.
      + intros _. apply load_consultation_defaults.
    - intros e w0 s Hs. simpl. intros _. split; [ discriminate | exact Hs ]. }
  intros Hrun Herr.
  pose proof (scrape_consultation_run initiative_url w) as R.
  specialize (T w (entry_frame pw initiative_url w)).
  destruct (try_except (scrape_try pw initiative_url) scrape_except w
              (entry_frame pw initiative_url w)) as [[w1 s1] [fl | e]];
    [ | contradiction R ].
  rewrite R in Hrun. injection Hrun as _ <-.
  apply T; [ | exact Herr ].
  unfold D, on, descriptive_default, artifacts_default. simpl. tauto.
Qed.

(** ** Identity fields *)

(** [record_artifact] writes to the artifact fields only. *)
Lemma record_artifact_identity hs hc t u d :
  initiative_id (record_artifact hs hc t u d) = initiative_id d /\
  initiative_url (record_artifact hs hc t u d) = initiative_url d /\
  consultation_url (record_artifact hs hc t u d) = consultation_url d /\
  scrape_status (record_artifact hs hc t u d) = scrape_status d /\
  error_message (record_artifact hs hc t u d) = error_message d.
Proof.
  unfold record_artifact.
  destruct (hc && PyStr.contains "contribution" t && negb (PyStr.contains "annex" t));
    [ | destruct (hc && PyStr.contains "document" t && PyStr.contains "annex" t);
        [ | destruct hs ] ];
    simpl; auto.
Qed.

(** An assertion on the fields that [extract_consultation_data] leaves
    alone is kept by it. *)
Lemma identity_assertion_stable (I : ConsultationData -> Prop) :
  (forall d d', initiative_id d' = initiative_id d ->
                initiative_url d' = initiative_url d ->
                consultation_url d' = consultation_url d ->
                scrape_status d' = scrape_status d ->
                error_message d' = error_message d ->
                I d -> I d') ->
  extraction_stable I.
Proof.
  intros HI. split.
  - intros v d. apply HI; reflexivity.
  - intros v d. apply HI; reflexivity.
  - intros v d. apply HI; reflexivity.
  - intros hs hc t u d.
    destruct (record_artifact_identity hs hc t u d) as (E1 & E2 & E3 & E4 & E5).
    apply HI; assumption.
Qed.

(** The part of [load_consultation] that runs on a link that is not empty:
    it ends by falling through, and what the assignment of the link
    establishes holds from then on. *)
Lemma load_consultation_link (I0 I : ConsultationData -> Prop) a t :
  (forall d, I0 d -> I (set_consultation_url (String a t) d)) ->
  extraction_stable I ->
  (forall v d, I d -> I (set_scrape_status v d)) ->
  triple (on I0) (load_consultation pw (Some (String a t)))
    (fun fl s => fl = Fallthrough /\ I (data s))
    (fun _ => on I).
Proof.
  intros Hset Hext Hst. unfold load_consultation.
  apply triple_bind with (Q1 := fun _ => on I).
  { apply triple_modify. intros s Hs. exact (Hset _ Hs). }
  intros _. apply triple_bind with (Q1 := fun _ => on I).
  { apply preserves_await. }
  intros _. apply triple_bind with (Q1 := fun _ => on I).
  { apply preserves_wait_for_page_load. }
  intros _. apply triple_bind with (Q1 := fun _ => on I).
  { apply safe_preserves, extract_consultation_data_safe, Hext. }
  intros _. apply triple_bind with (Q1 := fun _ => on I).
  { apply preserves_on_data. apply Hst. }
  intros _. apply triple_ret. intros s Hs. split; [ reflexivity | exact Hs ].
Qed.

(** The constructed link is a string, and not the empty one. *)
Lemma construct_consultation_link_nonempty (initiative_url : string) :
  exists a t, construct_consultation_link initiative_url = Some (String a t).
Proof.
  unfold construct_consultation_link.
  set (base := if PyStr.endswith _ "_en" then _ else _).
  destruct base as [ | a t]; simpl; eauto.
Qed.

(** [load_initiative] leaves the identifier found in the URL, or the
    initial [""] when the pattern finds none. *)
Lemma load_initiative_sets_id (url0 url : string) :
  triple (on (fun d => initiative_url d = url0 /\ initiative_id d = ""))
    (load_initiative pw url)
    (fun _ => on (fun d => initiative_url d = url0 /\ initiative_id d = initiative_id_of url))
    (fun _ => on (fun d => initiative_url d = url0 /\ initiative_id d = initiative_id_of url)).
Proof.
  set (I := fun d => initiative_url d = url0 /\ initiative_id d = initiative_id_of url).
  assert (forall v d, I d -> I (set_initiative_name v d)) as Hname
    by (intros v d Hd; exact Hd).
  unfold load_initiative. apply triple_bind with (Q1 := fun _ => on I).
  - unfold I, initiative_id_of.
    destruct (PyStr.search_lit_digits "/initiatives/" url) as [g | ].
    + apply triple_modify. intros s [Hu _]. split; [ exact Hu | reflexivity ].
    + apply triple_ret. intros s Hs. exact Hs.
  - intros _. change (preserves (W := W) (on I)
      (await (page_goto pw url) ;; wait_for_page_load pw ;;
       try_except
         (name_element <- await (page_query_selector pw SEL_HEADING) ;;
          match name_element with
          | Some ne =>
              text <- await (element_inner_text pw ne) ;;
              modify (on_data (set_initiative_name (PyStr.strip text)))
          | None => ret tt
          end)
         (fun _ => ret tt))).
    preserves_auto.
Qed.

(** In every record returned, the URL is the one passed in and the
    identifier is the one the pattern finds in it. *)
Lemma scrape_consultation_identity (url : string) (w : W) :
  match snd (scrape_consultation pw url w) with
  | Return d =>
      initiative_url d = url /\
      initiative_id d = initiative_id_of url
  | Raise _ => False
  end.
Proof.
  set (I := fun d => initiative_url d = url /\
                     initiative_id d = initiative_id_of url).
  assert (extraction_stable I) as Hext.
  { apply identity_assertion_stable. intros d d' E1 E2 _ _ _ [H1 H2].
    split; congruence. }
  assert (triple (on (fun d => initiative_url d = url /\ initiative_id d = ""))
            (try_except (scrape_try pw url) scrape_except)
            (fun _ => on I) (fun _ => on I)) as T.
  { apply triple_try with (E1 := fun _ => on I).
    - unfold scrape_try. apply triple_bind with (Q1 := fun _ => on I).
      + apply load_initiative_sets_id.
      + intros _. apply load_consultation_preserves; auto; intros v d Hd; exact Hd.
    - intros e. apply scrape_except_preserves; intros v d Hd; exact Hd. }
  pose proof (scrape_consultation_run url w) as R.
  specialize (T w (entry_frame pw url w) (conj eq_refl eq_refl)).
  destruct (try_except (scrape_try pw url) scrape_except w
              (entry_frame pw url w)) as [[w1 s1] [fl | e]];
    [ | contradiction R ].
  rewrite R. exact T.
Qed.

(** C4, amended.  A record returned with status ["success"] carries the URL
    passed in and, as its identifier, the digits that follow the first
    ["/initiatives/"] followed by a digit in that URL; the identifier is
    non-empty exactly when the URL has such a place. *)
Theorem success_record_identity (url : string) (w w' : W) (d : ConsultationData) :
  scrape_consultation pw url w = (w', Return d) ->
  scrape_status d = "success" ->
  initiative_url d = url /\
  initiative_id d = initiative_id_of url /\
  (initiative_id d <> "" <->
   exists p c t, url = (p ++ "/initiatives/" ++ String c t)%string /\
                 PyStr.isdigit c = true).
Proof.
  intros Hrun _. pose proof (scrape_consultation_identity url w) as Hid.
  rewrite Hrun in Hid. simpl in Hid. destruct Hid as [Hu Hi].
  split; [ exact Hu | ]. split; [ exact Hi | ].
  rewrite Hi, <- search_lit_digits_some. unfold initiative_id_of.
  destruct (PyStr.search_lit_digits "/initiatives/" url) as [g | ] eqn:E.
  - split; [ discriminate | intros _ ].
    exact (search_lit_digits_nonempty _ _ _ E).
  - split; intros Hn; now contradiction Hn.
Qed.

(** ** The consultation link *)

Lemma construct_consultation_link_en (p : string) :
  construct_consultation_link (p ++ "_en")
  = Some (p ++ "/public-consultation_en")%string.
Proof.
  unfold construct_consultation_link.
  rewrite rstrip_char_append by (discriminate || reflexivity).
  rewrite endswith_append.
  change 3 with (String.length "_en"). now rewrite drop_last_append.
Qed.

Lemma construct_consultation_link_plain (url : string) :
  PyStr.endswith url "_en" = false ->
  PyStr.endswith url "/" = false ->
  construct_consultation_link url = Some (url ++ "/public-consultation_en")%string.
Proof.
  intros Hen Hslash. unfold construct_consultation_link.
  rewrite (rstrip_char_no_trailing "/" url Hslash). now rewrite Hen.
Qed.

Lemma construct_consultation_link_trailing (url : string) :
  construct_consultation_link url
  = construct_consultation_link (PyStr.rstrip_char "/" url).
Proof.
  unfold construct_consultation_link. now rewrite rstrip_char_idempotent.
Qed.

Lemma success_record_link (url : string) (w w' : W) (d : ConsultationData) :
  scrape_consultation pw url w = (w', Return d) ->
  scrape_status d = "success" ->
  Some (consultation_url d) = construct_consultation_link url.
Proof.
  destruct (construct_consultation_link_nonempty url) as (a & t & E).
  assert (triple (fun _ => True) (try_except (scrape_try pw url) scrape_except)
            (fun _ s => scrape_status (data s) = "success" ->
                        consultation_url (data s) = String a t)
            (fun _ _ => True)) as T.
  { apply triple_try with (E1 := fun _ _ => True).
    - unfold scrape_try. rewrite E.
      apply triple_bind with (Q1 := fun _ _ => True); [ apply preserves_True | ].
      intros _.
      apply triple_conseq with (P := on (fun _ => True))
        (Q := fun fl s => fl = Fallthrough /\ consultation_url (data s) = String a t)
        (E := fun _ => on (fun d => consultation_url d = String a t)).
      + apply (load_consultation_link (fun _ => True)
                 (fun d => consultation_url d = String a t) a t).
        * reflexivity.
        * apply identity_assertion_stable. intros d0 d1 _ _ E3 _ _ H0. congruence.
        * intros v d0 H0. exact H0.
      + intros s _. exact Logic.I.
      + intros fl s [_ Hs] _. exact Hs.
      + intros e s _. exact Logic.I.
    - intros e w0 s _. simpl. discriminate. }
  intros Hrun Hok. pose proof (scrape_consultation_run url w) as R.
  specialize (T w (entry_frame pw url w) Logic.I).
  destruct (try_except (scrape_try pw url) scrape_except w (entry_frame pw url w))
    as [[w1 s1] [fl | e]]; [ | contradiction R ].
  rewrite R in Hrun. injection Hrun as _ <-. rewrite E. f_equal. exact (T Hok).
Qed.

(** C5.  The consultation URL is a function of the initiative URL: trailing
    slashes are trimmed, a final ["_en"] is dropped, and
    ["/public-consultation_en"] is appended; a record with status
    ["success"] carries that URL.  On a link that is [None] or empty the
    record gets status ["error"] and the fixed message, the [try] block
    returns at once, and the browser is not touched. *)
Theorem consultation_link_rule :
  (forall p, construct_consultation_link (p ++ "_en")
             = Some (p ++ "/public-consultation_en")%string) /\
  (forall url, PyStr.endswith url "_en" = false -> PyStr.endswith url "/" = false ->
               construct_consultation_link url
               = Some (url ++ "/public-consultation_en")%string) /\
  (forall url, construct_consultation_link url
               = construct_consultation_link (PyStr.rstrip_char "/" url)) /\
  (forall url w w' d,
      scrape_consultation pw url w = (w', Return d) ->
      scrape_status d = "success" ->
      Some (consultation_url d) = construct_consultation_link url) /\
  (forall link w s,
      PyStr.truthy link = false ->
      load_consultation pw link w s
      = (w,
         on_data (set_error_message (Some NO_LINK_MESSAGE))
           (on_data (set_scrape_status "error") s),
         Return ReturnData)).
Proof.
  split; [ exact construct_consultation_link_en | ].
  split; [ exact construct_consultation_link_plain | ].
  split; [ exact construct_consultation_link_trailing | ].
  split; [ exact success_record_link | ].
  intros [[ | a t] | ] w s Hl; [ reflexivity | discriminate | reflexivity ].
Qed.

(** C10.  The constructed link is never [None] nor empty, so the [try] block
    never leaves by [return data], and the error message of a record is
    either unset or [str(e)] for an exception [e] the block raised: the
    branch that reports a missing link is never taken, and its message is
    in no record unless the browser itself raises an exception with that
    very text. *)
Theorem no_link_branch_unreachable (url : string) :
  (exists a t, construct_consultation_link url = Some (String a t)) /\
  (forall w s, snd (scrape_try pw url w s) <> Return ReturnData) /\
  (forall w, exists w' d,
      scrape_consultation pw url w = (w', Return d) /\
      (error_message d = None \/
       exists w1 s1 e,
         scrape_try pw url w (entry_frame pw url w) = (w1, s1, Raise e) /\
         error_message d = Some (exn_message e)) /\
      ((forall w1 s1 e,
           scrape_try pw url w (entry_frame pw url w) = (w1, s1, Raise e) ->
           exn_message e <> NO_LINK_MESSAGE) ->
       error_message d <> Some NO_LINK_MESSAGE)).
Proof.
  destruct (construct_consultation_link_nonempty url) as (a & t & E).
  assert (forall I : ConsultationData -> Prop,
             extraction_stable I ->
             (forall v d, I d -> I (set_initiative_id v d)) ->
             (forall v d, I d -> I (set_initiative_name v d)) ->
             (forall v d, I d -> I (set_consultation_url v d)) ->
             (forall v d, I d -> I (set_scrape_status v d)) ->
             triple (on I) (scrape_try pw url)
               (fun fl s => fl = Fallthrough /\ I (data s)) (fun _ => on I)) as T.
  { intros I Hext Hid Hname Hurl Hst. unfold scrape_try. rewrite E.
    apply triple_bind with (Q1 := fun _ => on I).
    - apply load_initiative_preserves; auto.
    - intros _. apply (load_consultation_link I I a t); auto. }
  split; [ eauto | ]. split.
  - intros w s. specialize (T (fun _ => True) ltac:(split; auto) ltac:(auto)
                              ltac:(auto) ltac:(auto) ltac:(auto) w s Logic.I).
    destruct (scrape_try pw url w s) as [[w1 s1] [fl | e]]; simpl.
    + destruct T as [-> _]. discriminate.
    + discriminate.
  - intros w. pose proof (scrape_consultation_run url w) as R.
    assert (extraction_stable (fun d => error_message d = None)) as Hext.
    { apply identity_assertion_stable. intros d0 d1 _ _ _ _ E5 H0. congruence. }
    specialize (T (fun d => error_message d = None) Hext
                  ltac:(intros v d0 H0; exact H0) ltac:(intros v d0 H0; exact H0)
                  ltac:(intros v d0 H0; exact H0) ltac:(intros v d0 H0; exact H0)
                  w (entry_frame pw url w) eq_refl).
    unfold try_except in R.
    destruct (scrape_try pw url w (entry_frame pw url w)) as [[w1 s1] [fl | e]].
    + exists w1, (data s1). split; [ exact R | ]. split.
      * left. exact (proj2 T).
      * intros _. rewrite (proj2 T). discriminate.
    + simpl in R. eexists _, _. split; [ exact R | ]. split.
      * right. exists w1, s1, e. split; reflexivity.
      * intros Hmsg. simpl. intros [= E']. exact (Hmsg w1 s1 e eq_refl E').
Qed.

End Extractor.

(* ================================================================== *)
(** * Classification of a file entry *)

(** The [if]/[elif] chain of the code is the priority rule. *)
Lemma record_artifact_classify hs hc t u d :
  record_artifact hs hc t u d = record_kind (classify hs hc t) u d.
Proof.
  unfold record_artifact, classify.
  destruct (hc && PyStr.contains "contribution" t && negb (PyStr.contains "annex" t));
    [ reflexivity | ].
  destruct (hc && PyStr.contains "document" t && PyStr.contains "annex" t);
    [ reflexivity | ].
  destruct hs; reflexivity.
Qed.

(** C6, amended.  The file-type decision is the priority rule over the
    lowered title and the observed sections.  Under an observed
    contributions section, a title with both "contribution" and "annex" is
    never recorded as the contributions ZIP; it is recorded as the annexed
    documents when it also has "document", else as the summary report when a
    summary section was observed, and ignored otherwise. *)
Theorem contribution_annex_title (has_summary_section has_contributions_section : bool)
    (title latest_url : string) (d : ConsultationData) :
  let title_lower := PyStr.lower (PyStr.strip title) in
  let recorded :=
    record_artifact has_summary_section has_contributions_section
      title_lower latest_url d in
  recorded
  = record_kind (classify has_summary_section has_contributions_section title_lower)
      latest_url d /\
  (has_contributions_section = true ->
   PyStr.contains "contribution" title_lower = true ->
   PyStr.contains "annex" title_lower = true ->
   classify has_summary_section has_contributions_section title_lower
   = (if PyStr.contains "document" title_lower then Some DocumentsAnnexed
      else if has_summary_section then Some SummaryReport else None) /\
   has_contributions_zip recorded = has_contributions_zip d /\
   contributions_zip_url recorded = contributions_zip_url d).
Proof.
  cbv zeta. split; [ apply record_artifact_classify | ].
  intros -> Hc Ha. rewrite record_artifact_classify. unfold classify.
  rewrite Hc, Ha. simpl.
  destruct (PyStr.contains "document" (PyStr.lower (PyStr.strip title)));
    [ | destruct has_summary_section ]; simpl; auto.
Qed.

(* ================================================================== *)
(** * The capture dictionary *)

Lemma mem_In (x : string) (l : list string) : PyStr.mem x l = true <-> In x l.
Proof.
  unfold PyStr.mem. rewrite existsb_exists. split.
  - intros (y & Hy & E). apply String.eqb_eq in E. now subst.
  - intros Hx. exists x. split; [ exact Hx | apply String.eqb_refl ].
Qed.

Lemma mem_false (x : string) (l : list string) : PyStr.mem x l = false <-> ~ In x l.
Proof.
  rewrite <- mem_In. destruct (PyStr.mem x l); split; congruence.
Qed.

Lemma mem_ext (x : string) (l l' : list string) :
  (forall y, In y l <-> In y l') -> PyStr.mem x l = PyStr.mem x l'.
Proof.
  intros Hl. destruct (PyStr.mem x l') eqn:E.
  - apply mem_In. apply Hl. now apply mem_In.
  - apply mem_false. rewrite Hl. now apply mem_false.
Qed.

Lemma first_occurrences_from_ext (seen seen' l : list string) :
  (forall y, In y seen <-> In y seen') ->
  first_occurrences_from seen l = first_occurrences_from seen' l.
Proof.
  revert seen seen'. induction l as [ | x rest IH]; intros seen seen' Hs; simpl;
    [ reflexivity | ].
  rewrite (mem_ext x seen seen' Hs). destruct (PyStr.mem x seen'); [ now apply IH | ].
  f_equal. apply IH. intros y. simpl. rewrite Hs. tauto.
Qed.

Lemma first_occurrences_from_In (seen l : list string) (x : string) :
  In x (first_occurrences_from seen l) <-> In x l /\ ~ In x seen.
Proof.
  revert seen. induction l as [ | y rest IH]; intros seen; simpl; [ tauto | ].
  destruct (PyStr.mem y seen) eqn:E.
  - apply mem_In in E. rewrite IH. split; [ tauto | ].
    intros [[-> | Hr] Hn]; tauto.
  - apply mem_false in E. simpl. rewrite IH. simpl. split.
    + intros [-> | [Hr Hn]]; [ tauto | ]. split; [ tauto | ]. tauto.
    + intros [[-> | Hr] Hn]; [ tauto | ].
      destruct (string_dec y x) as [-> | Hne]; [ tauto | ]. right. tauto.
Qed.

Lemma first_occurrences_from_NoDup (seen l : list string) :
  NoDup (first_occurrences_from seen l).
Proof.
  revert seen. induction l as [ | y rest IH]; intros seen; simpl; [ constructor | ].
  destruct (PyStr.mem y seen); [ apply IH | ].
  constructor; [ | apply IH ].
  rewrite first_occurrences_from_In. simpl. tauto.
Qed.

(** The elements met first stay first: the result on a prefix of the input
    is a prefix of the result. *)
Lemma first_occurrences_from_app (seen l1 l2 : list string) :
  first_occurrences_from seen (l1 ++ l2)
  = (first_occurrences_from seen l1
     ++ first_occurrences_from (rev l1 ++ seen) l2)%list.
Proof.
  revert seen. induction l1 as [ | x rest IH]; intros seen; simpl; [ reflexivity | ].
  destruct (PyStr.mem x seen) eqn:E.
  - rewrite IH. f_equal. apply first_occurrences_from_ext.
    intros y. repeat (rewrite in_app_iff; simpl).
    apply mem_In in E. split; [ tauto | ]. intros [[Hy | [-> | []]] | Hy]; tauto.
  - simpl. rewrite IH. do 2 f_equal. apply first_occurrences_from_ext.
    intros y. repeat (rewrite in_app_iff; simpl). tauto.
Qed.

(** The list [get_initiative_urls] builds with [add_url] holds the first
    occurrences of what it is given, after what it held. *)
Lemma fold_add_url (l acc : list string) :
  fold_left (fun a u => add_url u a) l acc
  = (acc ++ first_occurrences_from acc l)%list.
Proof.
  revert acc. induction l as [ | x rest IH]; intros acc; simpl.
  - now rewrite app_nil_r.
  - unfold add_url at 2. destruct (PyStr.mem x acc); [ apply IH | ].
    rewrite IH, <- app_assoc. simpl. do 2 f_equal.
    apply first_occurrences_from_ext. intros y. rewrite in_app_iff. simpl. tauto.
Qed.

Lemma first_occurrences_from_NoDup_id (seen l : list string) :
  NoDup l -> (forall x, In x l -> ~ In x seen) ->
  first_occurrences_from seen l = l.
Proof.
  revert seen. induction l as [ | x rest IH]; intros seen Hnd Hs; simpl; [ reflexivity | ].
  inversion Hnd as [ | ? ? Hx Hrest]; subst.
  assert (PyStr.mem x seen = false) as -> by (apply mem_false, Hs; now left).
  f_equal. apply IH; [ exact Hrest | ].
  intros y Hy [-> | Hin]; [ contradiction | ]. apply (Hs y); [ now right | exact Hin ].
Qed.

Lemma add_url_cons (u k : string) (l : list string) :
  add_url u (k :: l) = if String.eqb u k then k :: l else k :: add_url u l.
Proof.
  unfold add_url. simpl. destruct (String.eqb u k); simpl; [ reflexivity | ].
  destruct (PyStr.mem u l); reflexivity.
Qed.

(** A dictionary that maps each captured URL to itself is the list of its
    keys, and [d[u] = u] is [add_url]. *)
Lemma dict_setitem_diagonal (u : string) (l : list string) :
  dict_setitem u u (map (fun k => (k, k)) l) = map (fun k => (k, k)) (add_url u l).
Proof.
  induction l as [ | k rest IH]; [ reflexivity | ].
  rewrite add_url_cons. simpl. rewrite String.eqb_sym.
  destruct (String.eqb u k) eqn:E.
  - apply String.eqb_eq in E. now subst.
  - simpl. now rewrite IH.
Qed.

Lemma handle_requests_diagonal (request_urls l : list string) :
  handle_requests request_urls (map (fun k => (k, k)) l)
  = map (fun k => (k, k)) (fold_left (fun a u => add_url u a) (capture_log request_urls) l).
Proof.
  revert l. unfold handle_requests.
  induction request_urls as [ | u rest IH]; intros l; simpl; [ reflexivity | ].
  unfold handle_request at 2. destruct (PyStr.contains "/api/download/" u); simpl.
  - rewrite dict_setitem_diagonal. apply IH.
  - apply IH.
Qed.

(** What the dictionary holds after a sequence of requests: the first
    occurrence of each download URL, in arrival order. *)
Lemma captured_values (request_urls : list string) :
  dict_values (handle_requests request_urls [])
  = first_occurrences (capture_log request_urls).
Proof.
  change (@nil (string * string)) with (map (fun k : string => (k, k)) []).
  rewrite handle_requests_diagonal, fold_add_url. unfold dict_values.
  rewrite map_map. simpl. now rewrite map_id.
Qed.

(** When no download URL is requested twice, the URL read is the latest
    request of the log. *)
Lemma latest_url_without_repeats (request_urls : list string) :
  NoDup (capture_log request_urls) ->
  latest_url_of (handle_requests request_urls []) = list_last (capture_log request_urls).
Proof.
  intros Hnd. unfold latest_url_of. rewrite captured_values. unfold first_occurrences.
  rewrite first_occurrences_from_NoDup_id; auto.
Qed.

(** With the requests A, B, A the log ends with A while the dictionary still
    ends with B: a URL already among the keys keeps its place. *)
Example repeated_request_keeps_place :
  list_last (capture_log ["/api/download/a"; "/api/download/b"; "/api/download/a"])
  = Some "/api/download/a" /\
  latest_url_of
    (handle_requests ["/api/download/a"; "/api/download/b"; "/api/download/a"] [])
  = Some "/api/download/b".
Proof. split; reflexivity. Qed.

(* ================================================================== *)
(** * The listing walker, on any browser *)

Lemma add_url_NoDup (u : string) (l : list string) : NoDup l -> NoDup (add_url u l).
Proof.
  intros Hl. unfold add_url. destruct (PyStr.mem u l) eqn:E; [ exact Hl | ].
  apply mem_false in E. apply NoDup_app; [ exact Hl | | ].
  - constructor; [ intros [] | constructor ].
  - intros a Ha [<- | []]. contradiction.
Qed.

Lemma add_url_normalized (h : string) (l : list string) :
  h <> EmptyString -> Forall normalized l -> Forall normalized (add_url (normalize_href h) l).
Proof.
  intros Hh Hl. unfold add_url. destruct (PyStr.mem _ l); [ exact Hl | ].
  apply Forall_app. split; [ exact Hl | ].
  constructor; [ now exists h | constructor ].
Qed.

Section Walker.

Context {W H : Type} (pw : Playwright W H).

Lemma cards_loop_preserves (cards : list H) :
  preserves walk_invariant (cards_loop pw cards).
Proof.
  induction cards as [ | card rest IH]; simpl; preserves_auto.
  intros l [Hnd Hn]. split; [ now apply add_url_NoDup | ].
  apply add_url_normalized; [ discriminate | exact Hn ].
Qed.

Lemma pages_loop_preserves (fuel : nat) :
  preserves walk_invariant (pages_loop pw fuel).
Proof.
  induction fuel as [ | fuel IH]; simpl; preserves_auto.
  apply cards_loop_preserves.
Qed.

Lemma get_initiative_urls_body_safe (fuel : nat) :
  safe walk_invariant (get_initiative_urls_body pw fuel).
Proof.
  unfold get_initiative_urls_body. apply safe_try; [ | intros e; apply safe_ret ].
  preserves_auto. apply pages_loop_preserves.
Qed.

(** On any browser, [get_initiative_urls] raises nothing; a list it returns
    has no duplicates and holds normalised URLs only. *)
Lemma get_initiative_urls_unique (fuel : nat) (w : W) :
  match snd (get_initiative_urls pw fuel w) with
  | Return (Some urls) => NoDup urls /\ Forall normalized urls
  | Return None => True
  | Raise _ => False
  end.
Proof.
  unfold get_initiative_urls.
  pose proof (get_initiative_urls_body_safe fuel w [] (conj (NoDup_nil _) (Forall_nil _))) as T.
  destruct (get_initiative_urls_body pw fuel w []) as [[w' l] [[ | ] | e]]; simpl; auto.
Qed.

End Walker.

(* ================================================================== *)
(** * The listing walker, on a scripted site *)

Module StaticWalkFacts.

Import StaticSite StaticWalk.

Lemma cards_loop_run (s : Site) (v : View) (ts : string) (cs : list Card)
    (acc : list string) :
  cards_loop browser (map ECard cs) (at_view s v ts) acc
  = (at_view s v ts,
     fold_left (fun a u => add_url u a) (map normalize_href (flat_map card_hrefs cs)) acc,
     Return tt).
Proof.
  revert acc. induction cs as [ | c rest IH]; intros acc; [ reflexivity | ].
  destruct c as [[[ | a t] | ] | ].
  - exact (IH acc).
  - exact (IH (add_url (normalize_href (String a t)) acc)).
  - exact (IH acc).
  - exact (IH acc).
Qed.

Lemma fold_page_hrefs (p : ListingPage) (ps : list ListingPage) (acc : list string) :
  fold_left (fun a u => add_url u a)
    (map normalize_href (flat_map page_hrefs (p :: ps))) acc
  = fold_left (fun a u => add_url u a)
      (map normalize_href (flat_map page_hrefs ps))
      (fold_left (fun a u => add_url u a)
         (map normalize_href (flat_map card_hrefs (cards p))) acc).
Proof. simpl. now rewrite map_app, fold_left_app. Qed.

(** The [while] loop on a scripted listing: it ends within as many turns
    as there are pages, and has then read the pages [visited]. *)
Lemma pages_loop_run (s : Site) (ts : string) (pages : list ListingPage) :
  forall fuel acc,
    pages <> [] -> length pages <= fuel ->
    exists v',
      pages_loop browser fuel (at_view s (ShowListing pages) ts) acc
      = (at_view s v' ts,
         fold_left (fun a u => add_url u a)
           (map normalize_href (flat_map page_hrefs (visited pages))) acc,
         Return true).
Proof.
  induction pages as [ | p rest IH]; intros fuel acc Hne Hlen; [ contradiction | ].
  destruct fuel as [ | f]; [ simpl in Hlen; lia | ].
  change (pages_loop browser (S f)) with
    (cards <- await (page_query_selector_all browser SEL_CARD) ;;
      cards_loop browser cards ;;
      next_button <- await (page_query_selector browser SEL_NEXT) ;;
      match next_button with
      | Some nb =>
          is_disabled <- await (element_get_attribute browser nb "disabled") ;;
          if PyStr.truthy is_disabled then ret true
          else
            clicked <- try_except
                         (await (element_click browser nb) ;;
                          wait_for_page_load browser ;;
                          sleep browser ;;
                          ret true)
                         (fun _ => ret false) ;;
            if clicked then pages_loop browser f else ret true
      | None => ret true
      end).
  set (w := at_view s (ShowListing (p :: rest)) ts).
  rewrite (bind_run _ _ w acc w acc (map ECard (cards p))) by reflexivity.
  rewrite (bind_run _ _ w acc w
             (fold_left (fun a u => add_url u a)
                (map normalize_href (flat_map card_hrefs (cards p))) acc) tt)
    by apply cards_loop_run.
  set (acc' := fold_left _ (map normalize_href (flat_map card_hrefs (cards p))) acc).
  rewrite (bind_run (await (page_query_selector browser SEL_NEXT)) _
             w acc' w acc' (option_map ENext (next_control p))) by reflexivity.
  simpl visited. rewrite fold_page_hrefs. fold acc'.
  destruct (next_control p) as [d | ]; [ | exists (ShowListing (p :: rest)); reflexivity ].
  cbn [option_map].
  rewrite (bind_run (await (element_get_attribute browser (ENext d) "disabled")) _
             w acc' w acc' d) by reflexivity.
  destruct (PyStr.truthy d); [ exists (ShowListing (p :: rest)); reflexivity | ].
  destruct rest as [ | q r].
  - rewrite (bind_run
               (try_except
                  (await (element_click browser (ENext d)) ;;
                   wait_for_page_load browser ;; sleep browser ;; ret true)
                  (fun _ => ret false)) _
               w acc' w acc' false) by reflexivity.
    exists (ShowListing [p]); reflexivity.
  - rewrite (bind_run
               (try_except
                  (await (element_click browser (ENext d)) ;;
                   wait_for_page_load browser ;; sleep browser ;; ret true)
                  (fun _ => ret false)) _
               w acc' (at_view s (ShowListing (q :: r)) ts) acc' true)
      by reflexivity.
    apply IH; [ discriminate | simpl in *; lia ].
Qed.

Lemma body_prelude (st : Site) (ts : string) (c : M World (list string) bool) :
  (await (page_goto browser SEARCH_URL) ;; wait_for_page_load browser ;; c)
    (start st ts) []
  = c (at_view st (ShowListing (listing st)) ts) [].
Proof.
  rewrite (bind_run (await (page_goto browser SEARCH_URL)) _
             (start st ts) [] (at_view st (ShowListing (listing st)) ts) [] tt)
    by reflexivity.
  now rewrite (bind_run (wait_for_page_load browser) _
                 (at_view st (ShowListing (listing st)) ts) []
                 (at_view st (ShowListing (listing st)) ts) [] tt)
    by reflexivity.
Qed.

Lemma body_run (pages : list ListingPage) (docs : list (string * Document))
    (ts : string) (k : nat) :
  exists w',
    get_initiative_urls_body browser (length pages + k) (start (mkSite pages docs) ts) []
    = (w',
       first_occurrences (map normalize_href (flat_map page_hrefs (walked pages))),
       Return true).
Proof.
  unfold get_initiative_urls_body, try_except. rewrite body_prelude. simpl listing.
  destruct pages as [ | p rest].
  - eexists. reflexivity.
  - unfold walked. destruct (cards p) as [ | c cs] eqn:Ec.
    + erewrite (bind_raise (await (page_wait_for_selector browser SEL_CARD)))
        by (unfold await; simpl; unfold wait_for_selector; simpl; rewrite Ec;
            reflexivity).
      eexists. reflexivity.
    + erewrite (bind_run (await (page_wait_for_selector browser SEL_CARD)))
        by (unfold await; simpl; unfold wait_for_selector; simpl; rewrite Ec;
            reflexivity).
      destruct (pages_loop_run (mkSite (p :: rest) docs) ts (p :: rest)
                  (length (p :: rest) + k) [])
        as [v' E]; [ discriminate | lia | ].
      change (show _ [] _)
        with (at_view (mkSite (p :: rest) docs) (ShowListing (p :: rest)) ts).
      rewrite E, fold_add_url. eexists. reflexivity.
Qed.

(** [get_initiative_urls] on a scripted site, with fuel for every result
    page: the walk ends and returns the first occurrences of the listed
    URLs. *)
Lemma get_initiative_urls_run (st : Site) (ts : string) (k : nat) :
  exists w',
    get_initiative_urls browser (length (listing st) + k) (start st ts)
    = (w', Return (Some (first_occurrences (listed_urls st)))).
Proof.
  destruct st as [pages docs]. unfold get_initiative_urls, listed_urls. simpl listing.
  destruct (body_run pages docs ts k) as [w' E]. rewrite E. now exists w'.
Qed.

End StaticWalkFacts.

(* ================================================================== *)
(** * Discovery: unique URLs in first-seen order *)

Lemma contains_char_cons (c a : ascii) (t : string) :
  PyStr.contains (String c EmptyString) (String a t)
  = Ascii.eqb c a || PyStr.contains (String c EmptyString) t.
Proof.
  simpl. destruct (ascii_dec c a) as [-> | Hne].
  - rewrite Ascii.eqb_refl. destruct t; reflexivity.
  - apply Ascii.eqb_neq in Hne. now rewrite Hne.
Qed.

Lemma before_first_append (c : ascii) (p q : string) :
  PyStr.contains (String c EmptyString) p = false ->
  PyStr.before_first c (p ++ String c q) = p.
Proof.
  induction p as [ | a t IH]; intros Hp.
  - simpl. now rewrite Ascii.eqb_refl.
  - rewrite contains_char_cons in Hp. apply orb_false_iff in Hp. destruct Hp as [Ha Ht].
    simpl. rewrite Ascii.eqb_sym, Ha. now rewrite (IH Ht).
Qed.

Lemma before_first_free (c : ascii) (s : string) :
  PyStr.contains (String c EmptyString) (PyStr.before_first c s) = false.
Proof.
  induction s as [ | a t IH]; [ reflexivity | ].
  simpl PyStr.before_first. destruct (Ascii.eqb a c) eqn:E; [ reflexivity | ].
  rewrite contains_char_cons, Ascii.eqb_sym, E. exact IH.
Qed.

Lemma before_first_absent (c : ascii) (s : string) :
  PyStr.contains (String c EmptyString) s = false -> PyStr.before_first c s = s.
Proof.
  induction s as [ | a t IH]; intros Hs; [ reflexivity | ].
  rewrite contains_char_cons in Hs. apply orb_false_iff in Hs. destruct Hs as [Ha Ht].
  simpl. rewrite Ascii.eqb_sym, Ha. now rewrite (IH Ht).
Qed.

(** What the walk does keep.  On any browser [get_initiative_urls] raises
    nothing, and a list it returns has no duplicates and holds normalised
    URLs only.  On a scripted
    listing, with fuel for every result page, it returns the first
    occurrences of the normalised [href]s of the pages read, in page order.
    Keeping first occurrences leaves no duplicate, keeps every URL, and
    keeps the order in which they were first met.  Normalising an [href]
    prefixes the origin to one that starts with a slash and cuts at the
    first question mark. *)
Theorem discovered_urls_unique_first_seen :
  (forall (W H : Type) (pw : Playwright W H) (fuel : nat) (w : W),
      match snd (get_initiative_urls pw fuel w) with
      | Return (Some urls) => NoDup urls /\ Forall normalized urls
      | Return None => True
      | Raise _ => False
      end) /\
  (forall (st : StaticSite.Site) (ts : string) (k : nat),
      exists w',
        get_initiative_urls StaticSite.browser
          (length (StaticSite.listing st) + k) (StaticSite.start st ts)
        = (w', Return (Some (first_occurrences (StaticWalk.listed_urls st))))) /\
  (forall l : list string,
      NoDup (first_occurrences l) /\
      (forall u, In u (first_occurrences l) <-> In u l) /\
      (forall l1 l2, l = (l1 ++ l2)%list ->
                     exists t, first_occurrences l = (first_occurrences l1 ++ t)%list)) /\
  (forall href path query : string,
      PyStr.contains "?" (normalize_href href) = false /\
      (PyStr.contains "?" path = false ->
       normalize_href ("/" ++ path ++ "?" ++ query)
       = ("https://ec.europa.eu/" ++ path)%string) /\
      (PyStr.startswith href "/" = false -> PyStr.contains "?" href = false ->
       normalize_href href = href)).
Proof.
  split; [ intros W H pw fuel w; apply get_initiative_urls_unique | ].
  split; [ exact StaticWalkFacts.get_initiative_urls_run | ].
  split.
  - intros l. split; [ apply first_occurrences_from_NoDup | ].
    split.
    + intros u. unfold first_occurrences. rewrite first_occurrences_from_In.
      simpl. tauto.
    + intros l1 l2 ->. unfold first_occurrences.
      rewrite first_occurrences_from_app. eauto.
  - intros href path query. split; [ apply before_first_free | ]. split.
    + intros Hp. unfold normalize_href.
      assert (PyStr.startswith ("/" ++ path ++ "?" ++ query) "/" = true) as ->
        by (unfold PyStr.startswith; simpl; destruct (path ++ _)%string; reflexivity).
      change ("https://ec.europa.eu" ++ "/" ++ path ++ "?" ++ query)%string
        with (("https://ec.europa.eu/" ++ path) ++ String "?" query)%string.
      apply before_first_append. simpl append.
      repeat rewrite contains_char_cons. exact Hp.
    + intros Hs Hq. unfold normalize_href. rewrite Hs.
      now apply before_first_absent.
Qed.

(* ================================================================== *)
(** * The crawl orchestrator *)

Section Orchestrator.

Context {W H : Type} (pw : Playwright W H).

Lemma extraction_run_length urls w records w' :
  extraction_run pw urls w records w' -> length records = length urls.
Proof. induction 1; simpl; congruence. Qed.

Lemma extraction_run_urls urls w records w' :
  extraction_run pw urls w records w' ->
  Forall2 (fun u d => initiative_url d = u) urls records.
Proof.
  induction 1 as [ | url rest w w1 w' d ds Hrun _ IH]; constructor; [ | exact IH ].
  pose proof (scrape_consultation_identity pw url w) as Hid.
  rewrite Hrun in Hid. exact (proj1 Hid).
Qed.

Lemma scrape_consultation_returns (url : string) (w : W) :
  exists w' d, scrape_consultation pw url w = (w', Return d).
Proof.
  pose proof (scrape_consultation_run pw url w) as R.
  destruct (try_except (scrape_try pw url) scrape_except w (entry_frame pw url w))
    as [[w1 s1] [fl | e]]; [ eauto | contradiction R ].
Qed.

(** The loop of [scrape_all_consultations] skips nothing and stops at
    nothing: it appends the record of every URL, in order. *)
Lemma scrape_loop_run (urls : list string) :
  forall w results,
    exists w' records,
      scrape_loop pw urls w results = (w', (results ++ records)%list, Return tt) /\
      extraction_run pw urls w records w'.
Proof.
  induction urls as [ | url rest IH]; intros w results.
  - exists w, []. split; [ simpl; now rewrite app_nil_r | constructor ].
  - destruct (scrape_consultation_returns url w) as (w1 & d & Hrun).
    destruct (IH (asyncio_sleep pw w1) (results ++ [d])%list) as (w' & ds & Hloop & Hds).
    exists w', (d :: ds). split; [ | econstructor; eassumption ].
    simpl scrape_loop.
    rewrite (bind_run (await (scrape_consultation pw url)) _ w results w1 results d)
      by (unfold await; now rewrite Hrun).
    rewrite (bind_run (modify (fun results0 => results0 ++ [d])%list) _
               w1 results w1 (results ++ [d])%list tt) by reflexivity.
    rewrite (bind_run (sleep pw) _ w1 (results ++ [d])%list
               (asyncio_sleep pw w1) (results ++ [d])%list tt) by reflexivity.
    rewrite Hloop, <- app_assoc. reflexivity.
Qed.

(** [scrape_all_consultations], started with no results, case by case on
    what launching, walking and closing do. *)
Lemma scrape_all_consultations_run (fuel : nat) (w : W) :
  match browser_launch pw w with
  | (w0, Raise e) => scrape_all_consultations pw fuel w [] = (w0, [], Raise e)
  | (w0, Return _) =>
      match get_initiative_urls pw fuel w0 with
      | (w1, Return (Some urls)) =>
          exists w2 records,
            extraction_run pw urls w1 records w2 /\
            length records = length urls /\
            Forall2 (fun u d => initiative_url d = u) urls records /\
            scrape_all_consultations pw fuel w []
            = match browser_close pw w2 with
              | (w3, Return _) => (w3, records, Return (Some records))
              | (w3, Raise e) => (w3, records, Raise e)
              end
      | (w1, Return None) =>
          scrape_all_consultations pw fuel w []
          = match browser_close pw w1 with
            | (w3, Return _) => (w3, [], Return None)
            | (w3, Raise e) => (w3, [], Raise e)
            end
      | (_, Raise _) => False
      end
  end.
Proof.
  unfold scrape_all_consultations.
  destruct (browser_launch pw w) as [w0 [[] | e]] eqn:El.
  2:{ apply bind_raise. unfold await. now rewrite El. }
  rewrite (bind_run (await (browser_launch pw)) _ w [] w0 [] tt)
    by (unfold await; now rewrite El).
  pose proof (get_initiative_urls_unique pw fuel w0) as Hw.
  destruct (get_initiative_urls pw fuel w0) as [w1 [[urls | ] | e]] eqn:Eu;
    simpl in Hw; [ | | exact Hw ].
  - destruct (scrape_loop_run urls w1 []) as (w2 & records & Hloop & Hrun).
    exists w2, records.
    split; [ exact Hrun | ].
    split; [ exact (extraction_run_length _ _ _ _ Hrun) | ].
    split; [ exact (extraction_run_urls _ _ _ _ Hrun) | ].
    assert (crawl pw fuel w0 [] = (w2, records, Return true)) as Hcrawl.
    { unfold crawl, try_except.
      rewrite (bind_run (await (get_initiative_urls pw fuel)) _ w0 [] w1 [] (Some urls))
        by (unfold await; now rewrite Eu).
      rewrite (bind_run (scrape_loop pw urls) _ w1 [] w2 records tt) by exact Hloop.
      reflexivity. }
    unfold bind at 1, try_finally, await. rewrite Hcrawl.
    destruct (browser_close pw w2) as [w3 [[] | e]]; reflexivity.
  - assert (crawl pw fuel w0 [] = (w1, [], Return false)) as Hcrawl.
    { unfold crawl, try_except.
      rewrite (bind_run (await (get_initiative_urls pw fuel)) _ w0 [] w1 [] None)
        by (unfold await; now rewrite Eu).
      reflexivity. }
    unfold bind at 1, try_finally, await. rewrite Hcrawl.
    destruct (browser_close pw w1) as [w3 [[] | e]]; reflexivity.
Qed.

(** C9.  The loop of [scrape_all_consultations] appends, for every list of
    URLs, the record of [scrape_consultation] run on each URL in turn: one
    record per URL, in the order of the URLs, the k-th record carrying the
    k-th URL.  Started with no results, once the browser is launched and
    the walk has returned its URLs, [scrape_all_consultations] has exactly
    these records as its output, and returns them unless closing the
    browser raises. *)
Theorem one_record_per_discovered_url :
  (forall (urls : list string) (w : W) (results : list ConsultationData),
      exists w' records,
        scrape_loop pw urls w results = (w', (results ++ records)%list, Return tt) /\
        extraction_run pw urls w records w' /\
        length records = length urls /\
        Forall2 (fun u d => initiative_url d = u) urls records) /\
  (forall (fuel : nat) (w : W),
     match browser_launch pw w with
     | (w0, Raise e) => scrape_all_consultations pw fuel w [] = (w0, [], Raise e)
     | (w0, Return _) =>
         match get_initiative_urls pw fuel w0 with
         | (w1, Return (Some urls)) =>
             exists w2 records,
               extraction_run pw urls w1 records w2 /\
               length records = length urls /\
               Forall2 (fun u d => initiative_url d = u) urls records /\
               scrape_all_consultations pw fuel w []
               = match browser_close pw w2 with
                 | (w3, Return _) => (w3, records, Return (Some records))
                 | (w3, Raise e) => (w3, records, Raise e)
                 end
         | (w1, Return None) =>
             scrape_all_consultations pw fuel w []
             = match browser_close pw w1 with
               | (w3, Return _) => (w3, [], Return None)
               | (w3, Raise e) => (w3, [], Raise e)
               end
         | (_, Raise _) => False
         end
     end).
Proof.
  split.
  - intros urls w results.
    destruct (scrape_loop_run urls w results) as (w' & records & Hloop & Hrun).
    exists w', records. split; [ exact Hloop | ]. split; [ exact Hrun | ].
    split; [ exact (extraction_run_length _ _ _ _ Hrun) | ].
    exact (extraction_run_urls _ _ _ _ Hrun).
  - exact scrape_all_consultations_run.
Qed.

End Orchestrator.


(* ================================================================== *)
(** * The scraper on the sample site *)

(** The walk over the two result pages finds the three initiatives, each
    once, in the order they are first listed. *)
Example sample_discovery :
  snd (get_initiative_urls StaticSite.browser 2 Scenario.sample_start)
  = Return (Some [Scenario.url_foo; Scenario.url_bar; Scenario.url_abc]).
Proof. vm_compute. reflexivity. Qed.

(** The crawl returns one record per initiative, in that order. *)
Example sample_crawl :
  snd (scrape_all_consultations StaticSite.browser 2 Scenario.sample_start [])
  = Return (Some [Scenario.foo_record; Scenario.bar_record; Scenario.abc_record]).
Proof. vm_compute. reflexivity. Qed.

(** The record of the first initiative is complete. *)
Example sample_success_record :
  scrape_status Scenario.foo_record = "success" /\
  topic Scenario.foo_record = Some "Environment" /\
  total_feedback Scenario.foo_record = Some 244%N /\
  has_documents_annexed Scenario.foo_record = true /\
  documents_annexed_url Scenario.foo_record = Some Scenario.download_c.
Proof. repeat split. Qed.

(** One file entry titled "Contributions to the consultation" under a
    contributions section, one request captured at the click: the URL is
    recorded as the contributions ZIP and nothing else is. *)
Example single_contributions_entry :
  scrape_status Scenario.single_file_record = "success" /\
  has_contributions_zip Scenario.single_file_record = true /\
  contributions_zip_url Scenario.single_file_record = Some Scenario.download_a /\
  has_summary_report Scenario.single_file_record = false /\
  summary_report_url Scenario.single_file_record = None /\
  has_documents_annexed Scenario.single_file_record = false /\
  documents_annexed_url Scenario.single_file_record = None.
Proof. repeat split. Qed.

(** The message of the error record is the text of the exception the
    browser raised, not the message of the missing-link branch. *)
Example sample_error_message :
  error_message Scenario.bar_record
  = Some ("net::ERR_ABORTED at " ++ Scenario.HOME
          ++ "/initiatives/14700-Bar/public-consultation_en")%string /\
  error_message Scenario.bar_record <> Some NO_LINK_MESSAGE.
Proof. split; [ reflexivity | discriminate ]. Qed.

(** The record of the second initiative has status ["error"]: what was
    found before its consultation page failed to load is still in it. *)
Example error_record_keeps_identity :
  scrape_status Scenario.bar_record = "error" /\
  initiative_id Scenario.bar_record = "14700" /\
  initiative_name Scenario.bar_record = "Bar initiative" /\
  consultation_url Scenario.bar_record
  = (Scenario.HOME ++ "/initiatives/14700-Bar/public-consultation_en")%string.
Proof. repeat split. Qed.

Lemma error_record_keeps_defaults_witness :
  scrape_status Scenario.bar_record = "error" /\
  (error_message Scenario.bar_record <> None /\
   descriptive_default Scenario.bar_record /\
   artifacts_default Scenario.bar_record).
Proof.
  split; [ reflexivity | ].
  apply (error_record_keeps_defaults StaticSite.browser Scenario.url_bar
           Scenario.sample_start (fst Scenario.bar_run) Scenario.bar_record).
  - vm_compute. reflexivity.
  - reflexivity.
Defined.

(** C4, as stated, fails on an initiative URL without a number: the record
    has status ["success"] and an empty identifier. *)
Lemma success_with_empty_id :
  scrape_consultation StaticSite.browser Scenario.url_abc Scenario.sample_start
  = (fst Scenario.abc_run, Return Scenario.abc_record) /\
  scrape_status Scenario.abc_record = "success" /\
  initiative_id Scenario.abc_record = "".
Proof. split; [ vm_compute; reflexivity | split; reflexivity ]. Qed.

Lemma success_record_identity_witness :
  scrape_status Scenario.foo_record = "success" /\
  (initiative_url Scenario.foo_record = Scenario.url_foo /\
   initiative_id Scenario.foo_record = initiative_id_of Scenario.url_foo /\
   (initiative_id Scenario.foo_record <> "" <->
    exists p c t,
      Scenario.url_foo = (p ++ "/initiatives/" ++ String c t)%string /\
      PyStr.isdigit c = true)).
Proof.
  split; [ reflexivity | ].
  apply (success_record_identity StaticSite.browser Scenario.url_foo
           Scenario.sample_start (fst Scenario.foo_run) Scenario.foo_record).
  - vm_compute. reflexivity.
  - reflexivity.
Defined.

(** C6, as stated, fails: under a contributions section, a title with
    "contribution", "annex" and "document" is recorded as the annexed
    documents, and one without "document" is recorded as the summary report
    when a summary section was observed. *)
Lemma contribution_annex_title_recorded :
  let annexed := PyStr.lower (PyStr.strip "Documents annexed to the contributions") in
  let other := PyStr.lower (PyStr.strip "Annex to the contributions") in
  let d := initial_data Scenario.url_foo "2025-06-01T12:00:00" in
  (PyStr.contains "contribution" annexed = true /\
   PyStr.contains "annex" annexed = true /\
   has_documents_annexed (record_artifact false true annexed Scenario.download_c d) = true /\
   documents_annexed_url (record_artifact false true annexed Scenario.download_c d)
   = Some Scenario.download_c) /\
  (PyStr.contains "contribution" other = true /\
   PyStr.contains "annex" other = true /\
   has_summary_report (record_artifact true true other Scenario.download_c d) = true /\
   summary_report_url (record_artifact true true other Scenario.download_c d)
   = Some Scenario.download_c).
Proof. repeat split. Qed.

Lemma contribution_annex_title_witness :
  let title_lower := PyStr.lower (PyStr.strip "Documents annexed to the contributions") in
  let recorded :=
    record_artifact false true title_lower Scenario.download_c Scenario.abc_record in
  (PyStr.contains "contribution" title_lower = true /\
   PyStr.contains "annex" title_lower = true) /\
  (classify false true title_lower = Some DocumentsAnnexed /\
   has_contributions_zip recorded = false /\
   contributions_zip_url recorded = None).
Proof.
  split; [ split; reflexivity | ].
  apply (contribution_annex_title false true "Documents annexed to the contributions"
           Scenario.download_c Scenario.abc_record); reflexivity.
Defined.

(** C7, on the code.  With the requests A, B, A the capture log ends with
    A, the request the last click issued, while the dictionary still ends
    with B and B is the URL read.  On the sample site, the third file entry
    requests the file of the first when clicked, and the record ends up
    with the URL of the summary report as its contributions ZIP. *)
Theorem latest_url_after_repeated_request :
  list_last (capture_log [Scenario.download_a; Scenario.download_b; Scenario.download_a])
  = Some Scenario.download_a /\
  latest_url_of
    (handle_requests [Scenario.download_a; Scenario.download_b; Scenario.download_a] [])
  = Some Scenario.download_b /\
  map StaticSite.file_link (firstn 3 (StaticSite.files Scenario.foo_consultation))
  = [Some [Scenario.download_a]; Some [Scenario.download_b]; Some [Scenario.download_a]] /\
  snd (scrape_consultation StaticSite.browser Scenario.url_foo Scenario.sample_start)
  = Return Scenario.foo_record /\
  contributions_zip_url Scenario.foo_record = Some Scenario.download_b.
Proof. repeat split; vm_compute; reflexivity. Qed.

(* ================================================================== *)
(** * Further properties of the extractor *)

Lemma same_identity_refl (d : ConsultationData) : same_identity d d.
Proof. unfold same_identity. repeat split. Qed.

Lemma record_artifact_same_identity hs hc t u d0 d :
  same_identity d0 d -> same_identity d0 (record_artifact hs hc t u d).
Proof.
  unfold record_artifact.
  destruct (hc && PyStr.contains "contribution" t && negb (PyStr.contains "annex" t));
    [ | destruct (hc && PyStr.contains "document" t && PyStr.contains "annex" t);
        [ | destruct hs ] ];
    intros Hd; exact Hd.
Qed.

Section MoreExtractor.

Context {W H : Type} (pw : Playwright W H).

(** X1.  [extract_consultation_data] raises nothing, whatever the page does,
    and leaves the identifier, the name, the two URLs, the time stamp, the
    status and the error message of the record as they were. *)
Theorem extract_consultation_data_keeps_identity (w : W) (s : Frame) :
  match extract_consultation_data pw w s with
  | (_, s', Return _) => same_identity (data s) (data s')
  | (_, _, Raise _) => False
  end.
Proof.
  assert (extraction_stable (same_identity (data s))) as Hext.
  { split; try (intros v d Hd; exact Hd).
    intros hs hc t u d. apply record_artifact_same_identity. }
  exact (extract_consultation_data_safe pw _ Hext w s (same_identity_refl _)).
Qed.

(** [load_consultation] on a link that is not empty, with what holds once
    the status is set. *)
Lemma load_consultation_link_then (I0 I I' : ConsultationData -> Prop) a t :
  (forall d, I0 d -> I (set_consultation_url (String a t) d)) ->
  extraction_stable I ->
  (forall d, I d -> I' (set_scrape_status "success" d)) ->
  triple (on I0) (load_consultation pw (Some (String a t)))
    (fun fl s => fl = Fallthrough /\ I' (data s))
    (fun _ => on I).
Proof.
  intros Hset Hext Hst. unfold load_consultation.
  apply triple_bind with (Q1 := fun _ => on I).
  { apply triple_modify. intros s Hs. exact (Hset _ Hs). }
  intros _. apply triple_bind with (Q1 := fun _ => on I).
  { apply preserves_await. }
  intros _. apply triple_bind with (Q1 := fun _ => on I).
  { apply preserves_wait_for_page_load. }
  intros _. apply triple_bind with (Q1 := fun _ => on I).
  { apply safe_preserves, extract_consultation_data_safe, Hext. }
  intros _. apply triple_bind with (Q1 := fun _ => on I').
  { apply triple_modify. intros s Hs. exact (Hst _ Hs). }
  intros _. apply triple_ret. intros s Hs. split; [ reflexivity | exact Hs ].
Qed.

(** The status a record is returned with, and its error message. *)
Lemma scrape_consultation_status (url : string) (w : W) :
  match snd (scrape_consultation pw url w) with
  | Return d =>
      (scrape_status d = "success" /\ error_message d = None) \/
      (scrape_status d = "error" /\ exists m, error_message d = Some m)
  | Raise _ => False
  end.
Proof.
  destruct (construct_consultation_link_nonempty url) as (a & t & E).
  set (N := fun d => error_message d = None).
  set (Q := fun d => (scrape_status d = "success" /\ error_message d = None) \/
                     (scrape_status d = "error" /\ exists m, error_message d = Some m)).
  assert (extraction_stable N) as Hext.
  { apply identity_assertion_stable. intros d0 d1 _ _ _ _ E5 H0. unfold N. congruence. }
  assert (triple (on N) (try_except (scrape_try pw url) scrape_except)
            (fun _ s => Q (data s)) (fun _ _ => False)) as T.
  { apply triple_try with (E1 := fun _ => on N).
    - unfold scrape_try. rewrite E. apply triple_bind with (Q1 := fun _ => on N).
      + apply load_initiative_preserves; intros v d Hd; exact Hd.
      + intros _.
        apply triple_conseq with (P := on N)
          (Q := fun fl s => fl = Fallthrough /\
                            (scrape_status (data s) = "success" /\ N (data s)))
          (E := fun _ => on N).
        * apply (load_consultation_link_then N N
                   (fun d => scrape_status d = "success" /\ N d) a t).
          -- intros d Hd. exact Hd.
          -- exact Hext.
          -- intros d Hd. split; [ reflexivity | exact Hd ].
        * intros s Hs. exact Hs.
        * intros fl s [_ Hs]. left. exact Hs.
        * intros e s Hs. exact Hs.
    - intros e w0 s Hs. simpl. right. split; [ reflexivity | ].
      eexists. reflexivity. }
  pose proof (scrape_consultation_run pw url w) as R.
  specialize (T w (entry_frame pw url w) eq_refl).
  destruct (try_except (scrape_try pw url) scrape_except w (entry_frame pw url w))
    as [[w1 s1] [fl | e]]; [ | contradiction R ].
  rewrite R. exact T.
Qed.

(** X2.  A record [scrape_consultation] returns never has the initial
    status: it has status ["success"] and no error message, or status
    ["error"] and an error message. *)
Theorem status_and_error_message (url : string) (w : W) :
  match snd (scrape_consultation pw url w) with
  | Return d =>
      (scrape_status d = "success" /\ error_message d = None) \/
      (scrape_status d = "error" /\ exists m, error_message d = Some m)
  | Raise _ => False
  end.
Proof. exact (scrape_consultation_status url w). Qed.

(** X3.  When loading the overview page raises [e], the record returned is
    the initial one with the identifier found in the URL, status ["error"]
    and [str(e)]: no name, no consultation URL, and the browser is left as
    the failed call left it. *)
Theorem overview_navigation_failure (url : string) (w w1 : W) (e : PyException) :
  page_goto pw url w = (w1, Raise e) ->
  scrape_consultation pw url w
  = (w1,
     Return {| initiative_id := initiative_id_of url;
               initiative_name := "";
               initiative_url := url;
               consultation_url := "";
               topic := None;
               consultation_period := None;
               total_feedback := None;
               has_summary_report := false;
               summary_report_url := None;
               has_contributions_zip := false;
               contributions_zip_url := None;
               has_documents_annexed := false;
               documents_annexed_url := None;
               scrape_timestamp := datetime_now pw w;
               scrape_status := "error";
               error_message := Some (exn_message e) |}).
Proof.
  intros Hgoto.
  unfold scrape_consultation, try_except, scrape_try, load_initiative, initiative_id_of.
  destruct (PyStr.search_lit_digits "/initiatives/" url) as [g | ];
    unfold bind, await, modify, ret; simpl; rewrite Hgoto; reflexivity.
Qed.

End MoreExtractor.

Lemma overview_navigation_failure_witness :
  page_goto Offline.browser Scenario.url_foo tt
  = (tt, Raise (Exception "net::ERR_INTERNET_DISCONNECTED")) /\
  snd (scrape_consultation Offline.browser Scenario.url_foo tt)
  = Return {| initiative_id := "14622";
              initiative_name := "";
              initiative_url := Scenario.url_foo;
              consultation_url := "";
              topic := None;
              consultation_period := None;
              total_feedback := None;
              has_summary_report := false;
              summary_report_url := None;
              has_contributions_zip := false;
              contributions_zip_url := None;
              has_documents_annexed := false;
              documents_annexed_url := None;
              scrape_timestamp := "2025-06-01T12:00:00";
              scrape_status := "error";
              error_message := Some "net::ERR_INTERNET_DISCONNECTED" |}.
Proof.
  split; [ reflexivity | ].
  rewrite (overview_navigation_failure Offline.browser Scenario.url_foo tt tt
             (Exception "net::ERR_INTERNET_DISCONNECTED") eq_refl).
  reflexivity.
Defined.

(* ================================================================== *)
(** * Which exceptions reach the record *)

Section Captured.

Context {W H : Type} (pw : Playwright W H).






End Captured.


(* ================================================================== *)
(** * Invariants of the frame *)

(** One step of a proof that a block preserves an assertion on the whole
    frame. *)
Ltac frame_step :=
  lazymatch goal with
  | |- preserves _ (bind _ _) => apply preserves_bind; [ | intros ? ]
  | |- preserves _ (ret _) => apply preserves_ret
  | |- preserves _ (raise _) => apply preserves_raise
  | |- preserves _ (await _) => apply preserves_await
  | |- preserves _ (try_except _ _) => apply preserves_try; [ | intros ? ]
  | |- preserves _ (wait_for_page_load _) => apply preserves_wait_for_page_load
  | |- preserves _ (sleep _) => apply preserves_sleep
  | |- preserves _ (modify _) => apply preserves_modify; intros ? ?
  | |- preserves _ (let _ := _ in _) => cbv zeta
  | |- preserves _ (match ?x with _ => _ end) => destruct x eqn:?
  end.

Section FrameInvariant.

Context {W H : Type} (pw : Playwright W H).

Variable url : string.
Variable J : Frame -> Prop.

Hypothesis J_listen :
  forall reqs s, J s -> J (set_captured_urls (handle_requests reqs (captured_urls s)) s).
Hypothesis J_reset : forall s, J s -> J (set_captured_urls [] s).
Hypothesis J_artifact :
  forall hs hc t u s,
    J s -> latest_url_of (captured_urls s) = Some u ->
    J (on_data (record_artifact hs hc t u) s).
Hypothesis J_topic :
  forall t s, J s -> J (on_data (set_topic (Some (PyStr.strip t))) s).
Hypothesis J_period :
  forall t s, J s -> J (on_data (set_consultation_period (Some (PyStr.strip t))) s).
Hypothesis J_feedback :
  forall n s, J s -> J (on_data (set_total_feedback (Some n)) s).
Hypothesis J_id :
  forall g s,
    PyStr.search_lit_digits "/initiatives/" url = Some g ->
    J s -> J (on_data (set_initiative_id g) s).
Hypothesis J_name :
  forall t s, J s -> J (on_data (set_initiative_name (PyStr.strip t)) s).
Hypothesis J_link :
  forall l s,
    construct_consultation_link url = Some l ->
    J s -> J (on_data (set_consultation_url l) s).
Hypothesis J_status : forall v s, J s -> J (on_data (set_scrape_status v) s).
Hypothesis J_error : forall m s, J s -> J (on_data (set_error_message m) s).

Lemma listening_preserves_frame {A} (f : Cap W A) : preserves J (listening pw f).
Proof.
  intros w s Hs. unfold listening. destruct (f w) as [w' [a | e]]; apply J_listen, Hs.
Qed.

Lemma topic_loop_preserves_frame l : preserves J (topic_loop pw l).
Proof.
  induction l as [ | dt rest IH]; simpl; repeat frame_step; auto.
Qed.

Lemma feedback_loop_preserves_frame l : preserves J (feedback_loop pw l).
Proof.
  induction l as [ | h4 rest IH]; simpl; repeat frame_step; auto.
Qed.

Lemma h3_loop_preserves_frame l acc : preserves J (h3_loop pw l acc).
Proof.
  revert acc. induction l as [ | h3 rest IH]; intros acc; simpl; repeat frame_step; auto.
Qed.

(** The URL assigned to an artifact is the one read from the dictionary. *)
Lemma process_file_preserves_frame hs hc f : preserves J (process_file pw hs hc f).
Proof.
  unfold process_file.
  apply preserves_bind; [ apply listening_preserves_frame | intros title_elem ].
  destruct title_elem as [te | ]; [ | apply preserves_ret ].
  apply preserves_bind; [ apply listening_preserves_frame | intros title ].
  cbv zeta.
  apply preserves_bind; [ apply listening_preserves_frame | intros download_link ].
  destruct download_link as [dl | ]; [ | apply preserves_ret ].
  apply preserves_try; [ | intros e; apply preserves_ret ].
  apply preserves_bind; [ apply listening_preserves_frame | intros _ ].
  apply preserves_bind; [ apply listening_preserves_frame | intros _ ].
  apply triple_bind with (Q1 := fun a s => J s /\ a = s).
  { apply triple_get. intros s Hs. split; [ exact Hs | reflexivity ]. }
  intros a.
  destruct (list_last (dict_values (captured_urls a))) as [latest_url | ] eqn:E.
  - apply triple_modify. intros s [Hs ->]. apply J_artifact; [ exact Hs | exact E ].
  - apply triple_ret. intros s [Hs _]. exact Hs.
Qed.

Lemma files_loop_preserves_frame hs hc l : preserves J (files_loop pw hs hc l).
Proof.
  induction l as [ | f rest IH]; simpl; repeat frame_step; auto.
  apply process_file_preserves_frame.
Qed.

Lemma extract_consultation_data_preserves_frame :
  preserves J (extract_consultation_data pw).
Proof.
  unfold extract_consultation_data, extract_topic, extract_period,
    extract_feedback, extract_outcome.
  repeat frame_step; auto.
  - apply topic_loop_preserves_frame.
  - apply feedback_loop_preserves_frame.
  - apply h3_loop_preserves_frame.
  - apply files_loop_preserves_frame.
Qed.

Lemma scrape_statement_preserves_frame :
  preserves J (try_except (scrape_try pw url) scrape_except).
Proof.
  unfold scrape_try, scrape_except, load_initiative, load_consultation.
  apply preserves_try.
  - apply preserves_bind.
    + apply preserves_bind.
      * generalize J_id.
        destruct (PyStr.search_lit_digits "/initiatives/" url) as [g | ]; intros Hid.
        -- apply preserves_modify. intros s Hs. exact (Hid g s eq_refl Hs).
        -- apply preserves_ret.
      * intros _. repeat frame_step; auto.
    + intros _.
      generalize J_link.
      destruct (construct_consultation_link url) as [[ | a t] | ]; intros Hlink.
      * repeat frame_step; auto.
      * apply preserves_bind.
        -- apply preserves_modify. intros s Hs. exact (Hlink _ s eq_refl Hs).
        -- intros _. repeat frame_step; auto.
           apply extract_consultation_data_preserves_frame.
      * repeat frame_step; auto.
  - intros e. repeat frame_step; auto.
Qed.

(** Every record [scrape_consultation] returns is the record of a frame
    that satisfies the invariant, if the frame it starts from does. *)
Lemma scrape_consultation_frame_invariant (w : W) :
  J (entry_frame pw url w) ->
  match snd (scrape_consultation pw url w) with
  | Return d => exists c, J {| data := d; captured_urls := c |}
  | Raise _ => False
  end.
Proof.
  intros H0. pose proof (scrape_consultation_run pw url w) as R.
  pose proof (scrape_statement_preserves_frame w (entry_frame pw url w) H0) as T.
  destruct (try_except (scrape_try pw url) scrape_except w (entry_frame pw url w))
    as [[w' s'] [fl | e]]; [ | contradiction R ].
  rewrite R. simpl. exists (captured_urls s'). destruct s'. exact T.
Qed.

End FrameInvariant.

(* ================================================================== *)
(** * What every record holds *)

Lemma lstrip_fixed (s : string) :
  match s with
  | String a _ => PyStr.isspace a = false
  | EmptyString => True
  end ->
  PyStr.lstrip s = s.
Proof. destruct s as [ | a t]; simpl; [ reflexivity | ]. now intros ->. Qed.

Lemma lstrip_start (s : string) :
  match PyStr.lstrip s with
  | String a _ => PyStr.isspace a = false
  | EmptyString => True
  end.
Proof.
  induction s as [ | a t IH]; simpl; [ exact I | ].
  destruct (PyStr.isspace a) eqn:E; [ exact IH | exact E ].
Qed.

Lemma rstrip_start (s : string) :
  match s with
  | String a _ => PyStr.isspace a = false
  | EmptyString => True
  end ->
  match PyStr.rstrip s with
  | String a _ => PyStr.isspace a = false
  | EmptyString => True
  end.
Proof.
  destruct s as [ | a t]; simpl; [ trivial | ]. intros Ha.
  destruct (PyStr.rstrip t); [ rewrite Ha | ]; exact Ha.
Qed.

Lemma rstrip_idempotent (s : string) :
  PyStr.rstrip (PyStr.rstrip s) = PyStr.rstrip s.
Proof.
  induction s as [ | a t IH]; simpl; [ reflexivity | ].
  destruct (PyStr.rstrip t) as [ | b r] eqn:E.
  - destruct (PyStr.isspace a) eqn:Ea; simpl; [ reflexivity | now rewrite Ea ].
  - simpl in *. rewrite IH. reflexivity.
Qed.

(** [s.strip().strip() == s.strip()] *)
Lemma strip_idempotent (s : string) : stripped (PyStr.strip s).
Proof.
  unfold stripped, PyStr.strip.
  rewrite (lstrip_fixed (PyStr.rstrip (PyStr.lstrip s))).
  - apply rstrip_idempotent.
  - apply rstrip_start, lstrip_start.
Qed.

Lemma list_last_In {A : Type} (l : list A) (x : A) : list_last l = Some x -> In x l.
Proof.
  induction l as [ | a [ | b t] IH]; simpl.
  - discriminate.
  - intros [= ->]. now left.
  - intros Hx. right. exact (IH Hx).
Qed.

Lemma dict_setitem_values (P : string -> Prop) (k v : string) (d : dict) :
  P v -> Forall P (dict_values d) -> Forall P (dict_values (dict_setitem k v d)).
Proof.
  intros Hv. unfold dict_values.
  induction d as [ | [k' v'] rest IH]; simpl; intros Hd.
  - constructor; [ exact Hv | constructor ].
  - inversion Hd as [ | ? ? Hv' Hrest]; subst.
    destruct (String.eqb k' k); simpl; constructor; auto.
Qed.

(** The listener stores download URLs only. *)
Lemma handle_requests_values (reqs : list string) (d : dict) :
  Forall download_url (dict_values d) ->
  Forall download_url (dict_values (handle_requests reqs d)).
Proof.
  revert d. unfold handle_requests.
  induction reqs as [ | u rest IH]; intros d Hd; simpl; [ exact Hd | ].
  apply IH. unfold handle_request.
  destruct (PyStr.contains "/api/download/" u) eqn:E; [ | exact Hd ].
  apply dict_setitem_values; [ exact E | exact Hd ].
Qed.

Lemma record_artifact_downloads hs hc t u d :
  download_url u -> artifact_urls_downloads d ->
  artifact_urls_downloads (record_artifact hs hc t u d).
Proof.
  unfold artifact_urls_downloads, record_artifact. intros Hu (Hs & Hc & Ha).
  destruct (hc && PyStr.contains "contribution" t && negb (PyStr.contains "annex" t));
    [ | destruct (hc && PyStr.contains "document" t && PyStr.contains "annex" t);
        [ | destruct hs ] ];
    simpl; repeat split; auto; intros u' [= <-]; exact Hu.
Qed.

Lemma record_artifact_texts hs hc t u d :
  initiative_name (record_artifact hs hc t u d) = initiative_name d /\
  topic (record_artifact hs hc t u d) = topic d /\
  consultation_period (record_artifact hs hc t u d) = consultation_period d /\
  total_feedback (record_artifact hs hc t u d) = total_feedback d /\
  scrape_timestamp (record_artifact hs hc t u d) = scrape_timestamp d.
Proof.
  unfold record_artifact.
  destruct (hc && PyStr.contains "contribution" t && negb (PyStr.contains "annex" t));
    [ | destruct (hc && PyStr.contains "document" t && PyStr.contains "annex" t);
        [ | destruct hs ] ];
    simpl; auto.
Qed.

Section RecordInvariants.

Context {W H : Type} (pw : Playwright W H).

(** X4.  In every record [scrape_consultation] returns, each artifact URL
    that is set contains ["/api/download/"]: the listener stores such
    requests only, and artifact URLs are read from what it stored. *)
Theorem artifact_urls_are_download_urls (url : string) (w : W) :
  match snd (scrape_consultation pw url w) with
  | Return d => artifact_urls_downloads d
  | Raise _ => False
  end.
Proof.
  pose proof (scrape_consultation_frame_invariant pw url
                (fun s => Forall download_url (dict_values (captured_urls s)) /\
                          artifact_urls_downloads (data s))) as Hinv.
  cbv beta in Hinv.
  specialize (Hinv
    ltac:(intros reqs s [Hc Hd]; split; [ apply handle_requests_values, Hc | exact Hd ])
    ltac:(intros s [Hc Hd]; split; [ constructor | exact Hd ])
    ltac:(intros hs hc t u s [Hc Hd] Hu; split; [ exact Hc | ];
          apply record_artifact_downloads; [ | exact Hd ];
          exact (proj1 (Forall_forall _ _) Hc u (list_last_In _ _ Hu)))
    ltac:(intros t s Hs; exact Hs) ltac:(intros t s Hs; exact Hs)
    ltac:(intros n s Hs; exact Hs) ltac:(intros g s _ Hs; exact Hs)
    ltac:(intros t s Hs; exact Hs) ltac:(intros l s _ Hs; exact Hs)
    ltac:(intros v s Hs; exact Hs) ltac:(intros m s Hs; exact Hs)
    w).
  destruct (snd (scrape_consultation pw url w)) as [d | e].
  - destruct Hinv as (c & _ & Hd); [ | exact Hd ].
    split; [ constructor | ]. repeat split; discriminate.
  - apply Hinv. split; [ constructor | ]. repeat split; discriminate.
Qed.

(** X5.  In every record [scrape_consultation] returns, the initiative name,
    the topic and the consultation period are stripped of leading and
    trailing white space: stripping them again changes nothing. *)
Theorem record_texts_are_stripped (url : string) (w : W) :
  match snd (scrape_consultation pw url w) with
  | Return d => texts_stripped d
  | Raise _ => False
  end.
Proof.
  pose proof (scrape_consultation_frame_invariant pw url
                (fun s => texts_stripped (data s))) as Hinv.
  cbv beta in Hinv.
  assert (forall hs hc t u d, texts_stripped d ->
                              texts_stripped (record_artifact hs hc t u d)) as Hart.
  { intros hs hc t u d. unfold texts_stripped.
    destruct (record_artifact_texts hs hc t u d) as (-> & -> & -> & _). tauto. }
  specialize (Hinv
    ltac:(intros reqs s Hs; exact Hs)
    ltac:(intros s Hs; exact Hs)
    ltac:(intros hs hc t u s Hs _; apply Hart, Hs)
    ltac:(intros t s (Hn & Ht & Hp); repeat split; auto;
          simpl; intros t' [= <-]; apply strip_idempotent)
    ltac:(intros t s (Hn & Ht & Hp); repeat split; auto;
          simpl; intros t' [= <-]; apply strip_idempotent)
    ltac:(intros n s Hs; exact Hs) ltac:(intros g s _ Hs; exact Hs)
    ltac:(intros t s (Hn & Ht & Hp); repeat split; auto; apply strip_idempotent)
    ltac:(intros l s _ Hs; exact Hs)
    ltac:(intros v s Hs; exact Hs) ltac:(intros m s Hs; exact Hs)
    w).
  assert (texts_stripped (data (entry_frame pw url w))) as H0.
  { repeat split; simpl; discriminate. }
  destruct (snd (scrape_consultation pw url w)) as [d | e]; [ | exact (Hinv H0) ].
  destruct (Hinv H0) as (c & Hd). exact Hd.
Qed.

(** X6.  In every record [scrape_consultation] returns, whatever its
    status, the URL is the one passed in, the identifier is what the pattern
    finds in that URL (the initial [""] when it finds nothing), the time
    stamp is the clock read when the call started, and the consultation URL
    is either still empty or the URL constructed from the initiative URL. *)
Theorem record_provenance (url : string) (w : W) :
  match snd (scrape_consultation pw url w) with
  | Return d =>
      initiative_url d = url /\
      initiative_id d = initiative_id_of url /\
      scrape_timestamp d = datetime_now pw w /\
      (consultation_url d = "" \/
       Some (consultation_url d) = construct_consultation_link url)
  | Raise _ => False
  end.
Proof.
  set (P := fun d =>
              scrape_timestamp d = datetime_now pw w /\
              (consultation_url d = "" \/
               Some (consultation_url d) = construct_consultation_link url)).
  pose proof (scrape_consultation_frame_invariant pw url (fun s => P (data s))) as Hinv.
  cbv beta in Hinv.
  assert (forall hs hc t u d, P d -> P (record_artifact hs hc t u d)) as Hart.
  { intros hs hc t u d. unfold P.
    destruct (record_artifact_identity hs hc t u d) as (_ & _ & -> & _).
    destruct (record_artifact_texts hs hc t u d) as (_ & _ & _ & _ & ->). tauto. }
  specialize (Hinv
    ltac:(intros reqs s Hs; exact Hs)
    ltac:(intros s Hs; exact Hs)
    ltac:(intros hs hc t u s Hs _; apply Hart, Hs)
    ltac:(intros t s Hs; exact Hs) ltac:(intros t s Hs; exact Hs)
    ltac:(intros n s Hs; exact Hs)
    ltac:(intros g s _ Hs; exact Hs)
    ltac:(intros t s Hs; exact Hs)
    ltac:(intros l s Hl (Ht & _); split; [ exact Ht | right; simpl; now rewrite Hl ])
    ltac:(intros v s Hs; exact Hs) ltac:(intros m s Hs; exact Hs)
    w).
  assert (P (data (entry_frame pw url w))) as H0.
  { unfold P. simpl. auto. }
  pose proof (scrape_consultation_identity pw url w) as Hid.
  destruct (snd (scrape_consultation pw url w)) as [d | e]; [ | exact (Hinv H0) ].
  destruct (Hinv H0) as (c & Ht & Hc). destruct Hid as [Hu Hi].
  repeat split; assumption.
Qed.

End RecordInvariants.

(* ================================================================== *)
(** * Further properties of the walk and of the summary *)

Lemma add_url_extends (u : string) (acc l : list string) :
  (exists t, l = (acc ++ t)%list) -> exists t, add_url u l = (acc ++ t)%list.
Proof.
  intros [t ->]. unfold add_url. destruct (PyStr.mem u (acc ++ t)); [ now exists t | ].
  exists (t ++ [u])%list. now rewrite app_assoc.
Qed.

Section MoreWalker.

Context {W H : Type} (pw : Playwright W H).

Lemma cards_loop_extends (acc : list string) (cards : list H) :
  preserves (fun l => exists t, l = (acc ++ t)%list) (cards_loop pw cards).
Proof.
  induction cards as [ | card rest IH]; simpl; repeat frame_step; auto.
  now apply add_url_extends.
Qed.

(** X7.  The loop over the result pages only appends to its list: what was
    collected before it started, or before a page failed, is still there,
    in the same order, however the loop ends. *)
Theorem pages_loop_keeps_collected (fuel : nat) (w : W) (acc : list string) :
  match pages_loop pw fuel w acc with
  | (_, l, _) => exists t, l = (acc ++ t)%list
  end.
Proof.
  assert (preserves (fun l => exists t, l = (acc ++ t)%list) (pages_loop pw fuel)) as T.
  { induction fuel as [ | fuel IH]; simpl; repeat frame_step; auto.
    apply cards_loop_extends. }
  specialize (T w acc (ex_intro _ [] (eq_sym (app_nil_r acc)))).
  destruct (pages_loop pw fuel w acc) as [[w' l] [b | e]]; exact T.
Qed.

(** X8.  When opening the search page raises, [get_initiative_urls] returns
    the empty list, not an error, and calls the browser no further. *)
Theorem search_page_failure (fuel : nat) (w w1 : W) (e : PyException) :
  page_goto pw SEARCH_URL w = (w1, Raise e) ->
  get_initiative_urls pw fuel w = (w1, Return (Some [])).
Proof.
  intros Hgoto.
  unfold get_initiative_urls, get_initiative_urls_body, try_except.
  rewrite (bind_raise (await (page_goto pw SEARCH_URL)) _ w [] w1 [] e)
    by (unfold await; now rewrite Hgoto).
  reflexivity.
Qed.

(** The status of every record of a run is ["success"] or ["error"]. *)
Lemma extraction_run_statuses urls w records w' :
  extraction_run pw urls w records w' ->
  Forall (fun d => scrape_status d = "success" \/ scrape_status d = "error") records.
Proof.
  induction 1 as [ | url rest w w1 w' d ds Hrun _ IH]; constructor; [ | exact IH ].
  pose proof (scrape_consultation_status pw url w) as Hs.
  rewrite Hrun in Hs. simpl in Hs. tauto.
Qed.

Lemma counts_add_up (records : list ConsultationData) :
  Forall (fun d => scrape_status d = "success" \/ scrape_status d = "error") records ->
  success_count records + error_count records = length records.
Proof.
  unfold success_count, error_count.
  induction 1 as [ | d ds [Hd | Hd] _ IH]; simpl; [ reflexivity | | ];
    rewrite Hd; simpl; lia.
Qed.

(** X9.  The two counters of [main] account for every record: on the
    records the loop of [scrape_all_consultations] collects from a list of
    URLs, the number of successes plus the number of errors is the number
    of URLs. *)
Theorem summary_counts_add_up (urls : list string) (w : W) :
  match scrape_loop pw urls w [] with
  | (_, records, _) => success_count records + error_count records = length urls
  end.
Proof.
  destruct (scrape_loop_run pw urls w []) as (w' & records & Hloop & Hrun).
  rewrite Hloop. simpl.
  rewrite (counts_add_up records (extraction_run_statuses _ _ _ _ Hrun)).
  exact (extraction_run_length pw _ _ _ _ Hrun).
Qed.

End MoreWalker.

Lemma search_page_failure_witness :
  page_goto Offline.browser SEARCH_URL tt
  = (tt, Raise (Exception "net::ERR_INTERNET_DISCONNECTED")) /\
  get_initiative_urls Offline.browser 3 tt = (tt, Return (Some [])).
Proof.
  split; [ reflexivity | ].
  exact (search_page_failure Offline.browser 3 tt tt
           (Exception "net::ERR_INTERNET_DISCONNECTED") eq_refl).
Defined.

(* ================================================================== *)
(** * Normalisation, the next-page control, the latest URL *)

Lemma before_first_idempotent (c : ascii) (s : string) :
  PyStr.before_first c (PyStr.before_first c s) = PyStr.before_first c s.
Proof. apply before_first_absent, before_first_free. Qed.

Lemma startswith_slash (a : ascii) (t : string) :
  PyStr.startswith (String a t) "/" = Ascii.eqb a "/".
Proof.
  unfold PyStr.startswith. cbn [String.prefix].
  destruct (ascii_dec "/" a) as [<- | Hne].
  - destruct t; reflexivity.
  - symmetry. apply Ascii.eqb_neq. congruence.
Qed.

Lemma before_first_start (s : string) :
  PyStr.startswith s "/" = false ->
  PyStr.startswith (PyStr.before_first "?" s) "/" = false.
Proof.
  destruct s as [ | a t]; [ reflexivity | ].
  rewrite startswith_slash. intros Ha. cbn [PyStr.before_first].
  destruct (Ascii.eqb a "?"); [ reflexivity | ].
  now rewrite startswith_slash.
Qed.

Lemma normalize_href_rooted (href : string) :
  PyStr.startswith href "/" = true ->
  normalize_href href = ("https://ec.europa.eu" ++ PyStr.before_first "?" href)%string.
Proof. intros E. unfold normalize_href. rewrite E. reflexivity. Qed.

Lemma normalize_href_other (href : string) :
  PyStr.startswith href "/" = false ->
  normalize_href href = PyStr.before_first "?" href.
Proof. intros E. unfold normalize_href. now rewrite E. Qed.

(** C8, on the code.  The origin is prefixed to an [href] that starts with
    a slash, and to no other: any other [href] is kept as it is, up to its
    first question mark, although the comment on these lines announces the
    conversion of relative URLs to absolute ones.  A relative [href] that
    does not start with a slash is returned relative: on a listing whose
    only card links to ["../initiatives/3_en?page=1"], the walk returns
    ["../initiatives/3_en"], which is no absolute URL. *)
Theorem relative_href_kept_relative :
  snd (get_initiative_urls StaticSite.browser 1
         (StaticSite.start relative_listing "2025-06-01T12:00:00"))
  = Return (Some ["../initiatives/3_en"]) /\
  is_absolute "../initiatives/3_en" = false /\
  (forall href : string,
      PyStr.startswith href "/" = true ->
      normalize_href href = ("https://ec.europa.eu" ++ PyStr.before_first "?" href)%string /\
      is_absolute (normalize_href href) = true) /\
  (forall href : string,
      PyStr.startswith href "/" = false ->
      normalize_href href = PyStr.before_first "?" href).
Proof.
  split; [ vm_compute; reflexivity | ].
  split; [ reflexivity | ].
  split.
  - intros href E. rewrite (normalize_href_rooted href E). split; reflexivity.
  - exact normalize_href_other.
Qed.

(** X10.  Normalising a URL that [get_initiative_urls] has normalised
    changes nothing: the URLs it returns are fixed points of its own
    normalisation. *)
Theorem normalize_href_idempotent (href : string) :
  normalize_href (normalize_href href) = normalize_href href.
Proof.
  destruct (PyStr.startswith href "/") eqn:E.
  - rewrite (normalize_href_rooted href E).
    rewrite normalize_href_other by reflexivity.
    change (PyStr.before_first "?" ("https://ec.europa.eu" ++ PyStr.before_first "?" href))
      with ("https://ec.europa.eu"
            ++ PyStr.before_first "?" (PyStr.before_first "?" href))%string.
    now rewrite before_first_idempotent.
  - rewrite (normalize_href_other href E).
    rewrite normalize_href_other by now apply before_first_start.
    apply before_first_idempotent.
Qed.

Lemma list_last_none {A : Type} (l : list A) : list_last l = None <-> l = [].
Proof.
  induction l as [ | a [ | b t] IH]; simpl; split; try discriminate; try reflexivity.
  - intros Hn. apply IH in Hn. discriminate.
Qed.

Lemma first_occurrences_nil (l : list string) : first_occurrences l = [] <-> l = [].
Proof.
  destruct l as [ | x rest]; [ split; reflexivity | ].
  split; discriminate.
Qed.

(** X11.  The URL read from the capture dictionary after a sequence of
    requests: there is none exactly when no request went to the download
    endpoint; a URL read is one of the requests and a download URL; and
    when no download URL was requested twice it is the latest such request. *)
Theorem latest_url_read (request_urls : list string) :
  (latest_url_of (handle_requests request_urls []) = None
   <-> capture_log request_urls = []) /\
  (forall u, latest_url_of (handle_requests request_urls []) = Some u ->
             In u request_urls /\ download_url u) /\
  (NoDup (capture_log request_urls) ->
   latest_url_of (handle_requests request_urls [])
   = list_last (capture_log request_urls)).
Proof.
  unfold latest_url_of. rewrite captured_values. split; [ | split ].
  - rewrite list_last_none. apply first_occurrences_nil.
  - intros u Hu. apply list_last_In in Hu. unfold first_occurrences in Hu.
    apply first_occurrences_from_In in Hu. destruct Hu as [Hu _].
    unfold capture_log in Hu. apply filter_In in Hu. exact Hu.
  - intros Hnd. unfold first_occurrences.
    rewrite first_occurrences_from_NoDup_id; auto.
Qed.

(** X12.  On a listing of two result pages whose first page has a card and
    a next-page control, the walk stops after the first page only when the
    [disabled] attribute of the control is a non-empty string; when the
    attribute is absent or empty the control is clicked and the second page
    is read too. *)
Theorem disabled_attribute_decides (c : StaticSite.Card) (cs : list StaticSite.Card)
    (disabled : option string) (q : StaticSite.ListingPage)
    (docs : list (string * StaticSite.Document)) (ts : string) (k : nat) :
  let p := StaticSite.mkListingPage (c :: cs) (Some disabled) in
  exists w',
    get_initiative_urls StaticSite.browser (2 + k)
      (StaticSite.start (StaticSite.mkSite [p; q] docs) ts)
    = (w',
       Return (Some (first_occurrences
                       (map normalize_href
                          (StaticWalk.page_hrefs p
                           ++ match disabled with
                              | Some (String _ _) => []
                              | _ => StaticWalk.page_hrefs q
                              end))))).
Proof.
  intros p.
  destruct (StaticWalkFacts.get_initiative_urls_run (StaticSite.mkSite [p; q] docs) ts k)
    as [w' E].
  exists w'. simpl length in E. rewrite E. do 3 f_equal.
  unfold StaticWalk.listed_urls, StaticWalk.walked. simpl.
  destruct disabled as [[ | a t] | ]; simpl; rewrite ?app_nil_r; try reflexivity;
    destruct (StaticSite.next_control q) as [d' | ]; simpl; rewrite ?app_nil_r;
    try reflexivity; destruct (PyStr.truthy d'); simpl; rewrite ?app_nil_r; reflexivity.
Qed.

(* ================================================================== *)
(** * Extraction from a scripted consultation page *)

Module ScriptedPage.

Import StaticSite StaticWalk.

Section Runs.

Variable st : Site.
Variable ts : string.

Lemma topic_loop_run (v : View) (terms : list (string * option string)) (s : Frame) :
  topic_loop browser (map (fun t => ETerm (fst t) (snd t)) terms) (at_view st v ts) s
  = (at_view st v ts, assign set_topic (found_topic terms) s, Return tt).
Proof.
  set (w := at_view st v ts).
  induction terms as [ | [label definition] rest IH]; [ reflexivity | ].
  simpl map. cbn [topic_loop found_topic].
  rewrite (bind_run (await (element_inner_text browser (ETerm label definition))) _
             w s w s label) by reflexivity.
  destruct (PyStr.contains "topic" (PyStr.lower label)); [ | exact IH ].
  destruct definition as [text | ].
  - rewrite (bind_run (await (element_next_sibling browser (ETerm label (Some text)))) _
               w s w s (Some (EText text))) by reflexivity.
    rewrite (bind_run (await (element_inner_text browser (EText text))) _
               w s w s text) by reflexivity.
    destruct text; reflexivity.
  - rewrite (bind_run (await (element_next_sibling browser (ETerm label None))) _
               w s w s None) by reflexivity.
    exact IH.
Qed.

Lemma feedback_loop_run (v : View) (headings : list string) (s : Frame) :
  exists r,
    feedback_loop browser (map EText headings) (at_view st v ts) s
    = (at_view st v ts, assign set_total_feedback (found_feedback headings) s, r).
Proof.
  set (w := at_view st v ts).
  induction headings as [ | text rest IH]; [ eexists; reflexivity | ].
  simpl map. cbn [feedback_loop found_feedback].
  rewrite (bind_run (await (element_inner_text browser (EText text))) _
             w s w s text) by reflexivity.
  destruct (PyStr.contains "feedback" (PyStr.lower text)
            && PyStr.contains "received" (PyStr.lower text)); [ | exact IH ].
  destruct (PyStr.search_colon_number text) as [digits | ]; [ | eexists; reflexivity ].
  destruct (py_int digits) as [n | e]; eexists; reflexivity.
Qed.

Variable c : ConsultationPage.

Let wC : World := at_view st (ShowDocument (Consultation c)) ts.

Lemma extract_topic_run (s : Frame) :
  extract_topic browser wC s = (wC, assign set_topic (found_topic (terms c)) s, Return tt).
Proof.
  unfold extract_topic, try_except.
  rewrite (bind_run (await (page_query_selector_all browser SEL_TERM)) _
             wC s wC s (map (fun t => ETerm (fst t) (snd t)) (terms c))) by reflexivity.
  unfold wC. rewrite topic_loop_run. reflexivity.
Qed.

Lemma extract_period_run (s : Frame) :
  extract_period browser wC s
  = (wC, assign set_consultation_period (option_map PyStr.strip (period c)) s, Return tt).
Proof.
  unfold extract_period, try_except.
  rewrite (bind_run (await (page_query_selector browser SEL_PERIOD)) _
             wC s wC s (option_map EText (period c))) by reflexivity.
  destruct (period c) as [text | ]; reflexivity.
Qed.

Lemma extract_feedback_run (s : Frame) :
  extract_feedback browser wC s
  = (wC, assign set_total_feedback (found_feedback (h4_headings c)) s, Return tt).
Proof.
  unfold extract_feedback, try_except.
  rewrite (bind_run (await (page_query_selector_all browser "h4")) _
             wC s wC s (map EText (h4_headings c))) by reflexivity.
  destruct (feedback_loop_run (ShowDocument (Consultation c)) (h4_headings c) s) as [r E].
  fold wC in E. rewrite E. destruct r as [[] | e]; reflexivity.
Qed.

Lemma h3_loop_run (headings acc : list string) (s : Frame) :
  h3_loop browser (map EText headings) acc wC s
  = (wC, s, Return (acc ++ map PyStr.strip headings)%list).
Proof.
  revert acc. induction headings as [ | text rest IH]; intros acc.
  - simpl. now rewrite app_nil_r.
  - simpl map. cbn [h3_loop].
    rewrite (bind_run (await (element_inner_text browser (EText text))) _
               wC s wC s text) by reflexivity.
    rewrite IH, <- app_assoc. reflexivity.
Qed.

Lemma process_file_run (hs hc : bool) (f : FileEntry) (s : Frame) :
  process_file browser hs hc (EFile f) wC s = (wC, file_step hs hc s f, Return tt).
Proof.
  destruct s as [d cap], f as [[title | ] [triggers | ]];
    unfold process_file, file_step; try reflexivity.
  cbn [file_title file_link].
  rewrite (bind_run (listening browser (element_query_selector browser _ SEL_FILE_TITLE)) _
             wC (mkFrame d cap) wC (mkFrame d cap) (Some (EText title))) by reflexivity.
  rewrite (bind_run (listening browser (element_inner_text browser (EText title))) _
             wC (mkFrame d cap) wC (mkFrame d cap) title) by reflexivity.
  cbv zeta.
  rewrite (bind_run (listening browser (element_query_selector browser _ "a")) _
             wC (mkFrame d cap) wC (mkFrame d cap) (Some (ELink triggers))) by reflexivity.
  unfold try_except, bind, listening, get, modify, ret. simpl.
  destruct (list_last (dict_values (handle_requests triggers cap))); reflexivity.
Qed.

Lemma files_loop_run (hs hc : bool) (fs : list FileEntry) (s : Frame) :
  files_loop browser hs hc (map EFile fs) wC s
  = (wC, fold_left (file_step hs hc) fs s, Return tt).
Proof.
  revert s. induction fs as [ | f rest IH]; intros s; [ reflexivity | ].
  simpl map. cbn [files_loop fold_left].
  rewrite (bind_run (process_file browser hs hc (EFile f)) _ wC s wC (file_step hs hc s f) tt)
    by apply process_file_run.
  apply IH.
Qed.

Lemma extract_outcome_run (s : Frame) :
  extract_outcome browser wC s
  = (wC,
     fold_left (file_step (summary_section c) (contributions_section c)) (files c)
       (set_captured_urls [] s),
     Return tt).
Proof.
  unfold extract_outcome, try_except.
  rewrite (bind_run (await (page_query_selector_all browser "h3")) _
             wC s wC s (map EText (h3_headings c))) by reflexivity.
  rewrite (bind_run (h3_loop browser (map EText (h3_headings c)) []) _
             wC s wC s (map PyStr.strip (h3_headings c))) by apply h3_loop_run.
  cbv zeta.
  rewrite (bind_run (await (page_query_selector_all browser SEL_FILE)) _
             wC s wC s (map EFile (files c))) by reflexivity.
  rewrite (bind_run (modify (set_captured_urls [])) _
             wC s wC (set_captured_urls [] s) tt) by reflexivity.
  rewrite files_loop_run. reflexivity.
Qed.

Lemma extract_consultation_data_run (s : Frame) :
  extract_consultation_data browser wC s
  = (wC,
     fold_left (file_step (summary_section c) (contributions_section c)) (files c)
       (set_captured_urls []
          (assign set_total_feedback (found_feedback (h4_headings c))
             (assign set_consultation_period (option_map PyStr.strip (period c))
                (assign set_topic (found_topic (terms c)) s)))),
     Return tt).
Proof.
  unfold extract_consultation_data.
  rewrite (bind_run (extract_topic browser) _ wC s _ _ tt (extract_topic_run s)).
  rewrite (bind_run (extract_period browser) _ wC _ _ _ tt (extract_period_run _)).
  rewrite (bind_run (extract_feedback browser) _ wC _ _ _ tt (extract_feedback_run _)).
  apply extract_outcome_run.
Qed.

End Runs.

Lemma consultation_link_not_search (url link : string) :
  construct_consultation_link url = Some link -> String.eqb link SEARCH_URL = false.
Proof.
  unfold construct_consultation_link. cbv zeta.
  set (base := if PyStr.endswith _ _ then _ else _). intros [= <-].
  destruct (String.eqb (base ++ "/public-consultation_en") SEARCH_URL) eqn:E;
    [ | reflexivity ].
  apply String.eqb_eq in E.
  pose proof (endswith_append base "/public-consultation_en") as He.
  rewrite E in He. vm_compute in He. discriminate He.
Qed.

Lemma load_consultation_some {W H : Type} (pw : Playwright W H) (url link : string) :
  construct_consultation_link url = Some link ->
  load_consultation pw (Some link)
  = (modify (on_data (set_consultation_url link)) ;;
     await (page_goto pw link) ;;
     wait_for_page_load pw ;;
     extract_consultation_data pw ;;
     modify (on_data (set_scrape_status "success")) ;;
     ret Fallthrough).
Proof.
  intros E. destruct (construct_consultation_link_nonempty url) as (a & t & E').
  rewrite E in E'. injection E' as ->. reflexivity.
Qed.

Section Record.

Variable st : Site.
Variable ts url link : string.
Variable h : option string.
Variable c : ConsultationPage.

Hypothesis url_not_search : String.eqb url SEARCH_URL = false.
Hypothesis overview_at_url : lookup url (documents st) = Some (Overview h).
Hypothesis link_of_url : construct_consultation_link url = Some link.
Hypothesis consultation_at_link : lookup link (documents st) = Some (Consultation c).

Lemma load_initiative_run (s : Frame) :
  load_initiative browser url (start st ts) s
  = (at_view st (ShowDocument (Overview h)) ts,
     match h with
     | Some text => on_data (set_initiative_name (PyStr.strip text))
     | None => fun s => s
     end
       (match PyStr.search_lit_digits "/initiatives/" url with
        | Some group1 => on_data (set_initiative_id group1)
        | None => fun s => s
        end s),
     Return tt).
Proof.
  unfold load_initiative.
  destruct (PyStr.search_lit_digits "/initiatives/" url) as [g | ];
    unfold bind, await, modify, ret, wait_for_page_load, try_except;
    cbn [page_goto browser]; unfold goto; rewrite url_not_search;
    cbn [site start documents]; rewrite overview_at_url;
    destruct h; reflexivity.
Qed.

Lemma scrape_try_run :
  scrape_try browser url (start st ts) (entry_frame browser url (start st ts))
  = (at_view st (ShowDocument (Consultation c)) ts,
     on_data (set_scrape_status "success") (extracted_frame st ts url link h c),
     Return Fallthrough).
Proof.
  unfold scrape_try.
  rewrite (bind_run (load_initiative browser url) _ _ _ _ _ tt (load_initiative_run _)).
  rewrite link_of_url.
  rewrite (load_consultation_some browser url link link_of_url).
  rewrite (bind_run (modify (on_data (set_consultation_url link))) _
             _ _ _ _ tt eq_refl).
  fold (loaded_frame st ts url link h).
  assert (await (page_goto browser link)
            (at_view st (ShowDocument (Overview h)) ts) (loaded_frame st ts url link h)
          = (at_view st (ShowDocument (Consultation c)) ts,
             loaded_frame st ts url link h, Return tt)) as Hgoto.
  { unfold await. cbn [page_goto browser]. unfold goto.
    rewrite (consultation_link_not_search url link link_of_url).
    cbn [site at_view documents]. rewrite consultation_at_link. reflexivity. }
  rewrite (bind_run _ _ _ _ _ _ tt Hgoto).
  rewrite (bind_run (wait_for_page_load browser) _
             (at_view st (ShowDocument (Consultation c)) ts)
             (loaded_frame st ts url link h)
             (at_view st (ShowDocument (Consultation c)) ts)
             (loaded_frame st ts url link h) tt eq_refl).
  rewrite (bind_run (extract_consultation_data browser) _ _ _ _ _ tt
             (extract_consultation_data_run st ts c (loaded_frame st ts url link h))).
  reflexivity.
Qed.

Lemma scripted_run :
  scrape_consultation browser url (start st ts)
  = (at_view st (ShowDocument (Consultation c)) ts,
     Return (set_scrape_status "success" (data (extracted_frame st ts url link h c)))).
Proof.
  pose proof (scrape_consultation_run browser url (start st ts)) as R.
  unfold try_except in R. rewrite scrape_try_run in R. exact R.
Qed.

End Record.

Lemma handle_requests_app (l1 l2 : list string) (d : dict) :
  handle_requests (l1 ++ l2) d = handle_requests l2 (handle_requests l1 d).
Proof. unfold handle_requests. apply fold_left_app. Qed.

(** The loop on the frame and the account from the requests agree, as long
    as the dictionary holds what the listener made of the requests so far. *)
Lemma fold_file_step (hs hc : bool) (fs : list FileEntry) (log : list string) (s : Frame) :
  captured_urls s = handle_requests log [] ->
  data (fold_left (file_step hs hc) fs s) = attribute hs hc log fs (data s).
Proof.
  revert log s. induction fs as [ | f rest IH]; intros log s Hc; [ reflexivity | ].
  cbn [fold_left attribute]. unfold file_step at 2.
  destruct (file_title f) as [title | ]; [ | now apply IH ].
  destruct (file_link f) as [triggers | ]; [ | now apply IH ].
  cbv zeta. cbn [captured_urls set_captured_urls].
  rewrite Hc, <- handle_requests_app, captured_values.
  destruct (list_last (first_occurrences (capture_log (log ++ triggers)))) as [u | ].
  - rewrite (IH (log ++ triggers)%list).
    + cbn [data on_data set_captured_urls]. now rewrite record_artifact_classify.
    + cbn [captured_urls on_data set_captured_urls]. reflexivity.
  - rewrite (IH (log ++ triggers)%list); [ reflexivity | ].
    cbn [captured_urls set_captured_urls]. reflexivity.
Qed.

(** Recording an artifact and assigning the status do not interfere. *)
Lemma attribute_status (hs hc : bool) (v : string) (fs : list FileEntry)
    (log : list string) (d : ConsultationData) :
  set_scrape_status v (attribute hs hc log fs d)
  = attribute hs hc log fs (set_scrape_status v d).
Proof.
  revert log d. induction fs as [ | f rest IH]; intros log d; [ reflexivity | ].
  cbn [attribute].
  destruct (file_title f) as [title | ]; [ | apply IH ].
  destruct (file_link f) as [triggers | ]; [ | apply IH ].
  rewrite IH. f_equal.
  destruct (list_last (first_occurrences (capture_log (log ++ triggers)))) as [u | ];
    [ | reflexivity ].
  destruct (classify hs hc (PyStr.lower (PyStr.strip title))) as [[ | | ] | ]; reflexivity.
Qed.

End ScriptedPage.

(** X13.  The record of an initiative whose two pages are scripted: the
    overview page at the initiative URL, the consultation page at the
    constructed URL.  The call returns with status ["success"]; the
    identifier is read from the URL, the name is the stripped heading, the
    topic, the period and the feedback count are what the first matching
    elements of the page give, and the artifacts are those the file entries
    record one after the other. *)
Theorem scripted_page_record (st : StaticSite.Site) (ts url link : string)
    (h : option string) (c : StaticSite.ConsultationPage) :
  String.eqb url SEARCH_URL = false ->
  StaticSite.lookup url (StaticSite.documents st) = Some (StaticSite.Overview h) ->
  construct_consultation_link url = Some link ->
  StaticSite.lookup link (StaticSite.documents st) = Some (StaticSite.Consultation c) ->
  scrape_consultation StaticSite.browser url (StaticSite.start st ts)
  = (StaticWalk.at_view st (StaticSite.ShowDocument (StaticSite.Consultation c)) ts,
     Return
       (attribute (summary_section c) (contributions_section c) [] (StaticSite.files c)
          {| initiative_id := initiative_id_of url;
             initiative_name := match h with
                                | Some text => PyStr.strip text
                                | None => ""
                                end;
             initiative_url := url;
             consultation_url := link;
             topic := found_topic (StaticSite.terms c);
             consultation_period := option_map PyStr.strip (StaticSite.period c);
             total_feedback := found_feedback (StaticSite.h4_headings c);
             has_summary_report := false;
             summary_report_url := None;
             has_contributions_zip := false;
             contributions_zip_url := None;
             has_documents_annexed := false;
             documents_annexed_url := None;
             scrape_timestamp := ts;
             scrape_status := "success";
             error_message := None |})).
Proof.
  intros Hurl Hover Hlink Hcons.
  rewrite (ScriptedPage.scripted_run st ts url link h c Hurl Hover Hlink Hcons).
  do 2 f_equal. unfold extracted_frame.
  rewrite (ScriptedPage.fold_file_step _ _ _ []) by reflexivity.
  rewrite ScriptedPage.attribute_status. f_equal.
  unfold loaded_frame, initiative_id_of, assign.
  destruct (PyStr.search_lit_digits "/initiatives/" url), h,
    (found_topic (StaticSite.terms c)), (StaticSite.period c),
    (found_feedback (StaticSite.h4_headings c)); reflexivity.
Qed.

Lemma scripted_page_record_witness :
  String.eqb Scenario.url_foo SEARCH_URL = false /\
  StaticSite.lookup Scenario.url_foo (StaticSite.documents Scenario.sample_site)
  = Some (StaticSite.Overview (Some " Foo initiative ")) /\
  construct_consultation_link Scenario.url_foo
  = Some (Scenario.HOME ++ "/initiatives/14622-Foo/public-consultation_en")%string /\
  StaticSite.lookup (Scenario.HOME ++ "/initiatives/14622-Foo/public-consultation_en")
    (StaticSite.documents Scenario.sample_site)
  = Some (StaticSite.Consultation Scenario.foo_consultation) /\
  snd (scrape_consultation StaticSite.browser Scenario.url_foo Scenario.sample_start)
  = Return Scenario.foo_record.
Proof.
  do 4 (split; [ vm_compute; reflexivity | ]).
  unfold Scenario.sample_start.
  rewrite (scripted_page_record Scenario.sample_site "2025-06-01T12:00:00"
             Scenario.url_foo
             (Scenario.HOME ++ "/initiatives/14622-Foo/public-consultation_en")
             (Some " Foo initiative ") Scenario.foo_consultation)
    by (vm_compute; reflexivity).
  vm_compute. reflexivity.
Defined.

(* ================================================================== *)
(** * The number after the colon *)

Lemma search_colon_number_unfold (s : string) :
  PyStr.search_colon_number s =
  match colon_here s with
  | Some ds => Some ds
  | None => match s with
            | EmptyString => None
            | String _ t => PyStr.search_colon_number t
            end
  end.
Proof. destruct s; reflexivity. Qed.

Lemma colon_here_other (a : ascii) (t : string) :
  Ascii.eqb a ":" = false -> colon_here (String a t) = None.
Proof.
  destruct a as [b0 b1 b2 b3 b4 b5 b6 b7].
  destruct b0, b1, b2, b3, b4, b5, b6, b7; try reflexivity; discriminate.
Qed.

Lemma all_digits_all_chars (s : string) : all_digits s = all_chars PyStr.isdigit s.
Proof. induction s as [ | a t IH]; simpl; [ reflexivity | now rewrite IH ]. Qed.

(** A greedy run takes the longest prefix: [span] splits [u ++ v] at the
    seam exactly when [u] is all [p] and [v] does not go on with [p]. *)
Lemma span_append (p : ascii -> bool) (u v : string) :
  all_chars p u = true -> stops p v = true -> PyStr.span p (u ++ v) = (u, v).
Proof.
  intros Hu Hv. induction u as [ | a t IH]; simpl in *.
  - destruct v as [ | b v']; [ reflexivity | ].
    simpl in Hv. apply negb_true_iff in Hv. simpl. now rewrite Hv.
  - apply andb_true_iff in Hu. destruct Hu as [Ha Ht].
    now rewrite Ha, (IH Ht).
Qed.

Lemma span_split (p : ascii -> bool) (s : string) :
  s = (fst (PyStr.span p s) ++ snd (PyStr.span p s))%string /\
  all_chars p (fst (PyStr.span p s)) = true /\
  stops p (snd (PyStr.span p s)) = true.
Proof.
  induction s as [ | a t IH]; simpl; [ now repeat split | ].
  destruct (p a) eqn:E.
  - destruct (PyStr.span p t) as [u v]. simpl in *.
    destruct IH as (Ht & Hu & Hv). repeat split; [ now rewrite <- Ht | now rewrite E | exact Hv ].
  - simpl. now rewrite E.
Qed.

Lemma digit_not_space (a : ascii) : PyStr.isdigit a = true -> PyStr.isspace a = false.
Proof.
  unfold PyStr.isdigit, PyStr.isspace. cbv zeta.
  generalize (nat_of_ascii a). intros n Hn.
  apply andb_true_iff in Hn. destruct Hn as [H1 H2].
  apply Nat.leb_le in H1. apply Nat.leb_le in H2.
  apply orb_false_iff. split; apply andb_false_iff.
  - right. apply Nat.leb_gt. lia.
  - right. apply Nat.leb_gt. lia.
Qed.

Lemma colon_here_some (s ds : string) :
  colon_here s = Some ds ->
  exists ws rest,
    s = (":" ++ ws ++ ds ++ rest)%string /\
    all_chars PyStr.isspace ws = true /\
    all_digits ds = true /\ ds <> EmptyString /\
    stops PyStr.isdigit rest = true.
Proof.
  destruct s as [ | a t]; [ discriminate | ].
  destruct (Ascii.eqb a ":") eqn:Ea.
  - apply Ascii.eqb_eq in Ea. subst a. unfold colon_here.
    destruct (span_split PyStr.isspace t) as (Ht & Hws & _).
    destruct (span_split PyStr.isdigit (snd (PyStr.span PyStr.isspace t)))
      as (Hr & Hds & Hrest).
    destruct (fst (PyStr.span PyStr.isdigit (snd (PyStr.span PyStr.isspace t))))
      as [ | d ds'] eqn:Ed; [ discriminate | ].
    intros [= <-].
    exists (fst (PyStr.span PyStr.isspace t)),
           (snd (PyStr.span PyStr.isdigit (snd (PyStr.span PyStr.isspace t)))).
    repeat split.
    + simpl. f_equal. rewrite Ht at 1. f_equal. exact Hr.
    + exact Hws.
    + now rewrite all_digits_all_chars.
    + discriminate.
    + exact Hrest.
  - now rewrite colon_here_other.
Qed.

Lemma colon_here_found (ws ds rest : string) :
  all_chars PyStr.isspace ws = true ->
  all_digits ds = true -> ds <> EmptyString ->
  stops PyStr.isdigit rest = true ->
  colon_here (":" ++ ws ++ ds ++ rest) = Some ds.
Proof.
  intros Hws Hds Hne Hrest. rewrite all_digits_all_chars in Hds.
  change (colon_here (":" ++ ws ++ ds ++ rest))
    with (match fst (PyStr.span PyStr.isdigit
                       (snd (PyStr.span PyStr.isspace (ws ++ ds ++ rest)))) with
          | EmptyString => None
          | ds0 => Some ds0
          end).
  rewrite (span_append PyStr.isspace ws (ds ++ rest) Hws).
  - simpl snd. rewrite (span_append PyStr.isdigit ds rest Hds Hrest). simpl fst.
    destruct ds; [ now contradiction Hne | reflexivity ].
  - destruct ds as [ | d ds']; [ now contradiction Hne | ].
    simpl in *. apply andb_true_iff in Hds. destruct Hds as [Hd _].
    now rewrite (digit_not_space d Hd).
Qed.

(** X14.  What [re.search(r':\s*(\d+)', text)] gives on ASCII text.  A
    result is a non-empty run of digits that follows a colon and any white
    space, and is not followed by a further digit; a text with no colon
    gives none; and when the first colon of the text is followed by white
    space, digits and something that is no digit, those digits are the
    result. *)
Theorem colon_number_rule :
  (forall text ds : string,
      PyStr.search_colon_number text = Some ds ->
      exists pre ws rest,
        text = (pre ++ ":" ++ ws ++ ds ++ rest)%string /\
        all_chars PyStr.isspace ws = true /\
        all_digits ds = true /\ ds <> EmptyString /\
        stops PyStr.isdigit rest = true) /\
  (forall text : string,
      PyStr.contains ":" text = false -> PyStr.search_colon_number text = None) /\
  (forall pre ws ds rest : string,
      PyStr.contains ":" pre = false ->
      all_chars PyStr.isspace ws = true ->
      all_digits ds = true -> ds <> EmptyString ->
      stops PyStr.isdigit rest = true ->
      PyStr.search_colon_number (pre ++ ":" ++ ws ++ ds ++ rest) = Some ds).
Proof.
  split; [ | split ].
  - intros text. induction text as [ | a t IH]; intros ds;
      rewrite search_colon_number_unfold.
    + discriminate.
    + destruct (colon_here (String a t)) as [ds' | ] eqn:E.
      * intros [= <-]. destruct (colon_here_some _ _ E) as (ws & rest & Hs & H).
        exists EmptyString, ws, rest. split; [ exact Hs | exact H ].
      * intros Hs. destruct (IH ds Hs) as (pre & ws & rest & Ht & H).
        exists (String a pre), ws, rest. split; [ simpl; now rewrite Ht | exact H ].
  - intros text. induction text as [ | a t IH]; intros Hc;
      rewrite search_colon_number_unfold; [ reflexivity | ].
    rewrite contains_char_cons in Hc. apply orb_false_iff in Hc. destruct Hc as [Ha Ht].
    rewrite colon_here_other by (now rewrite Ascii.eqb_sym). exact (IH Ht).
  - intros pre ws ds rest Hpre Hws Hds Hne Hrest.
    induction pre as [ | a t IH]; rewrite search_colon_number_unfold.
    + change ("" ++ ":" ++ ws ++ ds ++ rest)%string with (":" ++ ws ++ ds ++ rest)%string.
      now rewrite (colon_here_found ws ds rest Hws Hds Hne Hrest).
    + rewrite contains_char_cons in Hpre. apply orb_false_iff in Hpre.
      destruct Hpre as [Ha Ht].
      change (String a t ++ ":" ++ ws ++ ds ++ rest)%string
        with (String a (t ++ ":" ++ ws ++ ds ++ rest)).
      rewrite colon_here_other by (now rewrite Ascii.eqb_sym). exact (IH Ht).
Qed.
